(** * SyncVision: the warehouse reconciliation engine

    A shallow embedding of the Odoo module [warehouse_sync_module]
    (models [warehouse.sync] and [warehouse.missing.products], and the
    counters of [warehouse.sync.panel]) and the properties of its
    reconciliation engine.

    Conventions of the embedding.
    - A Python [str] is a [string]; the character predicates below are
      Python's on 7-bit ASCII text ([str.isspace], [str.isalnum],
      [str.lower], [str.upper]).  Outside ASCII they differ from
      Python's (which knows the Unicode letters, digits and spaces), so
      the properties of the normalizers are stated for ASCII input
      ([is_ascii]).
    - A value read from an Odoo [Char] field or from a JSON member is a
      [pyval]: [None], [False] (what Odoo returns for an empty field) or
      a string.
    - A Python [float] is a [spec_float] (IEEE 754 binary64 values are
      the [valid_binary 53 1024] ones); comparisons are [SFeqb], [SFltb]
      and [SFleb].
    - The ORM is an explicit store threaded through a state and
      exception monad.  The environment says which collaborator calls
      raise: the ORM calls made for one item, the commit after a batch,
      the product search, and the calls of the missing-product resolver.
    - Dates are seconds.  The clock is read from the environment; it
      moves on when the chunk loop sleeps, so the rows written after
      later chunks carry later dates. *)

From Stdlib Require Import ZArith List Bool Ascii String Lia.
From Stdlib Require Import Floats.SpecFloat.
From Stdlib Require Import Numbers.DecimalString.
Import ListNotations.

Open Scope string_scope.
Open Scope bool_scope.

(** ** Python strings *)

Module Py.

Inductive pyval :=
| PyNone
| PyFalse
| PyStr (s : string).

(** [str(value)] *)
Definition str (v : pyval) : string :=
  match v with
  | PyNone => "None"
  | PyFalse => "False"
  | PyStr s => s
  end.

(** Truth value of [value] in a condition. *)
Definition truthy (v : pyval) : bool :=
  match v with
  | PyStr (String _ _) => true
  | _ => false
  end.

Definition str_truthy (s : string) : bool :=
  match s with
  | EmptyString => false
  | String _ _ => true
  end.

Definition opt_truthy (o : option string) : bool :=
  match o with
  | Some s => str_truthy s
  | None => false
  end.

Definition code (c : ascii) : N := N_of_ascii c.

Definition between (lo hi : N) (c : ascii) : bool :=
  (lo <=? code c)%N && (code c <=? hi)%N.

(** [ch.isspace()]: TAB, LF, VT, FF, CR, the separators FS..US, and SPACE. *)
Definition isspace (c : ascii) : bool :=
  between 9 13 c || between 28 32 c.

Definition isdigit (c : ascii) : bool := between 48 57 c.
Definition isupper (c : ascii) : bool := between 65 90 c.
Definition islower (c : ascii) : bool := between 97 122 c.

(** [ch.isalnum()] *)
Definition isalnum (c : ascii) : bool :=
  isdigit c || isupper c || islower c.

Definition lower_char (c : ascii) : ascii :=
  if isupper c then ascii_of_N (code c + 32) else c.

Definition upper_char (c : ascii) : ascii :=
  if islower c then ascii_of_N (code c - 32) else c.

Fixpoint map_chars (f : ascii -> ascii) (s : string) : string :=
  match s with
  | EmptyString => EmptyString
  | String c s' => String (f c) (map_chars f s')
  end.

(** [s.lower()] and [s.upper()] *)
Definition lower : string -> string := map_chars lower_char.
Definition upper : string -> string := map_chars upper_char.

Fixpoint lstrip (s : string) : string :=
  match s with
  | EmptyString => EmptyString
  | String c s' => if isspace c then lstrip s' else s
  end.

Fixpoint rstrip (s : string) : string :=
  match s with
  | EmptyString => EmptyString
  | String c s' =>
      match rstrip s' with
      | EmptyString => if isspace c then EmptyString else String c EmptyString
      | r => String c r
      end
  end.

(** [s.strip()] *)
Definition strip (s : string) : string := rstrip (lstrip s).

(** ["".join(ch for ch in s if p(ch))] *)
Fixpoint filter_chars (p : ascii -> bool) (s : string) : string :=
  match s with
  | EmptyString => EmptyString
  | String c s' =>
      if p c then String c (filter_chars p s') else filter_chars p s'
  end.

(** [x in xs] for a list of strings *)
Definition str_in (x : string) (xs : list string) : bool :=
  existsb (String.eqb x) xs.

(** [s.startswith(p)] *)
Definition startswith (s p : string) : bool := String.prefix p s.

(** [sep.join(parts)] *)
Fixpoint join (sep : string) (parts : list string) : string :=
  match parts with
  | [] => ""
  | [p] => p
  | p :: rest => p ++ sep ++ join sep rest
  end.

(** [str(n)] for an integer *)
Definition str_of_Z (n : Z) : string := NilZero.string_of_int (Z.to_int n).

(** All characters are 7-bit. *)
Fixpoint is_ascii (s : string) : bool :=
  match s with
  | EmptyString => true
  | String c s' => (code c <? 128)%N && is_ascii s'
  end.

End Py.

Import Py.

(** ** Identifier normalizer ([warehouse.sync]) *)

Definition placeholders : list string := ["none"; "null"; "n/a"; "na"].

Definition _sanitize_identifier (value : pyval) : string :=
  match value with
  | PyNone => ""
  | _ =>
      let value_str := strip (str value) in
      if negb (str_truthy value_str) then ""
      else
        let lowered := lower value_str in
        if str_in lowered placeholders then "" else value_str
  end.

Definition _normalize_identifier (value : pyval) : option string :=
  if negb (truthy value) then None
  else
    let value_str := strip (str value) in
    if negb (str_truthy value_str) || (lower value_str =? "none") then None
    else
      let normalized := filter_chars isalnum value_str in
      if str_truthy normalized then Some (upper normalized) else None.


(** ** Python numbers *)

Module Num.

Definition prec : Z := 53.
Definition emax : Z := 1024.

(** [float(z)]: the binary64 value of a Python [int]. *)
Definition flt (z : Z) : spec_float := binary_normalize prec emax z 0 false.

(** A quantity is a Python [int] (the literals of the stock rule) or a
    [float] (a feed quantity, a [Float] field). *)
Inductive pynum :=
| PInt (z : Z)
| PFloat (f : spec_float).

Definition to_float (n : pynum) : spec_float :=
  match n with
  | PInt z => flt z
  | PFloat f => f
  end.

(** [a == b], [a != b] and [a < b] between numbers.  Python compares an
    [int] with a [float] exactly; the integers that occur here are below
    2^53, where [flt] is exact. *)
Definition num_eqb (a b : pynum) : bool :=
  match a, b with
  | PInt x, PInt y => Z.eqb x y
  | _, _ => SFeqb (to_float a) (to_float b)
  end.

Definition num_neb (a b : pynum) : bool := negb (num_eqb a b).

Definition num_ltb (a b : pynum) : bool :=
  match a, b with
  | PInt x, PInt y => Z.ltb x y
  | _, _ => SFltb (to_float a) (to_float b)
  end.

(** [float(v or 0.0)] for a JSON number [v] that may be absent. *)
Definition float_or_zero (v : option spec_float) : spec_float :=
  match v with
  | None => flt 0
  | Some f => if SFeqb f (flt 0) then flt 0 else f
  end.

End Num.

Import Num.

(** ** Data model *)

(** One processed feed item, as [_fetch_api_data] stores it in both
    lookup dictionaries (keys ['ext_id'], ['qty'], ['sku'], ['barcode'],
    ['brand'], ['normalized_sku']).  [entry_normalized_sku] is [None]
    when the key is not set. *)
Record entry := {
  entry_ext_id : string;
  entry_qty : spec_float;
  entry_sku : string;
  entry_barcode : option string;
  entry_brand : string;
  entry_normalized_sku : option string
}.

(** A Python [dict] with string keys: insertion ordered, assignment to a
    present key keeps its position. *)
Definition dict (V : Type) : Type := list (string * V).

Fixpoint dict_get {V} (d : dict V) (k : string) : option V :=
  match d with
  | [] => None
  | (k', v) :: d' => if k' =? k then Some v else dict_get d' k
  end.

Definition dict_mem {V} (k : string) (d : dict V) : bool :=
  match dict_get d k with
  | Some _ => true
  | None => false
  end.

Fixpoint dict_set {V} (d : dict V) (k : string) (v : V) : dict V :=
  match d with
  | [] => [(k, v)]
  | (k', v') :: d' =>
      if k' =? k then (k, v) :: d' else (k', v') :: dict_set d' k v
  end.

(** A Python [set] of strings. *)
Definition set_mem (k : string) (s : list string) : bool := str_in k s.

Definition set_add (k : string) (s : list string) : list string :=
  if set_mem k s then s else k :: s.

Definition set_update (s t : list string) : list string :=
  fold_left (fun acc k => set_add k acc) t s.

Record api_data := {
  by_sku : dict entry;
  by_barcode : dict entry
}.

(** The feed envelope. *)
Record feed_item := {
  item_sku : pyval;
  item_barcode : pyval;
  item_itemNumber : pyval;
  item_brand : pyval;
  item_southbayStock : option spec_float
}.

(** [success] is the truth value of [payload.get("success")]; [data] is
    [None] when the payload has no ["data"] member. *)
Record payload := {
  success : bool;
  data : option (list feed_item)
}.

(** What [requests.get(url, timeout=30)] and [response.json()] produce:
    a timeout, any other transport or decoding exception, or a payload. *)
Inductive http_response :=
| Timeout
| TransportError (msg : string)
| Body (p : payload).

(** [product.template] and [product.product] rows. *)
Record template := {
  tmpl_id : Z;
  tmpl_default_code : pyval;
  tmpl_brand : pyval;
  product_variant_id : option Z;
  product_variant_ids : list Z
}.

Record product := {
  id : Z;
  active : bool;
  default_code : pyval;
  product_barcode : pyval;
  detailed_type : pyval;
  type : pyval;
  product_tmpl_id : option template
}.

(** [warehouse.sync.log] rows. *)
Record log_entry := {
  log_sku : string;
  log_brand : option string;
  log_main_id : option string;
  log_barcode : option string;
  log_quantity : pynum;
  log_alert : bool;
  log_note : string
}.

(** [warehouse.unpublished.products] rows. *)
Record unpublished_entry := {
  unp_sku : string;
  unp_brand : string;
  unp_main_id : option string;
  unp_barcode : option string;
  unp_quantity : spec_float;
  unp_missing_fields : string;
  unp_sync_date : Z;
  unp_note : string
}.

(** [warehouse.missing.products] rows. *)
Inductive status := missing | created | ignored.

Definition status_eqb (a b : status) : bool :=
  match a, b with
  | missing, missing | created, created | ignored, ignored => true
  | _, _ => false
  end.

Record missing_record := {
  mp_sku : string;
  mp_main_id : option string;
  mp_barcode : option string;
  mp_quantity : spec_float;
  mp_brand : option string;
  mp_create_date : Z;
  mp_sync_date : Z;
  mp_status : status;
  mp_note : string
}.

(** The configuration panel row ([warehouse.sync.panel]). *)
Record panel_config := {
  filter_missing_products : bool;
  allowed_prefixes : pyval;
  send_email_report : bool
}.

(** ** The store and the exception monad *)

(** The tables the engine writes.  Tables are kept in their [_order]
    (newest first), so [create] puts a row in front and
    [search(..., limit=1)] takes the first match.  [website_published]
    is indexed by template id and [qty_available] by product id. *)
Record store := {
  sync_log : list log_entry;
  unpublished_products : list unpublished_entry;
  missing_products : list missing_record;
  website_published : Z -> bool;
  qty_available : Z -> spec_float;
  commits : nat
}.

(** The ORM calls of the per-item path that can raise. *)
Inductive orm_call :=
| CreateLog
| UpdateStock
| WritePublished
| CreateUnpublished.

(** Everything a function reads but does not write: the clock, the feed
    response, the product tables (archived rows included, in table
    order), the panel, Python's float formatting, and which collaborator
    calls raise (with the exception's message).  [now] is the reading of
    the clock while the function at hand runs; a caller that sleeps hands
    a later reading to what it calls next.  [resolver_fault] is [Some n]
    when a call of the missing-product resolver raises once [n] entries
    of the feed index have been handled. *)
Record env := {
  now : Z;
  response : http_response;
  inventory : list product;
  templates : list template;
  panel : option panel_config;
  repr_float : spec_float -> string;
  search_fault : option string;
  orm_fault : Z -> orm_call -> option string;
  commit_fault : nat -> option string;
  resolver_fault : option nat
}.

(** The same environment at the clock reading [t]. *)
Definition at_time (t : Z) (e : env) : env :=
  {| now := t;
     response := response e;
     inventory := inventory e;
     templates := templates e;
     panel := panel e;
     repr_float := repr_float e;
     search_fault := search_fault e;
     orm_fault := orm_fault e;
     commit_fault := commit_fault e;
     resolver_fault := resolver_fault e |}.

Inductive res (A : Type) :=
| Ok (a : A)
| Raise (msg : string).
Arguments Ok {A} a.
Arguments Raise {A} msg.

Definition M (A : Type) : Type := store -> res A * store.

Definition ret {A} (a : A) : M A := fun s => (Ok a, s).

Definition bind {A B} (m : M A) (k : A -> M B) : M B :=
  fun s =>
    match m s with
    | (Ok a, s') => k a s'
    | (Raise msg, s') => (Raise msg, s')
    end.

Definition raise {A} (msg : string) : M A := fun s => (Raise msg, s).

(** [try: m  except Exception as e: h(str(e))] *)
Definition catch {A} (m : M A) (h : string -> M A) : M A :=
  fun s =>
    match m s with
    | (Ok a, s') => (Ok a, s')
    | (Raise msg, s') => h msg s'
    end.

Definition modify (f : store -> store) : M unit := fun s => (Ok tt, f s).
Definition gets {A} (f : store -> A) : M A := fun s => (Ok (f s), s).

Declare Scope py_scope.
Delimit Scope py_scope with py.
Notation "x <- m ;; k" := (bind m (fun x => k))
  (at level 61, m at next level, right associativity) : py_scope.
Notation "m ;; k" := (bind m (fun _ => k))
  (at level 61, right associativity) : py_scope.
Notation "'when' b 'then' m" := (if b then m else ret tt)
  (at level 60, b at level 9) : py_scope.
Open Scope py_scope.

(** A collaborator call of the per-item path: raises when the
    environment says so, before it has any effect. *)
Definition orm (e : env) (pid : Z) (c : orm_call) : M unit :=
  match orm_fault e pid c with
  | Some msg => raise msg
  | None => ret tt
  end.

Definition set_sync_log (l : list log_entry) (s : store) : store :=
  {| sync_log := l;
     unpublished_products := unpublished_products s;
     missing_products := missing_products s;
     website_published := website_published s;
     qty_available := qty_available s;
     commits := commits s |}.

Definition set_unpublished_products (l : list unpublished_entry) (s : store)
  : store :=
  {| sync_log := sync_log s;
     unpublished_products := l;
     missing_products := missing_products s;
     website_published := website_published s;
     qty_available := qty_available s;
     commits := commits s |}.

Definition set_missing_products (l : list missing_record) (s : store)
  : store :=
  {| sync_log := sync_log s;
     unpublished_products := unpublished_products s;
     missing_products := l;
     website_published := website_published s;
     qty_available := qty_available s;
     commits := commits s |}.

Definition set_website_published (t : Z) (b : bool) (s : store) : store :=
  {| sync_log := sync_log s;
     unpublished_products := unpublished_products s;
     missing_products := missing_products s;
     website_published := fun t' => if Z.eqb t' t then b else website_published s t';
     qty_available := qty_available s;
     commits := commits s |}.

Definition set_qty_available (p : Z) (q : spec_float) (s : store) : store :=
  {| sync_log := sync_log s;
     unpublished_products := unpublished_products s;
     missing_products := missing_products s;
     website_published := website_published s;
     qty_available := fun p' => if Z.eqb p' p then q else qty_available s p';
     commits := commits s |}.

Definition incr_commits (s : store) : store :=
  {| sync_log := sync_log s;
     unpublished_products := unpublished_products s;
     missing_products := missing_products s;
     website_published := website_published s;
     qty_available := qty_available s;
     commits := S (commits s) |}.

(** [self.env.cr.commit()] after chunk number [chunk_num]. *)
Definition commit (e : env) (chunk_num : nat) : M unit :=
  match commit_fault e chunk_num with
  | Some msg => raise msg
  | None => modify incr_commits
  end.

(** ** [warehouse.missing.products] *)

Module WarehouseMissingProducts.

(** [re.sub(r'[^0-9A-Za-z]+', '', s).upper()], and [''] for a falsy [s]. *)
Definition _sv_norm_sku (s : pyval) : string :=
  if negb (truthy s) then ""
  else upper (filter_chars isalnum (str s)).

(** [pat in s] *)
Fixpoint contains (s pat : string) : bool :=
  String.prefix pat s ||
  match s with
  | EmptyString => false
  | String _ s' => contains s' pat
  end.

(** The domain leaf [(field, 'ilike', pat)]: case-insensitive substring
    match; an empty field matches nothing. *)
Definition ilike (field : pyval) (pat : string) : bool :=
  match field with
  | PyStr s => contains (lower s) (lower pat)
  | _ => false
  end.

(** [s[:4]] and [s[-4:]] *)
Definition head4 (s : string) : string := substring 0 4 s.
Definition tail4 (s : string) : string :=
  substring (String.length s - 4) 4 s.

(** [field == api_sku] for the domain leaf [('default_code', '=', api_sku)] *)
Definition field_eqb (field : pyval) (s : string) : bool :=
  match field with
  | PyStr x => x =? s
  | _ => false
  end.

(** Returns the id of the product found, [None] for the empty recordset. *)
Definition _sv_find_product_by_sku_only_relaxed (e : env) (api_sku : string)
  : option Z :=
  let norm_target := _sv_norm_sku (PyStr api_sku) in
  if negb (str_truthy norm_target) then None
  else
    let head := head4 norm_target in
    let tail := tail4 norm_target in
    let candidates :=
      firstn 200
        (filter (fun p => ilike (default_code p) head && ilike (default_code p) tail)
                (inventory e)) in
    match find (fun p => _sv_norm_sku (default_code p) =? norm_target) candidates with
    | Some p => Some (id p)
    | None =>
        let tmpl_candidates :=
          firstn 200
            (filter (fun t => ilike (tmpl_default_code t) head
                              && ilike (tmpl_default_code t) tail)
                    (templates e)) in
        match find (fun t => _sv_norm_sku (tmpl_default_code t) =? norm_target)
                   tmpl_candidates with
        | Some t =>
            match product_variant_id t with
            | Some v => Some v
            | None =>
                match product_variant_ids t with
                | v :: _ => Some v
                | [] => None
                end
            end
        | None =>
            match find (fun p => field_eqb (default_code p) api_sku) (inventory e) with
            | Some p => Some (id p)
            | None => None
            end
        end
    end.

(** The [vals] dictionary the engine passes to [create]; it carries no
    ['status'] and no ['default_code'] key. *)
Record vals := {
  v_sku : string;
  v_brand : option string;
  v_main_id : option string;
  v_barcode : option string;
  v_quantity : spec_float;
  v_sync_date : Z;
  v_note : string
}.

Definition newline : string := String (ascii_of_nat 10) EmptyString.

(** [_prepare_vals] followed by the inherited [create]: the row gets
    [create_date = now] and, unless the guard set it, the default status
    ['missing']. *)
Definition create (e : env) (v : vals) : missing_record :=
  let api_sku := if str_truthy (v_sku v) then v_sku v else "" in
  let exists_ := _sv_find_product_by_sku_only_relaxed e api_sku in
  let '(st, note) :=
    match exists_ with
    | Some pid =>
        let msg := "Ignored: SKU matches existing product (normalized). Product ID "
                   ++ str_of_Z pid ++ "." in
        (ignored, if str_truthy (v_note v) then v_note v ++ newline ++ msg else msg)
    | None => (missing, v_note v)
    end in
  {| mp_sku := v_sku v;
     mp_main_id := v_main_id v;
     mp_barcode := v_barcode v;
     mp_quantity := v_quantity v;
     mp_brand := v_brand v;
     mp_create_date := now e;
     mp_sync_date := v_sync_date v;
     mp_status := st;
     mp_note := note |}.


(** The nested helper [_pick_stockable_code] of [action_create_product]:
    [selection] is the list of (key, label) pairs of a selection field;
    a label may be empty. *)
Definition preferred_codes : list string :=
  ["product"; "storable"; "goods"; "stockable"; "normal"; "physical"; "item"].

Definition stockable_hints : list string :=
  ["storable"; "stockable"; "inventory"; "goods"; "physical"].

(** [any(hint in (label or '').lower() for hint in [...])] *)
Definition label_hints (label : pyval) : bool :=
  let lbl := lower (if truthy label then str label else "") in
  existsb (fun hint => contains lbl hint) stockable_hints.

Definition _pick_stockable_code (selection : list (string * pyval))
  : option string :=
  let codes := map fst selection in
  match find (fun code => str_in code codes) preferred_codes with
  | Some code => Some code
  | None =>
      match find (fun kl => label_hints (snd kl)) selection with
      | Some kl => Some (fst kl)
      | None => find (fun key => negb (str_in key ["service"])) codes
      end
  end.

(** [action_ignore_product] on the one record it is called on. *)
Definition action_ignore_product (r : missing_record) : missing_record :=
  {| mp_sku := mp_sku r;
     mp_main_id := mp_main_id r;
     mp_barcode := mp_barcode r;
     mp_quantity := mp_quantity r;
     mp_brand := mp_brand r;
     mp_create_date := mp_create_date r;
     mp_sync_date := mp_sync_date r;
     mp_status := ignored;
     mp_note := "Marked as ignored by user" |}.

End WarehouseMissingProducts.

(** ** [warehouse.sync] *)

Module WarehouseSync.

(** [product] is a one-row recordset, so [not product] is false. *)
Definition _is_stockable_product (p : product) : bool :=
  if truthy (detailed_type p)
  then WarehouseMissingProducts.field_eqb (detailed_type p) "product"
  else WarehouseMissingProducts.field_eqb (type p) "product".

(** [bool(raw and str(raw).strip() and
         str(raw).strip().lower() not in ['none','null','n/a','na',''])] *)
Definition has_identifier (raw : pyval) : bool :=
  truthy raw
  && str_truthy (strip (str raw))
  && negb (str_in (lower (strip (str raw))) ["none"; "null"; "n/a"; "na"; ""]).

(** [_fetch_api_data]: one turn of the loop over [payload["data"]]. *)
Definition add_item (acc : api_data) (item : feed_item) : api_data :=
  let sku := _sanitize_identifier (item_sku item) in
  let barcode := _sanitize_identifier (item_barcode item) in
  let normalized_sku := _normalize_identifier (PyStr sku) in
  let entry :=
    {| entry_ext_id := _sanitize_identifier (item_itemNumber item);
       entry_qty := float_or_zero (item_southbayStock item);
       entry_sku := sku;
       entry_barcode :=
         if str_truthy barcode && negb (lower barcode =? "none")
         then Some barcode else None;
       entry_brand := _sanitize_identifier (item_brand item);
       entry_normalized_sku :=
         if opt_truthy normalized_sku then normalized_sku else None |} in
  let api_products_by_sku :=
    match normalized_sku with
    | Some k => if str_truthy k then dict_set (by_sku acc) k entry else by_sku acc
    | None => by_sku acc
    end in
  let normalized_barcode := _normalize_identifier (PyStr barcode) in
  let api_products_by_barcode :=
    match normalized_barcode with
    | Some k =>
        if str_truthy k then dict_set (by_barcode acc) k entry else by_barcode acc
    | None => by_barcode acc
    end in
  {| by_sku := api_products_by_sku; by_barcode := api_products_by_barcode |}.

(** Every exception of the [try] block ends in [return None]. *)
Definition _fetch_api_data (e : env) : option api_data :=
  match response e with
  | Timeout => None
  | TransportError _ => None
  | Body payload =>
      if negb (success payload) then None
      else
        match data payload with
        | None => None
        | Some items =>
            Some (fold_left add_item items {| by_sku := []; by_barcode := [] |})
        end
  end.

(** The lookup of [_process_single_product]: the pair
    [(api_data, processed_sku)].  An entry is a non-empty [dict], so
    [not api_data] holds exactly when no entry was found. *)
Definition lookup_api (api_products_by_sku api_products_by_barcode : dict entry)
    (normalized_sku normalized_barcode : option string)
  : option entry * option string :=
  let '(api_data, processed_sku) :=
    match normalized_sku with
    | Some k =>
        if str_truthy k && dict_mem k api_products_by_sku
        then (dict_get api_products_by_sku k, Some k)
        else (None, None)
    | None => (None, None)
    end in
  match api_data, normalized_barcode with
  | None, Some b =>
      if str_truthy b && dict_mem b api_products_by_barcode
      then
        let api_data := dict_get api_products_by_barcode b in
        match api_data with
        | Some r =>
            (api_data,
             if opt_truthy (entry_normalized_sku r)
             then entry_normalized_sku r else processed_sku)
        | None => (api_data, processed_sku)
        end
      else (api_data, processed_sku)
  | _, _ => (api_data, processed_sku)
  end.

(** The stock rules of [_process_single_product] (and, literally the
    same chain, of [sync_products]). *)
Definition stock_rule (qty : spec_float) (qty_available : spec_float) : pynum :=
  if SFeqb qty (flt 0) then PInt 0
  else if SFleb (flt 30) qty && SFleb qty (flt 50) then PInt 2
  else if SFltb qty (flt 30) then PInt 0
  else if SFltb (flt 50) qty && SFltb qty (flt 200) then PInt 5
  else if SFleb (flt 200) qty then PInt 10
  else PFloat qty_available.

Definition repr_num (e : env) (n : pynum) : string :=
  match n with
  | PInt z => str_of_Z z
  | PFloat f => repr_float e f
  end.

(** The inventory adjustment: [env.ref], the quant lookup or creation and
    [action_apply_inventory] belong to the inventory store; they raise,
    or the counted quantity becomes the quantity on hand. *)
Definition _update_product_stock (e : env) (p : product) (new_qty : pynum)
  : M unit :=
  orm e (id p) UpdateStock ;;
  modify (set_qty_available (id p) (to_float new_qty)).

Definition _handle_product_publishing (e : env) (p : product)
    (has_sku has_barcode : bool) (api_data : option entry) (qty : spec_float)
  : M unit :=
  match product_tmpl_id p with
  | None => ret tt
  | Some template =>
      let publish := has_sku && has_barcode in
      orm e (id p) WritePublished ;;
      modify (set_website_published (tmpl_id template) publish) ;;
      when (negb publish) then
        (let '(missing_parts, unpublish_reason) :=
           if negb has_sku && negb has_barcode
           then (["SKU"; "barcode"], "Missing both SKU and barcode")
           else if negb has_sku then (["SKU"], "Missing SKU")
           else if negb has_barcode then (["barcode"], "Missing barcode")
           else ([], "Unknown reason") in
         let row :=
           {| unp_sku :=
                if truthy (default_code p) then str (default_code p)
                else "NO_SKU_" ++ str_of_Z (id p);
              unp_brand :=
                match api_data with
                | Some a => entry_brand a
                | None =>
                    if truthy (tmpl_brand template) then str (tmpl_brand template)
                    else "Unknown"
                end;
              unp_main_id :=
                match api_data with
                | Some a => Some (entry_ext_id a)
                | None => None
                end;
              unp_barcode :=
                if truthy (product_barcode p)
                   && negb (lower (str (product_barcode p)) =? "none")
                then Some (str (product_barcode p)) else None;
              unp_quantity :=
                match api_data with
                | Some _ => qty
                | None => flt 0
                end;
              unp_missing_fields :=
                match missing_parts with
                | [] => "Other"
                | _ => join " and " missing_parts
                end;
              unp_sync_date := now e;
              unp_note :=
                "Product unpublished: " ++ unpublish_reason ++ ". " ++
                match api_data with
                | Some _ => "API quantity: " ++ repr_float e qty
                | None => "No API data found"
                end |} in
         orm e (id p) CreateUnpublished ;;
         modify (fun s => set_unpublished_products (row :: unpublished_products s) s))
  end.

Definition _process_single_product (e : env) (p : product)
    (api_products_by_sku api_products_by_barcode : dict entry)
  : M (option string) :=
  let raw_sku := default_code p in
  let raw_barcode := product_barcode p in
  let has_sku := has_identifier raw_sku in
  let has_barcode := has_identifier raw_barcode in
  let sku := _sanitize_identifier raw_sku in
  let barcode := _sanitize_identifier raw_barcode in
  let normalized_sku := _normalize_identifier (PyStr sku) in
  let normalized_barcode := _normalize_identifier (PyStr barcode) in
  let should_process := has_sku || has_barcode in
  let is_stockable := _is_stockable_product p in
  let '(api_data, processed_sku) :=
    lookup_api api_products_by_sku api_products_by_barcode
               normalized_sku normalized_barcode in
  let qty :=
    match api_data with
    | Some a => entry_qty a
    | None => flt 0
    end in
  let ext_id := option_map entry_ext_id api_data in
  let api_brand := option_map entry_brand api_data in
  odoo_qty <- gets (fun s => qty_available s (id p)) ;;
  let new_qty := stock_rule qty odoo_qty in
  let alert := num_ltb new_qty (PInt 5) in
  let log_sku := if str_truthy sku then sku else "NO_SKU_" ++ str_of_Z (id p) in
  let log_barcode :=
    if str_truthy barcode && negb (lower barcode =? "none")
    then Some barcode else None in
  let log_ext_id :=
    match ext_id with
    | Some x => if str_truthy x then Some x else None
    | None => None
    end in
  let log_note :=
    if negb should_process then "SKIPPED: missing SKU and barcode"
    else
      let note :=
        match api_data with
        | None => "No API match; treated as zero inventory"
        | Some _ =>
            if alert then "LOW STOCK"
            else if num_neb new_qty (PFloat odoo_qty)
            then "Stock updated: " ++ repr_float e odoo_qty ++ " → "
                 ++ repr_num e new_qty
            else "Stock OK"
        end in
      match api_data with
      | Some _ =>
          if negb (has_sku && has_barcode)
          then
            let missing_parts :=
              ((if negb has_sku then ["SKU"] else [])
               ++ (if negb has_barcode then ["barcode"] else []))%list in
            match missing_parts with
            | [] => note
            | _ => note ++ " (missing " ++ join " and " missing_parts
                   ++ " - UNPUBLISHED)"
            end
          else note
      | None => note
      end in
  orm e (id p) CreateLog ;;
  modify (fun s =>
    set_sync_log
      ({| log_sku := log_sku;
          log_brand := api_brand;
          log_main_id := log_ext_id;
          log_barcode := log_barcode;
          log_quantity := new_qty;
          log_alert := alert;
          log_note := log_note |} :: sync_log s) s) ;;
  when (should_process && is_stockable && num_neb new_qty (PFloat odoo_qty))
    then _update_product_stock e p new_qty ;;
  _handle_product_publishing e p has_sku has_barcode api_data qty ;;
  ret processed_sku.

(** The [for product in products] loop with its two accumulators. *)
Fixpoint process_products (e : env) (products : list product) (api : api_data)
    (processed_count : nat) (processed_skus : list string)
  : M (nat * list string) :=
  match products with
  | [] => ret (processed_count, processed_skus)
  | product :: rest =>
      r <- catch
             (processed_sku <- _process_single_product e product
                                 (by_sku api) (by_barcode api) ;;
              ret (Some processed_sku))
             (fun _ => ret None) ;;
      match r with
      | Some processed_sku =>
          process_products e rest api (processed_count + 1)
            (match processed_sku with
             | Some k => if str_truthy k then set_add k processed_skus
                         else processed_skus
             | None => processed_skus
             end)
      | None => process_products e rest api processed_count processed_skus
      end
  end.

Definition _process_product_chunk (e : env) (products : list product)
    (api : api_data) : M (nat * list string) :=
  process_products e products api 0 [].

(** The accumulators of [sync_products_chunked]. *)
Record counters := {
  processed : nat;
  failed : nat;
  processed_skus : list string
}.

(** [range(0, total_products, chunk_size)] for a positive [chunk_size]. *)
Definition chunk_starts (total_products chunk_size : nat) : list nat :=
  map (fun k => k * chunk_size)
      (seq 0 ((total_products + chunk_size - 1) / chunk_size)).

(** [time.sleep(2.0)] for a huge inventory, [time.sleep(1.0)] otherwise:
    the seconds the chunk loop sleeps after a commit. *)
Definition sleep_seconds (total_products : nat) : Z :=
  if (8000 <? Z.of_nat total_products)%Z then 2 else 1.

(** The seconds slept once [chunks_done] chunks are done: the sleep
    follows the commit inside the [try], so a chunk whose commit raised
    is not followed by one. *)
Definition slept (e : env) (total_products chunks_done : nat) : Z :=
  sleep_seconds total_products
  * Z.of_nat (List.length
                (filter (fun chunk_num =>
                           match commit_fault e chunk_num with
                           | None => true
                           | Some _ => false
                           end)
                        (seq 1 chunks_done))).

(** One turn of the chunk loop.  [e] is the environment at the start of
    the loop; the chunk runs at the clock reading the earlier sleeps have
    led to.  The accumulators are updated before the commit, so they keep
    their new values when the commit raises; [gc.collect] has no effect
    on the store. *)
Definition process_chunk_at (e : env) (all_products : list product)
    (api : api_data) (chunk_size : nat) (acc : counters) (i : nat) : M counters :=
  let chunk := firstn chunk_size (skipn i all_products) in
  let chunk_num := i / chunk_size + 1 in
  let e := at_time (now e + slept e (List.length all_products) (i / chunk_size)) e in
  fun s =>
    match _process_product_chunk e chunk api s with
    | (Ok (chunk_processed, chunk_processed_skus), s1) =>
        let acc1 :=
          {| processed := processed acc + chunk_processed;
             failed := failed acc;
             processed_skus := set_update (processed_skus acc) chunk_processed_skus |} in
        match commit e chunk_num s1 with
        | (Ok _, s2) => (Ok acc1, s2)
        | (Raise _, s2) =>
            (Ok {| processed := processed acc1;
                   failed := failed acc1 + List.length chunk;
                   processed_skus := processed_skus acc1 |}, s2)
        end
    | (Raise _, s1) =>
        (Ok {| processed := processed acc;
               failed := failed acc + List.length chunk;
               processed_skus := processed_skus acc |}, s1)
    end.

Fixpoint chunk_loop (e : env) (all_products : list product) (api : api_data)
    (chunk_size : nat) (starts : list nat) (acc : counters) : M counters :=
  match starts with
  | [] => ret acc
  | i :: rest =>
      acc' <- process_chunk_at e all_products api chunk_size acc i ;;
      chunk_loop e all_products api chunk_size rest acc'
  end.

(** [s.split(',')] *)
Fixpoint split_comma (s : string) : list string :=
  match s with
  | EmptyString => [""]
  | String c s' =>
      let r := split_comma s' in
      if Ascii.eqb c "," then "" :: r
      else
        match r with
        | h :: t => String c h :: t
        | [] => [String c ""]
        end
  end.

(** [[prefix.strip() for prefix in s.split(',') if prefix.strip()]] *)
Definition parse_prefixes (s : string) : list string :=
  filter str_truthy (map strip (split_comma s)).

(** The row [search([('sku','=',name), ('status','=','missing')], limit=1)]
    finds. *)
Definition is_open (name : string) (r : missing_record) : bool :=
  (mp_sku r =? name) && status_eqb (mp_status r) missing.

(** [existing.write(...)] on the first row that satisfies [f]. *)
Fixpoint write_first (f : missing_record -> bool)
    (upd : missing_record -> missing_record) (table : list missing_record)
  : list missing_record :=
  match table with
  | [] => []
  | r :: rest => if f r then upd r :: rest else r :: write_first f upd rest
  end.

(** One turn of the loop over [api_products_by_sku.items()]. *)
Definition missing_step (e : env) (filter_enabled : bool)
    (allowed_prefixes : list string) (processed_skus : list string)
    (table : list missing_record) (kv : string * entry) : list missing_record :=
  let '(normalized_sku, product_data) := kv in
  if set_mem normalized_sku processed_skus then table
  else
    let sku := entry_sku product_data in
    let brand := entry_brand product_data in
    let ext_id := entry_ext_id product_data in
    let barcode := entry_barcode product_data in
    let qty := entry_qty product_data in
    if filter_enabled
       && (match allowed_prefixes with [] => false | _ => true end)
       && negb (str_truthy sku && existsb (startswith sku) allowed_prefixes)
    then table
    else
      let name := if str_truthy sku then strip sku
                  else "UNKNOWN_SKU_" ++ normalized_sku in
      if existsb (is_open name) table
      then
        write_first (is_open name)
          (fun r =>
             {| mp_sku := mp_sku r;
                mp_main_id := mp_main_id r;
                mp_barcode := mp_barcode r;
                mp_quantity := qty;
                mp_brand := mp_brand r;
                mp_create_date := mp_create_date r;
                mp_sync_date := now e;
                mp_status := mp_status r;
                mp_note :=
                  "Product still missing from Odoo inventory. Latest API quantity: "
                  ++ repr_float e qty |})
          table
      else
        WarehouseMissingProducts.create e
          {| WarehouseMissingProducts.v_sku := name;
             WarehouseMissingProducts.v_brand :=
               if str_truthy brand && negb (lower brand =? "none")
               then Some brand else None;
             WarehouseMissingProducts.v_main_id :=
               if str_truthy ext_id then Some ext_id else None;
             WarehouseMissingProducts.v_barcode :=
               match barcode with
               | Some b => if str_truthy b && negb (lower b =? "none")
                           then Some b else None
               | None => None
               end;
             WarehouseMissingProducts.v_quantity := qty;
             WarehouseMissingProducts.v_sync_date := now e;
             WarehouseMissingProducts.v_note :=
               "Product found in API but missing from Odoo inventory. API quantity: "
               ++ repr_float e qty |}
        :: table.

(** The resolver on the [warehouse.missing.products] table, over the
    entries of [api]: what [_process_missing_products] does while none of
    its calls raises. *)
Definition resolve_missing (e : env) (api : api_data)
    (processed_skus : list string) (table : list missing_record)
  : list missing_record :=
  let filter_enabled :=
    match panel e with
    | Some panel_config => filter_missing_products panel_config
    | None => false
    end in
  let allowed_prefixes :=
    match panel e with
    | Some panel_config =>
        if filter_enabled && truthy (allowed_prefixes panel_config)
        then parse_prefixes (str (allowed_prefixes panel_config))
        else []
    | None => []
    end in
  fold_left (missing_step e filter_enabled allowed_prefixes processed_skus)
            (by_sku api) table.

(** The entries the resolver gets to handle: when one of its calls
    raises (the panel search, the search for an existing record, a
    [write] or a [create]), the loop is left, the [except] branch logs
    the exception, and the entries not yet handled stay as they are. *)
Definition handled (e : env) (api : api_data) : api_data :=
  match resolver_fault e with
  | None => api
  | Some n => {| by_sku := firstn n (by_sku api); by_barcode := by_barcode api |}
  end.

(** The counters [missing_count] and [skipped_by_filter] are only
    logged; the function never raises. *)
Definition _process_missing_products (e : env) (api : api_data)
    (processed_skus : list string) : M unit :=
  modify (fun s =>
    set_missing_products
      (resolve_missing e (handled e api) processed_skus (missing_products s)) s).

(** [timedelta(days=1)], in seconds *)
Definition one_day : Z := 86400.

(** Dates are seconds.  The three [unlink] calls are taken not to raise;
    the [except] branch only logs. *)
Definition _clear_previous_logs (e : env) : M unit :=
  modify (set_sync_log []) ;;
  (let old_missing_cutoff := (now e - one_day)%Z in
   modify (fun s =>
     set_missing_products
       (filter (fun r => negb (mp_create_date r <? old_missing_cutoff)%Z)
               (missing_products s)) s)) ;;
  modify (set_unpublished_products []).

(** The rows [search([('type', 'in', ['product', 'consu'])])] returns on
    [product.product] (archived rows are left out by the default
    [active_test]). *)
Definition listed_products (e : env) : list product :=
  filter (fun p =>
            active p
            && (WarehouseMissingProducts.field_eqb (type p) "product"
                || WarehouseMissingProducts.field_eqb (type p) "consu"))
         (inventory e).

Definition search_products (e : env) : M (list product) :=
  match search_fault e with
  | Some msg => raise msg
  | None => ret (listed_products e)
  end.

(** "Auto-adjust chunk size for very large inventories" *)
Definition adjust_chunk_size (total_products chunk_size : nat) : nat :=
  if (8000 <? Z.of_nat total_products)%Z then Nat.min chunk_size 80
  else if (5000 <? Z.of_nat total_products)%Z then Nat.min chunk_size 100
  else chunk_size.

(** The Python function returns [None]; the result here is what its last
    log line reports ("Processed: ..., Failed: ..."), and [None] when
    the function returns early for want of feed data. *)
Definition sync_products_chunked (e : env) (chunk_size : nat)
  : M (option counters) :=
  match _fetch_api_data e with
  | None => ret None
  | Some api =>
      all_products <- search_products e ;;
      let total_products := List.length all_products in
      let chunk_size := adjust_chunk_size total_products chunk_size in
      if (chunk_size =? 0)%nat then raise "range() arg 3 must not be zero"
      else
        acc <- chunk_loop e all_products api chunk_size
                 (chunk_starts total_products chunk_size)
                 {| processed := 0; failed := 0; processed_skus := [] |} ;;
        (let e :=
           at_time (now e + slept e total_products
                              (List.length (chunk_starts total_products chunk_size)))
                   e in
         _process_missing_products e api (processed_skus acc)) ;;
        ret (Some acc)
  end.

(** Sending the report belongs to the mail collaborator; its exceptions
    are swallowed. *)
Definition _send_email_report_if_enabled (e : env) : M unit := ret tt.

Definition run_sync (e : env) : M unit :=
  r <- catch
         (_clear_previous_logs e ;;
          sync_products_chunked e 100 ;;
          ret ("Sync successful", "success"))
         (fun msg => ret (msg, "fail")) ;;
  (let '(message, status) := r in
   modify (fun s =>
     set_sync_log
       ({| log_sku := "SYSTEM";
           log_brand := Some "SyncVision";
           log_main_id := None;
           log_barcode := None;
           log_quantity := PInt 0;
           log_alert := status =? "fail";
           log_note := "Sync " ++ status ++ ": " ++ message |} :: sync_log s) s)) ;;
  _send_email_report_if_enabled e.


(** [sync_products_ultra_safe]: the chunked run with chunks of 10; an
    exception is logged and raised again. *)
Definition sync_products_ultra_safe (e : env) : M (option counters) :=
  catch (sync_products_chunked e 10) (fun msg => raise msg).

End WarehouseSync.

Import WarehouseMissingProducts WarehouseSync.

(** ** [warehouse.sync.panel] *)

Module WarehouseSyncPanel.

(** [('quantity', '>=', z)] on the stored quantity of a log row; the
    database orders a NaN above every number. *)
Definition quantity_ge (q : pynum) (z : Z) : bool :=
  match to_float q with
  | S754_nan => true
  | f => SFleb (flt z) f
  end.

(** The counters [_compute_sync_info] shows on the panel
    ([last_sync_date], the creation date of the newest log row, is left
    out: log rows carry no date here). *)
Record sync_info := {
  sync_status : string;
  total_products_synced : nat;
  alerts_count : nat;
  missing_products_count : nat;
  unpublished_products_count : nat;
  high_stock_count : nat
}.

Definition _compute_sync_info (s : store) : sync_info :=
  {| sync_status :=
       match sync_log s with
       | _ :: _ => "Ready"
       | [] => "No sync performed yet"
       end;
     total_products_synced := List.length (sync_log s);
     alerts_count := List.length (filter log_alert (sync_log s));
     missing_products_count :=
       List.length (filter (fun r => status_eqb (mp_status r) missing)
                           (missing_products s));
     unpublished_products_count := List.length (unpublished_products s);
     high_stock_count :=
       List.length (filter (fun r => negb (log_alert r)
                                     && quantity_ge (log_quantity r) 5)
                           (sync_log s)) |}.

End WarehouseSyncPanel.

Import WarehouseSyncPanel.

(** ** Notions used to state the properties *)

(** The key of a raw identifier as every call site of the engine
    computes it: [_normalize_identifier(_sanitize_identifier(raw))]. *)
Definition normalized_key (raw : pyval) : option string :=
  _normalize_identifier (PyStr (_sanitize_identifier raw)).



(** The tier table of the specification: its rows, in order, as
    (condition, tier) pairs. *)
Definition tier_table (q : spec_float) : list (bool * Z) :=
  [ (SFeqb q (flt 0), 0%Z);
    (SFleb (flt 30) q && SFleb q (flt 50), 2%Z);
    (SFltb (flt 0) q && SFltb q (flt 30), 0%Z);
    (SFltb (flt 50) q && SFltb q (flt 200), 5%Z);
    (SFleb (flt 200) q, 10%Z) ].

(** An ordered decision list: the first row whose condition holds. *)
Fixpoint first_match (rows : list (bool * Z)) : option Z :=
  match rows with
  | [] => None
  | (c, t) :: rest => if c then Some t else first_match rest
  end.

(** How many rows have a condition that holds. *)
Definition matching_rows (rows : list (bool * Z)) : nat :=
  List.length (filter fst rows).

(** Ingestion fails: transport or timeout error, or an envelope without
    the success flag or without the payload array. *)
Definition ingestion_fails (r : http_response) : bool :=
  match r with
  | Timeout => true
  | TransportError _ => true
  | Body p =>
      negb (success p) || match data p with None => true | Some _ => false end
  end.

(** The run-level summary row that [run_sync] writes. *)
Definition summary (status message : string) : log_entry :=
  {| log_sku := "SYSTEM";
     log_brand := Some "SyncVision";
     log_main_id := None;
     log_barcode := None;
     log_quantity := PInt 0;
     log_alert := status =? "fail";
     log_note := "Sync " ++ status ++ ": " ++ message |}.

(** The fields the publish rule reports as missing. *)
Definition missing_fields_of (has_sku has_barcode : bool) : list string :=
  ((if has_sku then [] else ["SKU"]) ++ (if has_barcode then [] else ["barcode"]))%list.

(** No collaborator call raises for the item. *)
Definition no_fault (e : env) (p : product) : bool :=
  forallb (fun c => match orm_fault e (id p) c with None => true | Some _ => false end)
          [CreateLog; UpdateStock; WritePublished; CreateUnpublished].

(** The feed record an item resolves to, and the key it consumes. *)
Definition matched (api : api_data) (p : product) : option entry * option string :=
  lookup_api (by_sku api) (by_barcode api)
             (normalized_key (default_code p)) (normalized_key (product_barcode p)).

(** The item's normalized SKU is a key of the SKU index. *)
Definition sku_resolves (api : api_data) (p : product) : bool :=
  match normalized_key (default_code p) with
  | Some k => str_truthy k && dict_mem k (by_sku api)
  | None => false
  end.

(** The batch that starts at index [i]. *)
Definition chunk_at (all_products : list product) (chunk_size i : nat)
  : list product :=
  firstn chunk_size (skipn i all_products).

(** The sizes of the batches whose commit raises, added up. *)
Definition failed_at_commit (e : env) (all_products : list product)
    (chunk_size : nat) (starts : list nat) : nat :=
  list_sum
    (map (fun i =>
            match commit_fault e (i / chunk_size + 1) with
            | Some _ => List.length (chunk_at all_products chunk_size i)
            | None => 0
            end) starts).

Definition no_counters : counters :=
  {| processed := 0; failed := 0; processed_skus := [] |}.

(** The environment in which [sync_products_chunked] calls the resolver:
    the clock has moved on by the sleeps of the chunk loop. *)
Definition resolver_env (e : env) (chunk_size : nat) : env :=
  let total_products := List.length (listed_products e) in
  let c := adjust_chunk_size total_products chunk_size in
  at_time (now e + slept e total_products (List.length (chunk_starts total_products c)))
          e.

(** The records with status [missing], counted. *)
Definition count_missing (table : list missing_record) : nat :=
  List.length (filter (fun r => status_eqb (mp_status r) missing) table).

(** [r'] is [r] with at most its quantity, sync date and note
    refreshed. *)
Definition refreshed (r r' : missing_record) : Prop :=
  mp_sku r' = mp_sku r
  /\ mp_main_id r' = mp_main_id r
  /\ mp_barcode r' = mp_barcode r
  /\ mp_brand r' = mp_brand r
  /\ mp_create_date r' = mp_create_date r
  /\ mp_status r' = mp_status r.

(** The SKU under which the resolver records a feed entry. *)
Definition record_name (kv : string * entry) : string :=
  if str_truthy (entry_sku (snd kv)) then strip (entry_sku (snd kv))
  else "UNKNOWN_SKU_" ++ fst kv.

(** The resolver passes over the entry: it was matched, or the prefix
    filter rejects it. *)
Definition left_out (filter_enabled : bool) (allowed_prefixes : list string)
    (processed_skus : list string) (kv : string * entry) : bool :=
  set_mem (fst kv) processed_skus
  || (filter_enabled
      && (match allowed_prefixes with [] => false | _ => true end)
      && negb (str_truthy (entry_sku (snd kv))
               && existsb (startswith (entry_sku (snd kv))) allowed_prefixes)).

(** The relaxed-match guard, as [create] consults it for a record name. *)
Definition guard (e : env) (name : string) : option Z :=
  _sv_find_product_by_sku_only_relaxed e (if str_truthy name then name else "").

(** A record with status [missing] exists under the name. *)
Definition has_open (name : string) (table : list missing_record) : bool :=
  existsb (is_open name) table.

(** ** Sample data *)

Definition empty_store : store :=
  {| sync_log := [];
     unpublished_products := [];
     missing_products := [];
     website_published := fun _ => true;
     qty_available := fun _ => flt 0;
     commits := 0 |}.

Definition sample_template : template :=
  {| tmpl_id := 7;
     tmpl_default_code := PyStr "ABC123";
     tmpl_brand := PyFalse;
     product_variant_id := Some 1%Z;
     product_variant_ids := [1%Z] |}.

(** An item with a SKU and no barcode. *)
Definition sample_product : product :=
  {| id := 1;
     active := true;
     default_code := PyStr "ABC123";
     product_barcode := PyFalse;
     detailed_type := PyFalse;
     type := PyStr "product";
     product_tmpl_id := Some sample_template |}.

(** An item without a SKU whose barcode is the feed item's. *)
Definition barcode_only_product : product :=
  {| id := 2;
     active := true;
     default_code := PyFalse;
     product_barcode := PyStr "999";
     detailed_type := PyFalse;
     type := PyStr "product";
     product_tmpl_id := Some sample_template |}.

(** Two variants of one template: one complete, one without barcode. *)
Definition complete_variant : product :=
  {| id := 3;
     active := true;
     default_code := PyStr "V-1";
     product_barcode := PyStr "111";
     detailed_type := PyFalse;
     type := PyStr "product";
     product_tmpl_id := Some sample_template |}.

Definition variant_without_barcode : product :=
  {| id := 4;
     active := true;
     default_code := PyStr "V-2";
     product_barcode := PyFalse;
     detailed_type := PyFalse;
     type := PyStr "product";
     product_tmpl_id := Some sample_template |}.

(** An archived item: the driver's product search leaves it out, the
    relaxed search ([active_test=False]) sees it. *)
Definition archived_product (code : string) : product :=
  {| id := 9;
     active := false;
     default_code := PyStr code;
     product_barcode := PyFalse;
     detailed_type := PyFalse;
     type := PyStr "product";
     product_tmpl_id := Some sample_template |}.

(** A hundred items, numbered 1 to 100, none of them in the feed. *)
Definition numbered_product (n : nat) : product :=
  {| id := Z.of_nat n;
     active := true;
     default_code := PyStr ("SKU" ++ str_of_Z (Z.of_nat n));
     product_barcode := PyStr ("BC" ++ str_of_Z (Z.of_nat n));
     detailed_type := PyFalse;
     type := PyStr "product";
     product_tmpl_id := Some sample_template |}.

Definition hundred_products : list product := map numbered_product (seq 1 100).

Definition sample_item : feed_item :=
  {| item_sku := PyStr "ABC-123";
     item_barcode := PyStr "999";
     item_itemNumber := PyStr "X1";
     item_brand := PyStr "Acme";
     item_southbayStock := Some (flt 40) |}.

Definition item_with_sku (code : string) : feed_item :=
  {| item_sku := PyStr code;
     item_barcode := PyNone;
     item_itemNumber := PyStr "X9";
     item_brand := PyStr "Acme";
     item_southbayStock := Some (flt 40) |}.

Definition sample_feed : http_response :=
  Body {| success := true; data := Some [sample_item] |}.

Definition api_of (items : list feed_item) : api_data :=
  fold_left add_item items {| by_sku := []; by_barcode := [] |}.

Definition sample_api : api_data := api_of [sample_item].

Definition sample_env (r : http_response) (inv : list product) : env :=
  {| now := 200000;
     response := r;
     inventory := inv;
     templates := [];
     panel := None;
     repr_float := fun _ => "40.0";
     search_fault := None;
     orm_fault := fun _ _ => None;
     commit_fault := fun _ => None;
     resolver_fault := None |}.

(** Every ORM call for item 47 raises. *)
Definition env_item_47_throws : env :=
  {| now := 200000;
     response := sample_feed;
     inventory := hundred_products;
     templates := [];
     panel := None;
     repr_float := fun _ => "40.0";
     search_fault := None;
     orm_fault := fun pid _ => if Z.eqb pid 47 then Some "item 47" else None;
     commit_fault := fun _ => None;
     resolver_fault := None |}.

(** The product search raises. *)
Definition env_search_raises : env :=
  {| now := 200000;
     response := sample_feed;
     inventory := [sample_product];
     templates := [];
     panel := None;
     repr_float := fun _ => "40.0";
     search_fault := Some "connection lost";
     orm_fault := fun _ _ => None;
     commit_fault := fun _ => None;
     resolver_fault := None |}.

Definition old_record (st : status) : missing_record :=
  {| mp_sku := "GN-100";
     mp_main_id := None;
     mp_barcode := None;
     mp_quantity := flt 3;
     mp_brand := None;
     mp_create_date := 0;
     mp_sync_date := 0;
     mp_status := st;
     mp_note := "" |}.

(** Two feed items, and an item that carries the SKU of the first and
    the barcode of the second. *)
Definition item_with (code bar : string) : feed_item :=
  {| item_sku := PyStr code;
     item_barcode := PyStr bar;
     item_itemNumber := PyStr ("N-" ++ code);
     item_brand := PyStr "Acme";
     item_southbayStock := Some (flt 40) |}.

Definition two_item_api : api_data :=
  api_of [item_with "S-1" "111"; item_with "S-2" "222"].

Definition crossed_product : product :=
  {| id := 5;
     active := true;
     default_code := PyStr "s1";
     product_barcode := PyStr "222";
     detailed_type := PyFalse;
     type := PyStr "product";
     product_tmpl_id := Some sample_template |}.

(** ** Notions used to state the further properties *)

(** The entry [_fetch_api_data] builds for a feed item. *)
Definition entry_of (item : feed_item) : entry :=
  let sku := _sanitize_identifier (item_sku item) in
  let barcode := _sanitize_identifier (item_barcode item) in
  let normalized_sku := _normalize_identifier (PyStr sku) in
  {| entry_ext_id := _sanitize_identifier (item_itemNumber item);
     entry_qty := float_or_zero (item_southbayStock item);
     entry_sku := sku;
     entry_barcode :=
       if str_truthy barcode && negb (lower barcode =? "none")
       then Some barcode else None;
     entry_brand := _sanitize_identifier (item_brand item);
     entry_normalized_sku :=
       if opt_truthy normalized_sku then normalized_sku else None |}.

(** The feed item is filed under key [k] by its SKU, by its barcode. *)
Definition has_sku_key (k : string) (item : feed_item) : bool :=
  match normalized_key (item_sku item) with
  | Some k' => k' =? k
  | None => false
  end.

Definition has_barcode_key (k : string) (item : feed_item) : bool :=
  match normalized_key (item_barcode item) with
  | Some k' => k' =? k
  | None => false
  end.

(** The feed quantity [_process_single_product] works with: that of the
    matched feed record, [0.0] without a match. *)
Definition feed_qty (api : api_data) (p : product) : spec_float :=
  match fst (matched api p) with
  | Some a => entry_qty a
  | None => flt 0
  end.

(** [should_process = has_sku or has_barcode] *)
Definition should_process (p : product) : bool :=
  has_identifier (default_code p) || has_identifier (product_barcode p).

(** Creating the item's log row does not raise. *)
Definition logs_ok (e : env) (p : product) : bool :=
  match orm_fault e (id p) CreateLog with
  | None => true
  | Some _ => false
  end.

(** The effects of [_process_single_product] once its values are
    computed: the log row, the stock adjustment, the publishing step. *)
Definition item_effects (e : env) (p : product) (row : log_entry)
    (update : bool) (new_qty : pynum) (api_data : option entry)
    (qty : spec_float) (processed_sku : option string) : M (option string) :=
  orm e (id p) CreateLog ;;
  modify (fun s => set_sync_log (row :: sync_log s) s) ;;
  when update then _update_product_stock e p new_qty ;;
  _handle_product_publishing e p (has_identifier (default_code p))
    (has_identifier (product_barcode p)) api_data qty ;;
  ret processed_sku.

(** The tier of a quantity, by the three thresholds of the stock rule. *)
Definition tier_of (q : spec_float) : Z :=
  if SFleb (flt 200) q then 10
  else if SFltb (flt 50) q then 5
  else if SFleb (flt 30) q then 2 else 0.

(** The batches whose commit does not raise. *)
Definition committed (e : env) (chunk_size : nat) (starts : list nat) : list nat :=
  filter (fun i => match commit_fault e (i / chunk_size + 1) with
                   | None => true
                   | Some _ => false
                   end) starts.


(** The panel's settings as [_process_missing_products] reads them. *)
Definition filter_on (e : env) : bool :=
  match panel e with
  | Some panel_config => filter_missing_products panel_config
  | None => false
  end.

Definition prefixes_of (e : env) : list string :=
  match panel e with
  | Some panel_config =>
      if filter_on e && truthy (allowed_prefixes panel_config)
      then parse_prefixes (str (allowed_prefixes panel_config))
      else []
  | None => []
  end.

(** The resolver passes over the entry, with the panel's settings. *)
Definition passed_over (e : env) (processed_skus : list string)
    (kv : string * entry) : bool :=
  left_out (filter_on e) (prefixes_of e) processed_skus kv.

(** [r] is a record the resolver creates for one of the entries: under
    the entry's name, dated now, with the status the guard decides. *)
Definition created_for (e : env) (processed_skus : list string)
    (entries : list (string * entry)) (r : missing_record) : Prop :=
  exists kv,
    In kv entries
    /\ passed_over e processed_skus kv = false
    /\ mp_sku r = record_name kv
    /\ mp_create_date r = now e
    /\ mp_status r = match guard e (record_name kv) with
                     | Some _ => ignored
                     | None => missing
                     end.

(** The user ignores every open record of a name
    ([action_ignore_product] on each). *)
Definition ignore_by_user (name : string) (table : list missing_record)
  : list missing_record :=
  map (fun r => if is_open name r then action_ignore_product r else r) table.

(** A run with the prefix filter enabled, on an empty inventory. *)
Definition env_filtering (prefixes : string) (items : list feed_item) : env :=
  {| now := 200000;
     response := Body {| success := true; data := Some items |};
     inventory := [];
     templates := [];
     panel := Some {| filter_missing_products := true;
                      allowed_prefixes := PyStr prefixes;
                      send_email_report := false |};
     repr_float := fun _ => "40.0";
     search_fault := None;
     orm_fault := fun _ _ => None;
     commit_fault := fun _ => None;
     resolver_fault := None |}.


(** Every quantity of the feed index is a number. *)
Definition quantities_are_numbers (api : api_data) : Prop :=
  Forall (fun kv => SFeqb (entry_qty (snd kv)) (entry_qty (snd kv)) = true)
         (by_sku api ++ by_barcode api)%list.

(** The panel counts the log row either as an alert or as high stock. *)
Definition alert_or_high_stock (row : log_entry) : bool :=
  xorb (log_alert row) (negb (log_alert row) && quantity_ge (log_quantity row) 5).


(** The row without its date. *)
Definition undated_unpublished (r : unpublished_entry) : unpublished_entry :=
  {| unp_sku := unp_sku r;
     unp_brand := unp_brand r;
     unp_main_id := unp_main_id r;
     unp_barcode := unp_barcode r;
     unp_quantity := unp_quantity r;
     unp_missing_fields := unp_missing_fields r;
     unp_sync_date := 0;
     unp_note := unp_note r |}.

(** The record without its two dates. *)
Definition undated_missing (r : missing_record) : missing_record :=
  {| mp_sku := mp_sku r;
     mp_main_id := mp_main_id r;
     mp_barcode := mp_barcode r;
     mp_quantity := mp_quantity r;
     mp_brand := mp_brand r;
     mp_create_date := 0;
     mp_sync_date := 0;
     mp_status := mp_status r;
     mp_note := mp_note r |}.

(** The tables of a store, the dates of the rows and the commit counter
    left out. *)
Definition undated (s : store) : store :=
  {| sync_log := sync_log s;
     unpublished_products := map undated_unpublished (unpublished_products s);
     missing_products := map undated_missing (missing_products s);
     website_published := website_published s;
     qty_available := qty_available s;
     commits := 0 |}.

(** Two stores hold the same tables, row by row and field by field,
    up to the dates of the unpublished rows and of the missing-product
    records; they may differ in the number of commits as well. *)
Definition same_tables_up_to_dates (s1 s2 : store) : Prop :=
  sync_log s1 = sync_log s2
  /\ map undated_unpublished (unpublished_products s1)
     = map undated_unpublished (unpublished_products s2)
  /\ map undated_missing (missing_products s1)
     = map undated_missing (missing_products s2)
  /\ website_published s1 = website_published s2
  /\ qty_available s1 = qty_available s2.

(** A run on an empty inventory in which a call of the resolver raises
    once [n] entries have been handled. *)
Definition env_resolver_raises (n : nat) (items : list feed_item) : env :=
  {| now := 200000;
     response := Body {| success := true; data := Some items |};
     inventory := [];
     templates := [];
     panel := None;
     repr_float := fun _ => "40.0";
     search_fault := None;
     orm_fault := fun _ _ => None;
     commit_fault := fun _ => None;
     resolver_fault := Some n |}.

(** The item has a valid SKU and a valid barcode ([has_sku and
    has_barcode], lines 262-263 and 385). *)
Definition valid_identifiers (p : product) : bool :=
  has_identifier (default_code p) && has_identifier (product_barcode p).

(** The item is a variant of the template with id [t]. *)
Definition has_template (t : Z) (p : product) : bool :=
  match product_tmpl_id p with
  | Some template => (t =? tmpl_id template)%Z
  | None => false
  end.

(** The last item of the list that is a variant of the template. *)
Fixpoint last_of_template (t : Z) (products : list product) : option product :=
  match products with
  | [] => None
  | p :: rest =>
      match last_of_template t rest with
      | Some q => Some q
      | None => if has_template t p then Some p else None
      end
  end.

(** The row of [warehouse.unpublished.products] expected for an item,
    its date left out: none for an item without a template or with both
    identifiers valid; otherwise the item's SKU, the brand and id of its
    feed record, its barcode, the feed quantity, the missing fields and
    the note. *)
Definition unpublished_row (e : env) (api : api_data) (p : product)
  : list unpublished_entry :=
  match product_tmpl_id p with
  | None => []
  | Some template =>
      if valid_identifiers p then []
      else
        let has_sku := has_identifier (default_code p) in
        let has_barcode := has_identifier (product_barcode p) in
        let feed := fst (matched api p) in
        [ {| unp_sku :=
               if truthy (default_code p) then str (default_code p)
               else "NO_SKU_" ++ str_of_Z (id p);
             unp_brand :=
               match feed with
               | Some a => entry_brand a
               | None =>
                   if truthy (tmpl_brand template) then str (tmpl_brand template)
                   else "Unknown"
               end;
             unp_main_id := option_map entry_ext_id feed;
             unp_barcode :=
               if truthy (product_barcode p)
                  && negb (lower (str (product_barcode p)) =? "none")
               then Some (str (product_barcode p)) else None;
             unp_quantity := feed_qty api p;
             unp_missing_fields := join " and " (missing_fields_of has_sku has_barcode);
             unp_sync_date := 0;
             unp_note :=
               "Product unpublished: "
               ++ (if has_sku then "Missing barcode"
                   else if has_barcode then "Missing SKU"
                   else "Missing both SKU and barcode")
               ++ ". "
               ++ match feed with
                  | Some _ => "API quantity: " ++ repr_float e (feed_qty api p)
                  | None => "No API data found"
                  end |} ]
  end.

(** * Properties *)

(** ** Characters and strings *)

Ltac by_cases_on_char c :=
  destruct c as [[] [] [] [] [] [] [] []]; vm_compute; try reflexivity;
  try discriminate; intros; try discriminate; try reflexivity.

Lemma isalnum_not_isspace c : isalnum c = true -> isspace c = false.
Proof. by_cases_on_char c. Qed.

Lemma isalnum_upper_char c : isalnum c = true -> isalnum (upper_char c) = true.
Proof. by_cases_on_char c. Qed.

Lemma upper_char_idem c : upper_char (upper_char c) = upper_char c.
Proof. by_cases_on_char c. Qed.

Lemma upper_lower_upper_char c :
  upper_char (lower_char (upper_char c)) = upper_char c.
Proof. by_cases_on_char c. Qed.

Lemma upper_idem s : upper (upper s) = upper s.
Proof.
  induction s as [|c s IH]; simpl; [reflexivity|].
  unfold upper in *; simpl. now rewrite upper_char_idem, IH.
Qed.

Lemma upper_lower_upper s : upper (lower (upper s)) = upper s.
Proof.
  induction s as [|c s IH]; [reflexivity|].
  unfold upper, lower in *; simpl. now rewrite upper_lower_upper_char, IH.
Qed.

Lemma filter_alnum_upper s :
  filter_chars isalnum (upper (filter_chars isalnum s))
  = upper (filter_chars isalnum s).
Proof.
  induction s as [|c s IH]; [reflexivity|]. simpl.
  destruct (isalnum c) eqn:Hc; [|exact IH].
  unfold upper in *; simpl. rewrite (isalnum_upper_char _ Hc). now rewrite IH.
Qed.

Lemma lstrip_head s :
  lstrip s = "" \/ exists c t, lstrip s = String c t /\ isspace c = false.
Proof.
  induction s as [|c s IH]; simpl; [now left|].
  destruct (isspace c) eqn:Hc; [exact IH|].
  right. now exists c, s.
Qed.

Lemma rstrip_idem s : rstrip (rstrip s) = rstrip s.
Proof.
  induction s as [|c s IH]; [reflexivity|]. simpl.
  destruct (rstrip s) as [|d r] eqn:Hr.
  - destruct (isspace c) eqn:Hc; simpl; [reflexivity|now rewrite Hc].
  - change (rstrip (String c (String d r))) with
      (match rstrip (String d r) with
       | "" => if isspace c then "" else String c ""
       | String a b => String c (String a b)
       end).
    now rewrite IH.
Qed.

Lemma lstrip_nonspace c s : isspace c = false -> lstrip (String c s) = String c s.
Proof. intros H; simpl; now rewrite H. Qed.

Lemma rstrip_cons_nonspace c s :
  isspace c = false -> exists t, rstrip (String c s) = String c t.
Proof.
  intros H. simpl. destruct (rstrip s) as [|d r].
  - rewrite H. now exists "".
  - now exists (String d r).
Qed.

Lemma strip_idem s : strip (strip s) = strip s.
Proof.
  unfold strip. destruct (lstrip_head s) as [E|(c & t & E & Hc)]; rewrite E.
  - reflexivity.
  - destruct (rstrip_cons_nonspace c t Hc) as [u Hu].
    rewrite Hu, (lstrip_nonspace _ _ Hc), <- Hu. apply rstrip_idem.
Qed.

Lemma filter_chars_length p s :
  String.length (filter_chars p s) <= String.length s.
Proof.
  induction s as [|a s IH]; simpl; [lia|]. destruct (p a); simpl; lia.
Qed.

Lemma filter_alnum_fixed_cons c s :
  filter_chars isalnum (String c s) = String c s ->
  isalnum c = true /\ filter_chars isalnum s = s.
Proof.
  simpl. destruct (isalnum c) eqn:Hc.
  - intros H. now injection H as H.
  - intros H. exfalso.
    pose proof (filter_chars_length isalnum s) as L.
    rewrite H in L. simpl in L. lia.
Qed.

(** A string of alphanumeric characters has nothing to strip. *)
Lemma rstrip_alnum s :
  filter_chars isalnum s = s -> rstrip s = s.
Proof.
  induction s as [|c s IH]; [reflexivity|]. intros H.
  destruct (filter_alnum_fixed_cons _ _ H) as [Hc Hs].
  simpl. rewrite (IH Hs).
  destruct s; [|reflexivity]. now rewrite (isalnum_not_isspace _ Hc).
Qed.

Lemma strip_alnum s : filter_chars isalnum s = s -> strip s = s.
Proof.
  intros H. unfold strip. destruct s as [|c s]; [reflexivity|].
  destruct (filter_alnum_fixed_cons _ _ H) as [Hc _].
  rewrite (lstrip_nonspace _ _ (isalnum_not_isspace _ Hc)).
  now apply rstrip_alnum.
Qed.

Lemma isspace_not_isalnum c : isspace c = true -> isalnum c = false.
Proof. by_cases_on_char c. Qed.

Lemma filter_alnum_lstrip s :
  filter_chars isalnum (lstrip s) = filter_chars isalnum s.
Proof.
  induction s as [|c s IH]; [reflexivity|]. simpl.
  destruct (isspace c) eqn:Hc; [|reflexivity].
  now rewrite (isspace_not_isalnum _ Hc).
Qed.

Lemma filter_alnum_rstrip s :
  filter_chars isalnum (rstrip s) = filter_chars isalnum s.
Proof.
  induction s as [|c s IH]; [reflexivity|]. simpl.
  destruct (rstrip s) as [|d r] eqn:Hr.
  - simpl in IH. destruct (isspace c) eqn:Hc.
    + rewrite (isspace_not_isalnum _ Hc). exact IH.
    + simpl. now rewrite <- IH.
  - change (filter_chars isalnum (String c (String d r)))
      with (if isalnum c then String c (filter_chars isalnum (String d r))
            else filter_chars isalnum (String d r)).
    now rewrite IH.
Qed.

Lemma filter_alnum_strip s :
  filter_chars isalnum (strip s) = filter_chars isalnum s.
Proof. unfold strip. now rewrite filter_alnum_rstrip, filter_alnum_lstrip. Qed.

Lemma str_truthy_upper s : str_truthy (upper s) = str_truthy s.
Proof. now destruct s. Qed.

Lemma str_truthy_false s : str_truthy s = false -> s = "".
Proof. now destruct s. Qed.

(** [_normalize_identifier] on a string that is not the word "none". *)
Lemma normalize_closed_form x :
  (lower (strip x) =? "none") = false ->
  _normalize_identifier (PyStr x) =
    if str_truthy (filter_chars isalnum x)
    then Some (upper (filter_chars isalnum x)) else None.
Proof.
  intros Hn. unfold _normalize_identifier. simpl str. rewrite Hn.
  rewrite filter_alnum_strip, orb_false_r.
  destruct x as [|c x]; [reflexivity|]. simpl truthy. simpl negb at 1. cbv iota.
  destruct (str_truthy (strip (String c x))) eqn:Hs; [reflexivity|].
  apply str_truthy_false in Hs.
  pose proof (filter_alnum_strip (String c x)) as F. rewrite Hs in F.
  rewrite <- F. reflexivity.
Qed.


Lemma normalize_some_inv v k :
  _normalize_identifier v = Some k ->
  filter_chars isalnum k = k /\ upper k = k /\ str_truthy k = true.
Proof.
  unfold _normalize_identifier.
  destruct (negb (truthy v)); [discriminate|].
  destruct (_ || _); [discriminate|].
  destruct (str_truthy (filter_chars isalnum (strip (str v)))) eqn:Ht; [|discriminate].
  intros H; injection H as <-.
  repeat split.
  - apply filter_alnum_upper.
  - apply upper_idem.
  - now rewrite str_truthy_upper.
Qed.

Lemma upper_of_lower k w : upper k = k -> lower k = w -> k = upper w.
Proof.
  intros Hu Hl. now rewrite <- Hu, <- upper_lower_upper, Hu, Hl.
Qed.

Lemma lower_none_upper k : upper k = k -> lower k = "none" -> k = "NONE".
Proof. intros Hu Hl. exact (upper_of_lower k "none" Hu Hl). Qed.

Lemma normalize_fixed_point k :
  filter_chars isalnum k = k -> upper k = k -> str_truthy k = true ->
  k <> "NONE" ->
  _normalize_identifier (PyStr k) = Some k.
Proof.
  intros Hf Hu Ht Hk.
  rewrite normalize_closed_form.
  - now rewrite Hf, Ht, Hu.
  - rewrite (strip_alnum _ Hf).
    destruct (lower k =? "none") eqn:E; [|reflexivity].
    apply String.eqb_eq in E. now apply lower_none_upper in E.
Qed.

(** ** Identifier normalizer *)




(** [_normalize_identifier] leaves the placeholders to
    [_sanitize_identifier], which every call site applies first
    (lines 215, 220, 268-269); of the placeholders it knows only
    ["none"] itself. *)
Example sanitize_comes_first :
  _sanitize_identifier (PyStr "null") = EmptyString
  /\ _normalize_identifier (PyStr (_sanitize_identifier (PyStr "null"))) = None
  /\ _normalize_identifier (PyStr "null") = Some "NULL".
Proof. repeat split. Qed.



(** ** The stock rule *)

Lemma flt_0 : flt 0 = S754_zero false.
Proof. reflexivity. Qed.
Lemma flt_30 : flt 30 = S754_finite false 8444249301319680 (-48).
Proof. reflexivity. Qed.
Lemma flt_50 : flt 50 = S754_finite false 7036874417766400 (-47).
Proof. reflexivity. Qed.
Lemma flt_200 : flt 200 = S754_finite false 7036874417766400 (-45).
Proof. reflexivity. Qed.

Lemma mantissa_compare a b :
  Pos.compare_cont Eq a b = Z.compare (Z.pos a) (Z.pos b).
Proof. reflexivity. Qed.

Ltac float_literals := rewrite ?flt_0, ?flt_30, ?flt_50, ?flt_200 in *.

(** Settles every [Z.compare] of the goal from the hypotheses. *)
Ltac decide_compare :=
  repeat match goal with
    | |- context [Z.compare ?a ?b] =>
        first [ rewrite (proj2 (Z.compare_lt_iff a b)) by lia
              | rewrite (proj2 (Z.compare_gt_iff a b)) by lia
              | rewrite (proj2 (Z.compare_eq_iff a b)) by lia ]
    end.

Ltac split_at x c :=
  let H := fresh "H" in
  assert (H : (x < c \/ x = c \/ c < x)%Z) by lia;
  destruct H as [H|[H|H]].

(** The positive finite floats, split at the exponents and mantissas of
    30, 50 and 200. *)
Ltac float_regions m e :=
  rewrite !mantissa_compare; generalize (Z.pos m); clear m; intros m;
  split_at e (-48)%Z; [| |split_at e (-47)%Z; [| |split_at e (-45)%Z]];
  split_at m 8444249301319680%Z;
  try split_at m 7036874417766400%Z;
  try (exfalso; lia);
  decide_compare.

Lemma stock_rule_first_match q qty_available :
  SFleb (flt 0) q = true ->
  option_map PInt (first_match (tier_table q)) = Some (stock_rule q qty_available).
Proof.
  intros Hq. unfold stock_rule, tier_table. float_literals.
  destruct q as [s|s| |s m e]; try destruct s; try discriminate Hq;
    try reflexivity.
  clear Hq. unfold SFleb, SFltb, SFeqb, SFcompare. cbn [first_match option_map].
  float_regions m e; reflexivity.
Qed.

Lemma tier_table_one_row q :
  SFleb (flt 0) q = true -> matching_rows (tier_table q) = 1.
Proof.
  intros Hq. unfold matching_rows, tier_table. float_literals.
  destruct q as [s|s| |s m e]; try destruct s; try discriminate Hq;
    try reflexivity.
  clear Hq. unfold SFleb, SFltb, SFeqb, SFcompare.
  float_regions m e; reflexivity.
Qed.

(** C2: for every feed quantity q >= 0 the stock rule returns the tier of
    the ordered decision list (0 if q == 0; 2 if 30 <= q <= 50; 0 if
    0 < q < 30; 5 if 50 < q < 200; 10 if q >= 200), exactly one row of
    which applies; and it takes the values of the boundary table. *)
Theorem stock_rule_is_tier_table (q qty_available : spec_float) :
  SFleb (flt 0) q = true ->
  option_map PInt (first_match (tier_table q)) = Some (stock_rule q qty_available)
  /\ matching_rows (tier_table q) = 1
  /\ stock_rule (flt 0) qty_available = PInt 0
  /\ stock_rule (flt 29) qty_available = PInt 0
  /\ stock_rule (flt 30) qty_available = PInt 2
  /\ stock_rule (flt 50) qty_available = PInt 2
  /\ stock_rule (flt 51) qty_available = PInt 5
  /\ stock_rule (flt 199) qty_available = PInt 5
  /\ stock_rule (flt 200) qty_available = PInt 10
  /\ stock_rule (flt 1000) qty_available = PInt 10.
Proof.
  intros Hq.
  split; [now apply stock_rule_first_match|].
  split; [now apply tier_table_one_row|].
  repeat split.
Qed.

Lemma stock_rule_is_tier_table_witness :
  SFleb (flt 0) (flt 40) = true
  /\ option_map PInt (first_match (tier_table (flt 40)))
     = Some (stock_rule (flt 40) (flt 7))
  /\ matching_rows (tier_table (flt 40)) = 1.
Proof.
  split; [reflexivity|].
  destruct (stock_rule_is_tier_table (flt 40) (flt 7) eq_refl) as (H1 & H2 & _).
  now split.
Defined.

(** ** The monad *)

Lemma bind_ok {A B} (m : M A) (k : A -> M B) s b s' :
  bind m k s = (Ok b, s') ->
  exists a s1, m s = (Ok a, s1) /\ k a s1 = (Ok b, s').
Proof.
  unfold bind. destruct (m s) as [[a|msg] s1]; [|discriminate].
  intros H. now exists a, s1.
Qed.

Lemma orm_ok e pid c s u s' : orm e pid c s = (Ok u, s') -> s' = s.
Proof.
  unfold orm. destruct (orm_fault e pid c); unfold raise, ret; congruence.
Qed.

Lemma orm_no_fault e pid c s :
  orm_fault e pid c = None -> orm e pid c s = (Ok tt, s).
Proof. unfold orm. now intros ->. Qed.

(** ** Run start: the purge *)

(** C10, as stated, fails: the purge has no status filter; a two-day-old
    record is deleted whether its status is [ignored], [created] or
    [missing]. *)
Lemma purge_deletes_old_ignored_and_created :
  let e := sample_env Timeout [] in
  let s := set_missing_products [old_record ignored; old_record created] empty_store in
  (mp_create_date (old_record ignored) < now e - one_day)%Z
  /\ missing_products (snd (_clear_previous_logs e s)) = [].
Proof. split; reflexivity. Qed.

(** C10 (amended): the purge at run start deletes exactly the
    [warehouse.missing.products] records created more than one day
    before, whatever their status; the others are kept, in order. *)
Theorem purge_is_by_age_only (e : env) (s : store) :
  missing_products (snd (_clear_previous_logs e s))
  = filter (fun r => (now e - one_day <=? mp_create_date r)%Z) (missing_products s).
Proof.
  unfold _clear_previous_logs, bind, modify. cbn.
  apply filter_ext. intros r.
  destruct (Z.ltb_spec (mp_create_date r) (now e - one_day));
    destruct (Z.leb_spec (now e - one_day) (mp_create_date r)); cbn; lia || reflexivity.
Qed.

(** ** Ingestion failure *)

Lemma fetch_fails_iff e :
  _fetch_api_data e = None <-> ingestion_fails (response e) = true.
Proof.
  unfold _fetch_api_data, ingestion_fails.
  destruct (response e) as [|msg|p]; try tauto.
  destruct (success p); cbn; destruct (data p); split; congruence.
Qed.

(** C1 (what the code does): when ingestion fails, the run changes no
    stock level and no published flag and commits nothing, and it writes
    one summary row, but that row records the run as a success:
    [alert = False] and the note "Sync success: Sync successful". *)
Theorem run_sync_records_success_when_feed_fails (e : env) (s : store) :
  ingestion_fails (response e) = true ->
  exists s',
    run_sync e s = (Ok tt, s')
    /\ qty_available s' = qty_available s
    /\ website_published s' = website_published s
    /\ commits s' = commits s
    /\ unpublished_products s' = []
    /\ sync_log s' = [summary "success" "Sync successful"]
    /\ log_alert (summary "success" "Sync successful") = false
    /\ log_note (summary "success" "Sync successful")
       = "Sync success: Sync successful".
Proof.
  intros Hf. apply fetch_fails_iff in Hf.
  unfold run_sync, sync_products_chunked. rewrite Hf.
  eexists. split; [reflexivity|]. repeat split.
Qed.

Lemma run_sync_records_success_when_feed_fails_witness :
  exists s',
    run_sync (sample_env Timeout [sample_product]) empty_store = (Ok tt, s')
    /\ sync_log s' = [summary "success" "Sync successful"].
Proof.
  destruct (run_sync_records_success_when_feed_fails
              (sample_env Timeout [sample_product]) empty_store eq_refl)
    as (s' & H & _ & _ & _ & _ & Hlog & _).
  now exists s'.
Defined.

(** The other way a run is cut short is recorded as a failure: when the
    product search raises, the summary row has [alert = True] and the
    note "Sync fail: ...". *)
Example run_sync_records_fail_when_search_raises :
  sync_log (snd (run_sync env_search_raises empty_store))
  = [summary "fail" "connection lost"]
  /\ log_alert (summary "fail" "connection lost") = true
  /\ log_note (summary "fail" "connection lost") = "Sync fail: connection lost".
Proof. repeat split. Qed.

(** ** Publishing *)

Lemma update_stock_frame e p n s u s' :
  _update_product_stock e p n s = (Ok u, s') ->
  unpublished_products s' = unpublished_products s
  /\ website_published s' = website_published s
  /\ sync_log s' = sync_log s.
Proof.
  unfold _update_product_stock, bind, orm, modify, raise, ret.
  destruct (orm_fault e (id p) UpdateStock); [discriminate|].
  intros H; injection H as _ <-. now repeat split.
Qed.

Lemma handle_publishing_ok e p has_sku has_barcode api q s u s' t :
  product_tmpl_id p = Some t ->
  _handle_product_publishing e p has_sku has_barcode api q s = (Ok u, s') ->
  website_published s' (tmpl_id t) = has_sku && has_barcode
  /\ (has_sku && has_barcode = false ->
      exists row,
        unpublished_products s' = row :: unpublished_products s
        /\ unp_missing_fields row
           = join " and " (missing_fields_of has_sku has_barcode))
  /\ (has_sku && has_barcode = true ->
      unpublished_products s' = unpublished_products s).
Proof.
  intros Ht. unfold _handle_product_publishing. rewrite Ht.
  unfold bind, orm, modify, raise, ret.
  destruct (orm_fault e (id p) WritePublished); [discriminate|].
  destruct has_sku, has_barcode; cbn [negb andb];
    try (destruct (orm_fault e (id p) CreateUnpublished); [discriminate|]);
    intros H; injection H as _ <-; cbn; rewrite Z.eqb_refl;
    (split; [reflexivity|]); split; intros E; try discriminate E;
    try reflexivity; eexists; split; reflexivity.
Qed.

(** Right after [_process_single_product] has returned for an item with
    a template, the flag of that template is [has_sku and has_barcode]
    of the item, whatever it was before; when that value is false one
    row is added to [warehouse.unpublished.products], and none when it
    is true.  What holds at the end of a run is another matter: see
    the example below and the last section. *)
Lemma published_flag_is_recomputed
    (e : env) (p : product) (t : template)
    (api_products_by_sku api_products_by_barcode : dict entry)
    (s s' : store) (r : option string) :
  product_tmpl_id p = Some t ->
  _process_single_product e p api_products_by_sku api_products_by_barcode s
  = (Ok r, s') ->
  let has_sku := has_identifier (default_code p) in
  let has_barcode := has_identifier (product_barcode p) in
  website_published s' (tmpl_id t) = has_sku && has_barcode
  /\ (has_sku && has_barcode = false ->
      exists row,
        unpublished_products s' = row :: unpublished_products s
        /\ unp_missing_fields row
           = join " and " (missing_fields_of has_sku has_barcode))
  /\ (has_sku && has_barcode = true ->
      unpublished_products s' = unpublished_products s).
Proof.
  intros Ht H. unfold _process_single_product in H.
  destruct (lookup_api _ _ _ _) as [api_data processed_sku].
  apply bind_ok in H as (odoo_qty & s0 & H0 & H).
  unfold gets in H0. injection H0 as <- <-.
  apply bind_ok in H as (u1 & s1 & H1 & H). apply orm_ok in H1 as ->.
  apply bind_ok in H as (u2 & s2 & H2 & H).
  unfold modify in H2. injection H2 as _ <-.
  apply bind_ok in H as (u3 & s3 & H3 & H).
  apply bind_ok in H as (u4 & s4 & H4 & H).
  unfold ret in H. injection H as _ <-.
  assert (F : unpublished_products s3 = unpublished_products s).
  { destruct (_ && _ && _) in H3.
    - now apply update_stock_frame in H3 as (-> & _ & _).
    - unfold ret in H3. now injection H3 as _ <-. }
  cbv zeta. rewrite <- F.
  exact (handle_publishing_ok _ _ _ _ _ _ _ _ _ _ Ht H4).
Qed.

(** The flag is the template's: of two items that share a template, the
    one processed last decides it. *)
Example shared_template_last_item_decides :
  let e := sample_env sample_feed [complete_variant; variant_without_barcode] in
  let s' := snd (_process_product_chunk e [complete_variant; variant_without_barcode]
                   sample_api empty_store) in
  has_identifier (default_code complete_variant)
  && has_identifier (product_barcode complete_variant) = true
  /\ website_published s' (tmpl_id sample_template) = false
  /\ List.length (unpublished_products s') = 1.
Proof. repeat split. Qed.

(** ** Sets of keys *)

Lemma set_mem_add_same k s : set_mem k (set_add k s) = true.
Proof.
  unfold set_add. destruct (set_mem k s) eqn:E; [exact E|].
  unfold set_mem, str_in. cbn. now rewrite String.eqb_refl.
Qed.

Lemma set_mem_add_mono k k' s :
  set_mem k s = true -> set_mem k (set_add k' s) = true.
Proof.
  intros H. unfold set_add. destruct (set_mem k' s); [exact H|].
  unfold set_mem, str_in in *. cbn. now rewrite H, orb_true_r.
Qed.

Lemma set_update_mono k s t :
  set_mem k s = true -> set_mem k (set_update s t) = true.
Proof.
  unfold set_update. revert s.
  induction t as [|x t IH]; intros s H; cbn; [exact H|].
  apply IH. now apply set_mem_add_mono.
Qed.

Lemma set_update_incl k s t :
  set_mem k t = true -> set_mem k (set_update s t) = true.
Proof.
  unfold set_update. revert s.
  induction t as [|x t IH]; intros s H; [discriminate|].
  cbn. unfold set_mem, str_in in H. cbn in H.
  apply orb_true_iff in H as [H|H].
  - apply String.eqb_eq in H as ->.
    apply (set_update_mono x (set_add x s) t), set_mem_add_same.
  - now apply IH.
Qed.

(** ** Processing one item *)

Lemma no_fault_call e p c : no_fault e p = true -> orm_fault e (id p) c = None.
Proof.
  unfold no_fault. cbn. rewrite !andb_true_iff.
  intros (H1 & H2 & H3 & H4 & _).
  destruct c;
    [ destruct (orm_fault e (id p) CreateLog)
    | destruct (orm_fault e (id p) UpdateStock)
    | destruct (orm_fault e (id p) WritePublished)
    | destruct (orm_fault e (id p) CreateUnpublished) ];
    congruence.
Qed.

Lemma handle_publishing_no_fault e p has_sku has_barcode api q s :
  no_fault e p = true ->
  exists s', _handle_product_publishing e p has_sku has_barcode api q s = (Ok tt, s').
Proof.
  intros Hp. unfold _handle_product_publishing.
  destruct (product_tmpl_id p) as [t|]; [|now eexists].
  unfold bind. rewrite (orm_no_fault _ _ _ _ (no_fault_call _ _ WritePublished Hp)).
  unfold modify. destruct (negb (has_sku && has_barcode)); [|now eexists].
  destruct (if negb has_sku && negb has_barcode then _ else _) as [parts reason].
  unfold bind. rewrite (orm_no_fault _ _ _ _ (no_fault_call _ _ CreateUnpublished Hp)).
  now eexists.
Qed.

(** Without a fault the item is processed and its key returned. *)
Lemma process_single_no_fault e p api s :
  no_fault e p = true ->
  exists s',
    _process_single_product e p (by_sku api) (by_barcode api) s
    = (Ok (snd (matched api p)), s').
Proof.
  intros Hp. unfold _process_single_product, matched, normalized_key.
  destruct (lookup_api _ _ _ _) as [api_data processed_sku]. cbn [snd].
  unfold bind at 1. unfold gets.
  unfold bind at 1. rewrite (orm_no_fault _ _ _ _ (no_fault_call _ _ CreateLog Hp)).
  unfold bind at 1. unfold modify at 1.
  unfold bind at 1.
  match goal with
  | |- context [if ?b then _update_product_stock ?e ?p ?n else ret tt] =>
      assert (U : forall s0, exists s1,
                 (if b then _update_product_stock e p n else ret tt) s0 = (Ok tt, s1))
  end.
  { intros s0. destruct (_ && _ && _); [|now eexists].
    unfold _update_product_stock, bind.
    rewrite (orm_no_fault _ _ _ _ (no_fault_call _ _ UpdateStock Hp)).
    now eexists. }
  match goal with
  | |- context [(if ?b then _update_product_stock ?e ?p ?n else ret tt) ?s0] =>
      destruct (U s0) as [s1 ->]
  end.
  unfold bind at 1.
  match goal with
  | |- context [_handle_product_publishing ?e ?p ?a ?b ?c ?d ?s0] =>
      destruct (handle_publishing_no_fault e p a b c d s0 Hp) as [s2 ->]
  end.
  now eexists.
Qed.

(** ** Batches *)

(** What the loop over a batch guarantees: it never raises, every item
    without a fault is counted, no item is counted twice, and the keys
    consumed by the items without a fault are collected. *)
Lemma process_products_spec e api products :
  forall count skus s,
  exists n skus' s',
    process_products e products api count skus s = (Ok (n, skus'), s')
    /\ count + List.length (filter (no_fault e) products) <= n
    /\ n <= count + List.length products
    /\ (forall k, set_mem k skus = true -> set_mem k skus' = true)
    /\ (forall p k, In p products -> no_fault e p = true ->
                    snd (matched api p) = Some k -> str_truthy k = true ->
                    set_mem k skus' = true).
Proof.
  induction products as [|p rest IH]; intros count skus s.
  - exists count, skus, s. cbn. repeat split; try lia; try tauto.
  - cbn [process_products]. unfold bind at 1. unfold catch, bind at 1.
    destruct (no_fault e p) eqn:Hp.
    + destruct (process_single_no_fault e p api s Hp) as [s1 ->].
      unfold ret at 1.
      match goal with
      | |- context [process_products e rest api ?c ?k s1] =>
          destruct (IH c k s1) as (n & skus' & s' & -> & Hlo & Hhi & Hmono & Hin)
      end.
      exists n, skus', s'. cbn [filter List.length]. rewrite Hp. cbn [List.length].
      repeat split; try lia.
      * intros k Hk. apply Hmono.
        destruct (snd (matched api p)) as [k'|]; [|exact Hk].
        destruct (str_truthy k'); [|exact Hk]. now apply set_mem_add_mono.
      * intros q k [<-|Hq] Hnf Hm Hk.
        -- apply Hmono. rewrite Hm, Hk. apply set_mem_add_same.
        -- now apply (Hin q).
    + cbn [filter List.length]. rewrite Hp.
      destruct (_process_single_product e p (by_sku api) (by_barcode api) s)
        as [[r|msg] s1]; unfold ret at 1.
      * match goal with
        | |- context [process_products e rest api ?c ?k s1] =>
            destruct (IH c k s1) as (n & skus' & s' & -> & Hlo & Hhi & Hmono & Hin)
        end.
        exists n, skus', s'. repeat split; try lia.
        -- intros k Hk. apply Hmono.
           destruct r as [k'|]; [|exact Hk].
           destruct (str_truthy k'); [|exact Hk]. now apply set_mem_add_mono.
        -- intros q k [<-|Hq] Hnf Hm Hk; [congruence|]. now apply (Hin q).
      * destruct (IH count skus s1) as (n & skus' & s' & -> & Hlo & Hhi & Hmono & Hin).
        exists n, skus', s'. repeat split; try lia; try assumption.
        intros q k [<-|Hq] Hnf Hm Hk; [congruence|]. now apply (Hin q).
Qed.

Lemma list_sum_cons x l : list_sum (x :: l) = x + list_sum l.
Proof. reflexivity. Qed.

Lemma failed_at_commit_cons e all_products chunk_size i rest :
  failed_at_commit e all_products chunk_size (i :: rest)
  = match commit_fault e (i / chunk_size + 1) with
    | Some _ => List.length (chunk_at all_products chunk_size i)
    | None => 0
    end + failed_at_commit e all_products chunk_size rest.
Proof. reflexivity. Qed.

Lemma chunk_loop_spec e all_products api chunk_size starts :
  forall acc s,
  exists acc' s',
    chunk_loop e all_products api chunk_size starts acc s = (Ok acc', s')
    /\ processed acc
       + list_sum (map (fun i => List.length
                                   (filter (no_fault e)
                                           (chunk_at all_products chunk_size i)))
                       starts)
       <= processed acc'
    /\ processed acc'
       <= processed acc
          + list_sum (map (fun i => List.length (chunk_at all_products chunk_size i))
                          starts)
    /\ failed acc'
       = failed acc + failed_at_commit e all_products chunk_size starts
    /\ (forall k, set_mem k (processed_skus acc) = true ->
                  set_mem k (processed_skus acc') = true)
    /\ (forall i p k, In i starts -> In p (chunk_at all_products chunk_size i) ->
                      no_fault e p = true ->
                      snd (matched api p) = Some k -> str_truthy k = true ->
                      set_mem k (processed_skus acc') = true).
Proof.
  induction starts as [|i rest IH]; intros acc s.
  - exists acc, s. cbn. repeat split; try lia; try tauto.
  - cbn [chunk_loop]. unfold bind at 1, process_chunk_at, _process_product_chunk.
    fold (chunk_at all_products chunk_size i). cbv zeta.
    set (ei := at_time _ e).
    destruct (process_products_spec ei api (chunk_at all_products chunk_size i) 0 [] s)
      as (n & skus & s1 & -> & Hlo & Hhi & _ & Hin).
    change (no_fault ei) with (no_fault e) in Hlo, Hin.
    rewrite failed_at_commit_cons. cbn [map]. rewrite !list_sum_cons.
    unfold commit. change (commit_fault ei) with (commit_fault e). clearbody ei.
    destruct (commit_fault e (i / chunk_size + 1)) as [msg|]; unfold raise, modify;
      match goal with
      | |- context [chunk_loop e all_products api chunk_size rest ?a ?s0] =>
          destruct (IH a s0) as (acc' & s' & -> & Plo & Phi & Pf & Pmono & Pin)
      end;
      exists acc', s'; cbn [processed failed processed_skus] in *;
      (split; [reflexivity|]); (split; [lia|]); (split; [lia|]);
      (split; [lia|]); split.
    all: try (intros k Hk; now apply Pmono, set_update_mono).
    all: intros j p k [<-|Hj] Hp Hnf Hm Hk;
      [ apply Pmono, set_update_incl; now apply (Hin p) | now apply (Pin j p) ].
Qed.

(** The batches partition the item list. *)
Lemma firstn_plus {A} (a b : nat) (l : list A) :
  firstn (a + b) l = (firstn a l ++ firstn b (skipn a l))%list.
Proof.
  revert l. induction a as [|a IH]; intros l; [reflexivity|].
  destruct l as [|x l]; cbn; [now rewrite firstn_nil|]. now rewrite IH.
Qed.

Lemma concat_chunks (all_products : list product) (c m : nat) :
  List.concat (map (chunk_at all_products c) (map (fun k => k * c) (seq 0 m)))
  = firstn (m * c) all_products.
Proof.
  induction m as [|m IH]; [reflexivity|].
  rewrite seq_S, !map_app, concat_app, IH. cbn [map List.concat plus].
  rewrite app_nil_r. unfold chunk_at.
  replace (S m * c) with (m * c + c) by lia. now rewrite firstn_plus.
Qed.

Lemma chunks_cover (all_products : list product) (c : nat) :
  0 < c ->
  List.concat (map (chunk_at all_products c) (chunk_starts (List.length all_products) c))
  = all_products.
Proof.
  intros Hc. unfold chunk_starts. rewrite concat_chunks.
  apply firstn_all2.
  pose proof (Nat.div_mod_eq (List.length all_products + c - 1) c) as D.
  pose proof (Nat.mod_upper_bound (List.length all_products + c - 1) c) as U.
  nia.
Qed.

Lemma length_filter_concat {A} (f : A -> bool) (ls : list (list A)) :
  List.length (filter f (List.concat ls))
  = list_sum (map (fun l => List.length (filter f l)) ls).
Proof.
  induction ls as [|l ls IH]; [reflexivity|].
  cbn. now rewrite filter_app, length_app, IH.
Qed.

Lemma failed_at_commit_none e all_products chunk_size starts :
  (forall n, commit_fault e n = None) ->
  failed_at_commit e all_products chunk_size starts = 0.
Proof.
  intros H. induction starts as [|i rest IH]; [reflexivity|].
  now rewrite failed_at_commit_cons, H, IH.
Qed.

(** The counters of the chunk loop, for any positive chunk size. *)
Lemma chunk_loop_counts e api all_products chunk_size s :
  0 < chunk_size ->
  exists acc s',
    chunk_loop e all_products api chunk_size
      (chunk_starts (List.length all_products) chunk_size) no_counters s
    = (Ok acc, s')
    /\ List.length (filter (no_fault e) all_products) <= processed acc
    /\ processed acc <= List.length all_products
    /\ failed acc
       = failed_at_commit e all_products chunk_size
           (chunk_starts (List.length all_products) chunk_size).
Proof.
  intros Hc.
  destruct (chunk_loop_spec e all_products api chunk_size
              (chunk_starts (List.length all_products) chunk_size) no_counters s)
    as (acc & s' & H & Hlo & Hhi & Hf & _).
  exists acc, s'. split; [exact H|].
  pose proof (chunks_cover all_products chunk_size Hc) as Hcov.
  pose proof (length_filter_concat (no_fault e)
                (map (chunk_at all_products chunk_size)
                     (chunk_starts (List.length all_products) chunk_size))) as L1.
  pose proof (length_filter_concat (fun _ : product => true)
                (map (chunk_at all_products chunk_size)
                     (chunk_starts (List.length all_products) chunk_size))) as L2.
  rewrite Hcov, map_map in L1, L2.
  assert (T : forall l : list product, filter (fun _ => true) l = l).
  { induction l as [|x l IHl]; cbn; congruence. }
  rewrite T in L2.
  rewrite (map_ext _ (fun i => List.length (chunk_at all_products chunk_size i)))
    in L2 by (intros; now rewrite T).
  change (processed no_counters) with 0 in Hlo, Hhi.
  change (failed no_counters) with 0 in Hf.
  split; [lia|]. split; [lia|]. exact Hf.
Qed.

Lemma adjust_chunk_size_pos total chunk_size :
  0 < chunk_size -> 0 < adjust_chunk_size total chunk_size.
Proof.
  intros H. unfold adjust_chunk_size.
  destruct (8000 <? Z.of_nat total)%Z; [lia|].
  destruct (5000 <? Z.of_nat total)%Z; lia.
Qed.

(** With feed data and a product list, [sync_products_chunked] is the
    chunk loop over the listed products followed by the resolver. *)
Lemma sync_products_chunked_runs e api chunk_size s :
  _fetch_api_data e = Some api ->
  search_fault e = None ->
  0 < chunk_size ->
  let all_products := listed_products e in
  let c := adjust_chunk_size (List.length all_products) chunk_size in
  exists acc s1,
    chunk_loop e all_products api c (chunk_starts (List.length all_products) c)
      no_counters s
    = (Ok acc, s1)
    /\ sync_products_chunked e chunk_size s
       = (Ok (Some acc),
          set_missing_products
            (resolve_missing (resolver_env e chunk_size) (handled e api)
               (processed_skus acc) (missing_products s1)) s1).
Proof.
  intros Hf Hs Hc. cbv zeta.
  pose proof (adjust_chunk_size_pos (List.length (listed_products e)) chunk_size Hc)
    as Hpos.
  destruct (chunk_loop_spec e (listed_products e) api
              (adjust_chunk_size (List.length (listed_products e)) chunk_size)
              (chunk_starts (List.length (listed_products e))
                 (adjust_chunk_size (List.length (listed_products e)) chunk_size))
              no_counters s)
    as (acc & s1 & H & _).
  exists acc, s1. split; [exact H|].
  unfold sync_products_chunked, search_products. rewrite Hf, Hs.
  unfold bind at 1. unfold ret at 1.
  destruct (Nat.eqb_spec
              (adjust_chunk_size (List.length (listed_products e)) chunk_size) 0)
    as [E|_]; [lia|].
  unfold bind at 1. fold no_counters. rewrite H.
  reflexivity.
Qed.

(** C4, as stated, fails: with a batch of 100 items of which item 47
    raises, [_process_product_chunk] catches the exception, processes the
    other 99 items, and [sync_products_chunked] reports 99 processed and
    0 failed. *)
Lemma item_exception_does_not_fail_the_batch :
  List.length (listed_products env_item_47_throws) = 100
  /\ fst (_process_single_product env_item_47_throws (numbered_product 47)
            (by_sku sample_api) (by_barcode sample_api) empty_store)
     = Raise "item 47"
  /\ fst (_process_product_chunk env_item_47_throws hundred_products sample_api
            empty_store)
     = Ok (99, [])
  /\ fst (sync_products_chunked env_item_47_throws 100 empty_store)
     = Ok (Some {| processed := 99; failed := 0; processed_skus := [] |}).
Proof. repeat split; vm_compute; reflexivity. Qed.

(** C4 (amended): an exception raised while one item is processed is
    caught inside the batch: the batch itself never raises, every item
    for which no call raises is processed and counted, and no item is
    counted as failed for it.  The driver runs through all batches and
    returns; it counts a whole batch as failed only when the commit
    after that batch raises. *)
Theorem item_exceptions_are_isolated
    (e : env) (api : api_data) (chunk_size : nat) (s : store) :
  _fetch_api_data e = Some api ->
  search_fault e = None ->
  0 < chunk_size ->
  let all_products := listed_products e in
  let c := adjust_chunk_size (List.length all_products) chunk_size in
  (forall chunk s0, exists r s1,
      _process_product_chunk e chunk api s0 = (Ok r, s1))
  /\ exists acc s',
      sync_products_chunked e chunk_size s = (Ok (Some acc), s')
      /\ List.length (filter (no_fault e) all_products) <= processed acc
      /\ processed acc <= List.length all_products
      /\ failed acc
         = failed_at_commit e all_products c
             (chunk_starts (List.length all_products) c)
      /\ ((forall n, commit_fault e n = None) -> failed acc = 0).
Proof.
  intros Hf Hs Hc. cbv zeta. split.
  - intros chunk s0.
    destruct (process_products_spec e api chunk 0 [] s0) as (n & skus & s1 & H & _).
    now exists (n, skus), s1.
  - destruct (sync_products_chunked_runs e api chunk_size s Hf Hs Hc)
      as (acc & s1 & Hloop & Hrun).
    destruct (chunk_loop_counts e api (listed_products e) _ s
                (adjust_chunk_size_pos (List.length (listed_products e)) _ Hc))
      as (acc' & s1' & Hloop' & Hlo & Hhi & Hfail).
    rewrite Hloop in Hloop'. injection Hloop' as <- <-.
    eexists acc, _. split; [exact Hrun|].
    split; [exact Hlo|]. split; [exact Hhi|]. split; [exact Hfail|].
    intros Hn. rewrite Hfail. now apply failed_at_commit_none.
Qed.

Lemma item_exceptions_are_isolated_witness :
  exists acc s',
    sync_products_chunked env_item_47_throws 100 empty_store = (Ok (Some acc), s')
    /\ failed acc = 0.
Proof.
  destruct (item_exceptions_are_isolated env_item_47_throws sample_api 100
              empty_store eq_refl eq_refl (Nat.lt_0_succ 99))
    as (_ & acc & s' & H & _ & _ & _ & Hf).
  exists acc, s'. split; [exact H|]. now apply Hf.
Defined.

(** ** Matching *)

Lemma dict_get_mem {V} (d : dict V) k v : dict_get d k = Some v -> dict_mem k d = true.
Proof. unfold dict_mem. now intros ->. Qed.

Lemma lookup_by_sku bs bb k nb r1 :
  str_truthy k = true -> dict_get bs k = Some r1 ->
  lookup_api bs bb (Some k) nb = (Some r1, Some k).
Proof.
  intros Hk Hg. unfold lookup_api.
  rewrite Hk, (dict_get_mem _ _ _ Hg), Hg. now destruct nb.
Qed.

Lemma lookup_by_barcode bs bb nsku b r2 :
  match nsku with
  | Some k => str_truthy k && dict_mem k bs
  | None => false
  end = false ->
  str_truthy b = true -> dict_get bb b = Some r2 ->
  lookup_api bs bb nsku (Some b)
  = (Some r2,
     if opt_truthy (entry_normalized_sku r2) then entry_normalized_sku r2 else None).
Proof.
  intros Hs Hb Hg. unfold lookup_api.
  destruct nsku as [k|]; [rewrite Hs|];
    now rewrite Hb, (dict_get_mem _ _ _ Hg), Hg.
Qed.

Lemma normalized_key_truthy raw k : normalized_key raw = Some k -> str_truthy k = true.
Proof. intros H. now apply normalize_some_inv in H. Qed.

Lemma in_some_chunk (all_products : list product) c p :
  0 < c -> In p all_products ->
  exists i, In i (chunk_starts (List.length all_products) c)
            /\ In p (chunk_at all_products c i).
Proof.
  intros Hc Hp. rewrite <- (chunks_cover all_products c Hc) in Hp at 1.
  apply in_concat in Hp as (l & Hl & Hp).
  apply in_map_iff in Hl as (i & <- & Hi). now exists i.
Qed.

(** The SKU of the item finds the first feed record, its barcode the
    second: the first is the match. *)
Example sku_wins_over_barcode :
  dict_get (by_sku two_item_api) "S1" <> dict_get (by_barcode two_item_api) "222"
  /\ option_map entry_sku (fst (matched two_item_api crossed_product)) = Some "S-1"
  /\ snd (matched two_item_api crossed_product) = Some "S1".
Proof. split; [discriminate|]. split; reflexivity. Qed.

(** C9: for an item the run processes, a feed record found under the
    item's normalized SKU is the match, whatever record the barcode
    would find, and the item's key joins the matched set; when the SKU
    finds nothing and the normalized barcode finds a record, that record
    is the match and its own normalized SKU, if it has one, joins the
    run's matched set, whatever the item's SKU is.  The resolver passes
    over every key of the matched set. *)
Theorem sku_match_has_priority
    (e : env) (api : api_data) (chunk_size : nat) (s : store) (p : product) :
  _fetch_api_data e = Some api ->
  search_fault e = None ->
  0 < chunk_size ->
  In p (listed_products e) ->
  no_fault e p = true ->
  exists acc s',
    sync_products_chunked e chunk_size s = (Ok (Some acc), s')
    /\ (forall k r1,
          normalized_key (default_code p) = Some k ->
          dict_get (by_sku api) k = Some r1 ->
          matched api p = (Some r1, Some k)
          /\ set_mem k (processed_skus acc) = true)
    /\ (forall b r2,
          sku_resolves api p = false ->
          normalized_key (product_barcode p) = Some b ->
          dict_get (by_barcode api) b = Some r2 ->
          fst (matched api p) = Some r2
          /\ forall k2, entry_normalized_sku r2 = Some k2 -> str_truthy k2 = true ->
                        set_mem k2 (processed_skus acc) = true)
    /\ (forall k d filter_enabled allowed_prefixes table,
          set_mem k (processed_skus acc) = true ->
          missing_step e filter_enabled allowed_prefixes (processed_skus acc)
                       table (k, d) = table).
Proof.
  intros Hf Hs Hc Hp Hnf.
  destruct (sync_products_chunked_runs e api chunk_size s Hf Hs Hc)
    as (acc & s1 & Hloop & Hrun).
  pose proof (adjust_chunk_size_pos (List.length (listed_products e)) chunk_size Hc)
    as Hpos.
  destruct (chunk_loop_spec e (listed_products e) api
              (adjust_chunk_size (List.length (listed_products e)) chunk_size)
              (chunk_starts (List.length (listed_products e))
                 (adjust_chunk_size (List.length (listed_products e)) chunk_size))
              no_counters s)
    as (acc' & s1' & Hloop' & _ & _ & _ & _ & Hin).
  rewrite Hloop in Hloop'. injection Hloop' as <- <-.
  destruct (in_some_chunk (listed_products e) _ p Hpos Hp) as (i & Hi & Hpi).
  eexists acc, _. split; [exact Hrun|]. split; [|split].
  3: { intros k d fe ap table Hk. unfold missing_step. now rewrite Hk. }
  - intros k r1 Hk Hg.
    pose proof (normalized_key_truthy _ _ Hk) as Ht.
    assert (Hm : matched api p = (Some r1, Some k)).
    { unfold matched. rewrite Hk. now apply lookup_by_sku. }
    split; [exact Hm|].
    apply (Hin i p k Hi Hpi Hnf); [now rewrite Hm|exact Ht].
  - intros b r2 Hsr Hb Hg.
    pose proof (normalized_key_truthy _ _ Hb) as Ht.
    assert (Hm : matched api p
                 = (Some r2, if opt_truthy (entry_normalized_sku r2)
                             then entry_normalized_sku r2 else None)).
    { unfold matched. rewrite Hb. now apply lookup_by_barcode. }
    split; [now rewrite Hm|].
    intros k2 Hk2 Ht2.
    apply (Hin i p k2 Hi Hpi Hnf); [|exact Ht2].
    rewrite Hm, Hk2. cbn. now rewrite Ht2.
Qed.

Lemma sku_match_has_priority_witness :
  exists acc s',
    sync_products_chunked (sample_env sample_feed [barcode_only_product]) 100
      empty_store
    = (Ok (Some acc), s')
    /\ set_mem "ABC123" (processed_skus acc) = true.
Proof.
  destruct (sku_match_has_priority (sample_env sample_feed [barcode_only_product])
              sample_api 100 empty_store barcode_only_product
              eq_refl eq_refl (Nat.lt_0_succ 99) (or_introl eq_refl) eq_refl)
    as (acc & s' & H & _ & Hb & _).
  exists acc, s'. split; [exact H|].
  destruct (Hb "999" {| entry_ext_id := "X1";
                        entry_qty := flt 40;
                        entry_sku := "ABC-123";
                        entry_barcode := Some "999";
                        entry_brand := "Acme";
                        entry_normalized_sku := Some "ABC123" |})
    as (_ & Hk); try reflexivity.
  now apply Hk.
Defined.

(** ** The missing-product resolver *)

(** What [create] does with the outcome of the relaxed search. *)
Lemma create_status e v :
  mp_sku (create e v) = v_sku v
  /\ mp_status (create e v)
     = match _sv_find_product_by_sku_only_relaxed e
               (if str_truthy (v_sku v) then v_sku v else "") with
       | Some _ => ignored
       | None => missing
       end.
Proof.
  unfold create.
  destruct (_sv_find_product_by_sku_only_relaxed e _); now split.
Qed.

(** The example of the specification: feed SKU "AB-100", inventory
    SKU "AB100". *)
Example relaxed_guard_finds_unpunctuated_inventory_sku :
  map (fun r => (mp_sku r, mp_status r))
      (resolve_missing (sample_env Timeout [archived_product "AB100"])
         (api_of [item_with_sku "AB-100"]) [] [])
  = [("AB-100", ignored)].
Proof. reflexivity. Qed.

(** C5 (what the code does): the feed SKU "AB100" is unmatched and has
    no record; the inventory holds an item whose SKU "AB-100" has the
    same relaxed-normalized form.  The candidate search compares the
    head and tail of the normalized feed SKU with the raw inventory SKU,
    so the item is not found and the record is created with status
    [missing], not [ignored]. *)
Theorem relaxed_guard_misses_punctuated_inventory_sku :
  let e := sample_env Timeout [archived_product "AB-100"] in
  _sv_norm_sku (default_code (archived_product "AB-100")) = _sv_norm_sku (PyStr "AB100")
  /\ _sv_find_product_by_sku_only_relaxed e "AB100" = None
  /\ map (fun r => (mp_sku r, mp_status r))
         (resolve_missing e (api_of [item_with_sku "AB100"]) [] [])
     = [("AB100", missing)].
Proof. repeat split. Qed.

Lemma refreshed_refl r : refreshed r r.
Proof. now repeat split. Qed.

Lemma refreshed_trans r1 r2 r3 : refreshed r1 r2 -> refreshed r2 r3 -> refreshed r1 r3.
Proof.
  unfold refreshed. intros (A1 & A2 & A3 & A4 & A5 & A6) (B1 & B2 & B3 & B4 & B5 & B6).
  repeat split; congruence.
Qed.

Lemma refreshed_is_open name r r' : refreshed r r' -> is_open name r' = is_open name r.
Proof. unfold is_open. intros (-> & _ & _ & _ & _ & ->). reflexivity. Qed.

Lemma Forall2_refreshed_refl t : Forall2 refreshed t t.
Proof. induction t; constructor; auto using refreshed_refl. Qed.

Lemma Forall2_refreshed_trans t1 t2 t3 :
  Forall2 refreshed t1 t2 -> Forall2 refreshed t2 t3 -> Forall2 refreshed t1 t3.
Proof.
  intros H. revert t3. induction H as [|a b l1 l2 Hab _ IH]; intros t3 H3.
  - inversion H3. constructor.
  - inversion H3 as [|b' c l2' l3 Hbc Hl]; subst.
    constructor; [now apply (refreshed_trans a b c)|now apply IH].
Qed.

Lemma Forall2_refreshed_has_open name t t' :
  Forall2 refreshed t t' -> has_open name t' = has_open name t.
Proof.
  unfold has_open. induction 1 as [|a b l1 l2 Hab _ IH]; [reflexivity|].
  cbn. now rewrite (refreshed_is_open _ _ _ Hab), IH.
Qed.

Lemma Forall2_refreshed_count t t' :
  Forall2 refreshed t t' -> count_missing t' = count_missing t.
Proof.
  unfold count_missing. induction 1 as [|a b l1 l2 Hab _ IH]; [reflexivity|].
  cbn. destruct Hab as (_ & _ & _ & _ & _ & ->).
  destruct (status_eqb (mp_status a) missing); cbn; now rewrite IH.
Qed.

Lemma write_first_refreshed f upd t :
  (forall r, refreshed r (upd r)) -> Forall2 refreshed t (write_first f upd t).
Proof.
  intros Hu. induction t as [|r t IH]; cbn; [constructor|].
  destruct (f r); constructor; auto using refreshed_refl, Forall2_refreshed_refl.
Qed.

Lemma write_first_app f upd news t :
  Forall (fun r => f r = false) news ->
  write_first f upd (news ++ t)%list = (news ++ write_first f upd t)%list.
Proof.
  induction 1 as [|r news Hr _ IH]; [reflexivity|]. cbn. now rewrite Hr, IH.
Qed.

Lemma ignored_not_open name news :
  Forall (fun r => mp_status r = ignored) news ->
  Forall (fun r => is_open name r = false) news.
Proof.
  apply Forall_impl. intros r H. unfold is_open. rewrite H. apply andb_false_r.
Qed.

Lemma has_open_app name news t :
  Forall (fun r => mp_status r = ignored) news ->
  has_open name (news ++ t)%list = has_open name t.
Proof.
  intros H. apply (ignored_not_open name) in H. unfold has_open.
  rewrite existsb_app.
  replace (existsb (is_open name) news) with false; [reflexivity|].
  symmetry. induction H as [|r news Hr _ IH]; [reflexivity|]. cbn. now rewrite Hr.
Qed.

Lemma guard_same_inventory e1 e2 name :
  inventory e2 = inventory e1 -> templates e2 = templates e1 ->
  guard e2 name = guard e1 name.
Proof.
  intros Hi Ht. unfold guard, _sv_find_product_by_sku_only_relaxed.
  now rewrite Hi, Ht.
Qed.

Section Resolver.

Variable e : env.
Variable filter_enabled : bool.
Variable allowed_prefixes : list string.
Variable processed_skus : list string.

Local Abbreviation step :=
  (missing_step e filter_enabled allowed_prefixes processed_skus).
Local Abbreviation out :=
  (left_out filter_enabled allowed_prefixes processed_skus).

(** The three things one turn of the resolver can do. *)
Lemma missing_step_cases table kv :
  (out kv = true /\ step table kv = table)
  \/ (out kv = false
      /\ has_open (record_name kv) table = true
      /\ Forall2 refreshed table (step table kv)
      /\ exists upd, (forall r, refreshed r (upd r))
                     /\ step table kv = write_first (is_open (record_name kv)) upd table)
  \/ (out kv = false
      /\ has_open (record_name kv) table = false
      /\ exists r, step table kv = r :: table
                   /\ mp_sku r = record_name kv
                   /\ mp_status r = match guard e (record_name kv) with
                                    | Some _ => ignored
                                    | None => missing
                                    end).
Proof.
  unfold missing_step, left_out, has_open, record_name.
  destruct kv as [k d]. cbn [fst snd].
  destruct (set_mem k processed_skus); [now left|]. cbn [orb].
  destruct (filter_enabled && _ && _); [now left|].
  right.
  destruct (existsb _ table) eqn:Hopen.
  - left. repeat split.
    + apply write_first_refreshed. intros r. now repeat split.
    + eexists. split; [|reflexivity]. intros r. now repeat split.
  - right. repeat split. eexists. split; [reflexivity|].
    apply create_status.
Qed.

Lemma step_keeps_open name table kv :
  has_open name table = true -> has_open name (step table kv) = true.
Proof.
  intros H.
  destruct (missing_step_cases table kv)
    as [(_ & ->)|[(_ & _ & F & _)|(_ & _ & r & -> & _)]].
  - exact H.
  - now rewrite (Forall2_refreshed_has_open _ _ _ F).
  - unfold has_open in *. cbn. now rewrite H, orb_true_r.
Qed.

Lemma fold_keeps_open name entries :
  forall table,
  has_open name table = true ->
  has_open name (fold_left step entries table) = true.
Proof.
  induction entries as [|kv rest IH]; intros table H; [exact H|].
  cbn. apply IH. now apply step_keeps_open.
Qed.

(** After a run, every entry the resolver did not pass over has a
    [missing] record, or the guard finds a product for it. *)
Lemma run_settles_every_entry entries :
  forall table kv,
  In kv entries -> out kv = false ->
  has_open (record_name kv) (fold_left step entries table) = true
  \/ guard e (record_name kv) <> None.
Proof.
  induction entries as [|a rest IH]; intros table kv Hin Hout; [easy|].
  destruct Hin as [->|Hin]; [|now apply IH].
  cbn.
  destruct (missing_step_cases table kv)
    as [(E & _)|[(_ & Ho & _)|(_ & _ & r & Hr & Hsku & Hst)]].
  - congruence.
  - left. now apply fold_keeps_open, step_keeps_open.
  - destruct (guard e (record_name kv)) eqn:G; [now right|].
    left. apply fold_keeps_open. rewrite Hr. unfold has_open, is_open. cbn.
    now rewrite Hsku, Hst, String.eqb_refl.
Qed.

(** A run over a table in which every entry is settled adds only
    [ignored] records and refreshes the others in place. *)
Lemma settled_run_adds_only_ignored (settled : list missing_record) entries :
  (forall kv, In kv entries -> out kv = false ->
              has_open (record_name kv) settled = true
              \/ guard e (record_name kv) <> None) ->
  forall news kept,
  Forall (fun r => mp_status r = ignored) news ->
  Forall2 refreshed settled kept ->
  exists news' kept',
    fold_left step entries (news ++ kept)%list = (news' ++ kept')%list
    /\ Forall (fun r => mp_status r = ignored) news'
    /\ Forall2 refreshed settled kept'.
Proof.
  induction entries as [|kv rest IH]; intros Hs news kept Hn Hk.
  - now exists news, kept.
  - cbn [fold_left].
    assert (Hrest : forall kv', In kv' rest -> out kv' = false ->
                      has_open (record_name kv') settled = true
                      \/ guard e (record_name kv') <> None).
    { intros kv' Hin. apply Hs. now right. }
    destruct (missing_step_cases (news ++ kept)%list kv)
      as [(_ & ->)|[(_ & _ & _ & upd & Hu & ->)|(Hout & Ho & r & -> & _ & Hst)]].
    + now apply IH.
    + rewrite (write_first_app _ _ _ _ (ignored_not_open _ _ Hn)).
      apply IH; try assumption.
      apply (Forall2_refreshed_trans _ kept); [assumption|].
      now apply write_first_refreshed.
    + rewrite (has_open_app _ _ _ Hn), (Forall2_refreshed_has_open _ _ _ Hk) in Ho.
      destruct (Hs kv (or_introl eq_refl) Hout) as [Hopen|G]; [congruence|].
      destruct (guard e (record_name kv)); [|congruence].
      change (r :: news ++ kept)%list with ((r :: news) ++ kept)%list.
      apply IH; try assumption. now constructor.
Qed.

End Resolver.

Lemma count_missing_app t1 t2 :
  count_missing (t1 ++ t2)%list = count_missing t1 + count_missing t2.
Proof. unfold count_missing. now rewrite filter_app, length_app. Qed.

Lemma count_missing_ignored news :
  Forall (fun r => mp_status r = ignored) news -> count_missing news = 0.
Proof.
  unfold count_missing. induction 1 as [|r news Hr _ IH]; [reflexivity|].
  cbn. now rewrite Hr.
Qed.

(** C6, as stated, fails: a SKU that the relaxed-match guard recognises
    has no record with status [missing], so the second run creates a
    second [ignored] record for it. *)
Lemma second_run_duplicates_ignored_records :
  let e := sample_env Timeout [archived_product "AB100"] in
  let api := api_of [item_with_sku "AB-100"] in
  let first_run := resolve_missing e api [] [] in
  let second_run := resolve_missing e api [] first_run in
  map (fun r => (mp_sku r, mp_status r)) first_run = [("AB-100", ignored)]
  /\ map (fun r => (mp_sku r, mp_status r)) second_run
     = [("AB-100", ignored); ("AB-100", ignored)].
Proof. split; reflexivity. Qed.

(** C6 (amended): a second run of the resolver, with the feed, the
    matched set, the inventory and the panel unchanged, creates no
    further record with status [missing]: the records of the first run
    are all kept, with at most quantity, sync date and note refreshed,
    every record it adds has status [ignored], and the number of
    [missing] records is the same. *)
Theorem second_run_keeps_missing_count
    (e1 e2 : env) (api : api_data) (processed_skus : list string)
    (table : list missing_record) :
  inventory e2 = inventory e1 ->
  templates e2 = templates e1 ->
  panel e2 = panel e1 ->
  let first_run := resolve_missing e1 api processed_skus table in
  let second_run := resolve_missing e2 api processed_skus first_run in
  count_missing second_run = count_missing first_run
  /\ exists added kept,
       second_run = (added ++ kept)%list
       /\ Forall (fun r => mp_status r = ignored) added
       /\ Forall2 refreshed first_run kept.
Proof.
  intros Hi Ht Hp. cbv zeta.
  set (fe := match panel e1 with
             | Some panel_config => filter_missing_products panel_config
             | None => false
             end).
  set (ap := match panel e1 with
             | Some panel_config =>
                 if fe && truthy (allowed_prefixes panel_config)
                 then parse_prefixes (str (allowed_prefixes panel_config)) else []
             | None => []
             end).
  assert (E1 : forall t, resolve_missing e1 api processed_skus t
                         = fold_left (missing_step e1 fe ap processed_skus)
                                     (by_sku api) t) by reflexivity.
  assert (E2 : forall t, resolve_missing e2 api processed_skus t
                         = fold_left (missing_step e2 fe ap processed_skus)
                                     (by_sku api) t).
  { intros t. unfold resolve_missing. now rewrite Hp. }
  set (first_run := resolve_missing e1 api processed_skus table).
  assert (Hs : forall kv, In kv (by_sku api) ->
                 left_out fe ap processed_skus kv = false ->
                 has_open (record_name kv) first_run = true
                 \/ guard e2 (record_name kv) <> None).
  { intros kv Hin Hout. rewrite (guard_same_inventory e1 e2 _ Hi Ht).
    subst first_run. rewrite E1. now apply run_settles_every_entry. }
  destruct (settled_run_adds_only_ignored e2 fe ap processed_skus first_run
              (by_sku api) Hs [] first_run (Forall_nil _)
              (Forall2_refreshed_refl _))
    as (added & kept & Hrun & Ha & Hk).
  cbn [app] in Hrun. rewrite E2, Hrun. split.
  - rewrite count_missing_app, (count_missing_ignored _ Ha).
    now rewrite (Forall2_refreshed_count _ _ Hk).
  - now exists added, kept.
Qed.

Lemma second_run_keeps_missing_count_witness :
  let e := sample_env Timeout [archived_product "AB-100"] in
  let api := api_of [item_with_sku "AB100"; item_with_sku "GN-7"] in
  count_missing (resolve_missing e api [] (resolve_missing e api [] []))
  = count_missing (resolve_missing e api [] []).
Proof.
  exact (proj1 (second_run_keeps_missing_count
                  (sample_env Timeout [archived_product "AB-100"])
                  (sample_env Timeout [archived_product "AB-100"])
                  (api_of [item_with_sku "AB100"; item_with_sku "GN-7"]) [] []
                  eq_refl eq_refl eq_refl)).
Defined.

(** * Further properties *)

(** ** The feed index *)

Lemma dict_get_set {V} (d : dict V) k v k' :
  dict_get (dict_set d k v) k' = if k =? k' then Some v else dict_get d k'.
Proof.
  induction d as [|[k0 v0] d IH]; cbn; [reflexivity|].
  destruct (k0 =? k) eqn:E0; cbn.
  - apply String.eqb_eq in E0 as ->. now destruct (k =? k').
  - rewrite IH. destruct (k0 =? k') eqn:E1; [|reflexivity].
    apply String.eqb_eq in E1. subst k'. now rewrite String.eqb_sym, E0.
Qed.

Lemma dict_set_keys {V} (d : dict V) k v k' :
  In k' (map fst (dict_set d k v)) <-> k' = k \/ In k' (map fst d).
Proof.
  induction d as [|[k0 v0] d IH]; cbn; [intuition congruence|].
  destruct (k0 =? k) eqn:E0; cbn.
  - apply String.eqb_eq in E0 as ->. intuition congruence.
  - rewrite IH. intuition congruence.
Qed.

Lemma dict_set_NoDup {V} (d : dict V) k v :
  NoDup (map fst d) -> NoDup (map fst (dict_set d k v)).
Proof.
  induction d as [|[k0 v0] d IH]; cbn; intros H.
  - constructor; [easy|constructor].
  - inversion H as [|? ? Hn Hd]; subst.
    destruct (k0 =? k) eqn:E0; cbn.
    + apply String.eqb_eq in E0 as ->. now constructor.
    + constructor; [|now apply IH].
      rewrite dict_set_keys. apply String.eqb_neq in E0.
      intros [E|Hin]; [congruence|contradiction].
Qed.

Lemma dict_get_In {V} (d : dict V) k v :
  NoDup (map fst d) -> In (k, v) d -> dict_get d k = Some v.
Proof.
  induction d as [|[k0 v0] d IH]; cbn; [easy|].
  intros H [E|Hin]; inversion H as [|? ? Hn Hd]; subst.
  - injection E as -> ->. now rewrite String.eqb_refl.
  - destruct (k0 =? k) eqn:E0; [|now apply IH].
    apply String.eqb_eq in E0 as ->. exfalso. apply Hn.
    now apply (in_map fst _ (k, v)).
Qed.

Lemma add_item_by_sku acc item :
  by_sku (add_item acc item)
  = match normalized_key (item_sku item) with
    | Some k => dict_set (by_sku acc) k (entry_of item)
    | None => by_sku acc
    end.
Proof.
  unfold add_item, entry_of. cbn [by_sku].
  fold (normalized_key (item_sku item)).
  destruct (normalized_key (item_sku item)) as [k|] eqn:E; [|reflexivity].
  now rewrite (normalized_key_truthy _ _ E).
Qed.

Lemma add_item_by_barcode acc item :
  by_barcode (add_item acc item)
  = match normalized_key (item_barcode item) with
    | Some k => dict_set (by_barcode acc) k (entry_of item)
    | None => by_barcode acc
    end.
Proof.
  unfold add_item, entry_of. cbn [by_barcode].
  fold (normalized_key (item_barcode item)).
  destruct (normalized_key (item_barcode item)) as [k|] eqn:E; [|reflexivity].
  now rewrite (normalized_key_truthy _ _ E).
Qed.

Lemma api_of_snoc items item :
  api_of (items ++ [item]) = add_item (api_of items) item.
Proof. unfold api_of. now rewrite fold_left_app. Qed.

Lemma api_of_lookup items k :
  dict_get (by_sku (api_of items)) k
  = option_map entry_of (find (has_sku_key k) (rev items))
  /\ dict_get (by_barcode (api_of items)) k
     = option_map entry_of (find (has_barcode_key k) (rev items)).
Proof.
  induction items as [|item items [IHs IHb]] using rev_ind; [now split|].
  rewrite api_of_snoc, rev_app_distr, add_item_by_sku, add_item_by_barcode.
  cbn [rev app find]. unfold has_sku_key at 1, has_barcode_key at 1. split.
  - destruct (normalized_key (item_sku item)) as [k'|]; [|exact IHs].
    rewrite dict_get_set. now destruct (k' =? k).
  - destruct (normalized_key (item_barcode item)) as [k'|]; [|exact IHb].
    rewrite dict_get_set. now destruct (k' =? k).
Qed.

Lemma api_of_NoDup items :
  NoDup (map fst (by_sku (api_of items)))
  /\ NoDup (map fst (by_barcode (api_of items))).
Proof.
  induction items as [|item items [IHs IHb]] using rev_ind.
  - split; constructor.
  - rewrite api_of_snoc, add_item_by_sku, add_item_by_barcode. split.
    + destruct (normalized_key (item_sku item)); [now apply dict_set_NoDup|exact IHs].
    + destruct (normalized_key (item_barcode item));
        [now apply dict_set_NoDup|exact IHb].
Qed.

Lemma strip_sanitize v : strip (_sanitize_identifier v) = _sanitize_identifier v.
Proof.
  unfold _sanitize_identifier.
  destruct v as [| |s]; [reflexivity|reflexivity|]. cbn [str]. cbv zeta.
  destruct (negb (str_truthy (strip s))); [reflexivity|].
  destruct (str_in _ placeholders); [reflexivity|]. apply strip_idem.
Qed.

Lemma normalize_some_not_none s k :
  _normalize_identifier (PyStr s) = Some k ->
  str_truthy s = true /\ (lower (strip s) =? "none") = false.
Proof.
  unfold _normalize_identifier. destruct s as [|c s]; [discriminate|].
  cbn [truthy negb str]. cbv iota.
  destruct (negb (str_truthy (strip (String c s)))); [discriminate|].
  destruct (lower (strip (String c s)) =? "none"); [discriminate|]. now split.
Qed.

Lemma entry_of_keys item :
  (forall k, normalized_key (item_sku item) = Some k ->
             entry_normalized_sku (entry_of item) = Some k
             /\ _normalize_identifier (PyStr (entry_sku (entry_of item))) = Some k)
  /\ (forall k, normalized_key (item_barcode item) = Some k ->
                exists b, entry_barcode (entry_of item) = Some b
                          /\ _normalize_identifier (PyStr b) = Some k).
Proof.
  split; intros k Hk.
  - unfold entry_of. cbn [entry_normalized_sku entry_sku].
    fold (normalized_key (item_sku item)). rewrite Hk.
    cbn [opt_truthy]. now rewrite (normalized_key_truthy _ _ Hk).
  - exists (_sanitize_identifier (item_barcode item)).
    split; [|exact Hk].
    unfold entry_of. cbn [entry_barcode].
    destruct (normalize_some_not_none _ _ Hk) as [Ht Hn].
    rewrite strip_sanitize in Hn. now rewrite Ht, Hn.
Qed.

Lemma fetch_is_api_of e p items :
  response e = Body p -> success p = true -> data p = Some items ->
  _fetch_api_data e = Some (api_of items).
Proof.
  intros Hr Hs Hd. unfold _fetch_api_data. now rewrite Hr, Hs, Hd.
Qed.

(** X1: the two lookup dictionaries are last-writer-wins: a key finds the
    entry of the last feed item that normalizes to it, and nothing when
    no item does. *)
Theorem feed_index_lookup_is_last_item
    (e : env) (p : payload) (items : list feed_item) (k : string) :
  response e = Body p ->
  success p = true ->
  data p = Some items ->
  exists api,
    _fetch_api_data e = Some api
    /\ dict_get (by_sku api) k
       = option_map entry_of (find (has_sku_key k) (rev items))
    /\ dict_get (by_barcode api) k
       = option_map entry_of (find (has_barcode_key k) (rev items)).
Proof.
  intros Hr Hs Hd. exists (api_of items).
  split; [now apply (fetch_is_api_of e p)|]. apply api_of_lookup.
Qed.

Lemma feed_index_lookup_is_last_item_witness :
  exists api,
    _fetch_api_data
      (sample_env (Body {| success := true;
                           data := Some [item_with "S-1" "111"; item_with "s1" "222"] |})
                  [])
    = Some api
    /\ option_map entry_sku (dict_get (by_sku api) "S1") = Some "s1".
Proof.
  destruct (feed_index_lookup_is_last_item
              (sample_env (Body {| success := true;
                                   data := Some [item_with "S-1" "111";
                                                 item_with "s1" "222"] |}) [])
              _ _ "S1" eq_refl eq_refl eq_refl)
    as (api & H & Hs & _).
  exists api. split; [exact H|]. now rewrite Hs.
Defined.

(** X2: in the index built from a feed, no key occurs twice, every entry
    of the SKU index is filed under the normalized form of its own SKU
    and carries that key as its ['normalized_sku'], and every entry of
    the barcode index has a barcode that normalizes to its key. *)
Theorem feed_index_keys_are_normalized
    (e : env) (p : payload) (items : list feed_item) :
  response e = Body p ->
  success p = true ->
  data p = Some items ->
  exists api,
    _fetch_api_data e = Some api
    /\ NoDup (map fst (by_sku api))
    /\ NoDup (map fst (by_barcode api))
    /\ (forall k en, In (k, en) (by_sku api) ->
          entry_normalized_sku en = Some k
          /\ _normalize_identifier (PyStr (entry_sku en)) = Some k)
    /\ (forall k en, In (k, en) (by_barcode api) ->
          exists b, entry_barcode en = Some b
                    /\ _normalize_identifier (PyStr b) = Some k).
Proof.
  intros Hr Hs Hd. exists (api_of items).
  split; [now apply (fetch_is_api_of e p)|].
  destruct (api_of_NoDup items) as [Ns Nb].
  split; [exact Ns|]. split; [exact Nb|]. split; intros k en Hin.
  - apply (dict_get_In _ _ _ Ns) in Hin.
    rewrite (proj1 (api_of_lookup items k)) in Hin.
    destruct (find (has_sku_key k) (rev items)) as [it|] eqn:F; [|discriminate].
    injection Hin as <-. apply find_some in F as [_ F].
    unfold has_sku_key in F.
    destruct (normalized_key (item_sku it)) as [k'|] eqn:E; [|discriminate].
    apply String.eqb_eq in F as ->. now apply entry_of_keys.
  - apply (dict_get_In _ _ _ Nb) in Hin.
    rewrite (proj2 (api_of_lookup items k)) in Hin.
    destruct (find (has_barcode_key k) (rev items)) as [it|] eqn:F; [|discriminate].
    injection Hin as <-. apply find_some in F as [_ F].
    unfold has_barcode_key in F.
    destruct (normalized_key (item_barcode it)) as [k'|] eqn:E; [|discriminate].
    apply String.eqb_eq in F as ->. now apply entry_of_keys.
Qed.

Lemma feed_index_keys_are_normalized_witness :
  exists api,
    _fetch_api_data (sample_env sample_feed []) = Some api
    /\ NoDup (map fst (by_sku api)).
Proof.
  destruct (feed_index_keys_are_normalized (sample_env sample_feed []) _ _
              eq_refl eq_refl eq_refl)
    as (api & H & N & _).
  now exists api.
Defined.

(** ** The stock rule, continued *)

Lemma stock_rule_thresholds q a :
  SFeqb q q = true -> stock_rule q a = PInt (tier_of q).
Proof.
  intros Hq. unfold stock_rule, tier_of. float_literals.
  destruct q as [s|s| |s m e]; try destruct s; try discriminate Hq;
    try reflexivity.
  clear Hq. unfold SFleb, SFltb, SFeqb, SFcompare.
  float_regions m e; reflexivity.
Qed.

Lemma alert_iff_at_most_50 q a :
  SFeqb q q = true ->
  num_ltb (stock_rule q a) (PInt 5) = SFleb q (flt 50).
Proof.
  intros Hq. rewrite (stock_rule_thresholds q a Hq). unfold tier_of. float_literals.
  destruct q as [s|s| |s m e]; try destruct s; try discriminate Hq;
    try reflexivity.
  clear Hq. unfold SFleb, SFltb, SFeqb, SFcompare.
  float_regions m e; reflexivity.
Qed.

Lemma tier_of_values q : In (tier_of q) [0; 2; 5; 10]%Z.
Proof.
  unfold tier_of.
  destruct (SFleb (flt 200) q), (SFltb (flt 50) q), (SFleb (flt 30) q); cbn; tauto.
Qed.

Lemma tier_is_exact q : SFeqb (flt (tier_of q)) (flt (tier_of q)) = true.
Proof.
  unfold tier_of.
  destruct (SFleb (flt 200) q), (SFltb (flt 50) q), (SFleb (flt 30) q); reflexivity.
Qed.

Ltac compare_all :=
  repeat match goal with
    | H : context [Z.compare ?a ?b] |- _ =>
        destruct (Z.compare_spec a b); cbn in H; try discriminate H;
        try (exfalso; lia)
    | |- context [Z.compare ?a ?b] =>
        destruct (Z.compare_spec a b); cbn; try (exfalso; lia)
    | H : context [Pos.compare ?a ?b] |- _ =>
        destruct (Pos.compare_spec a b); cbn in H; try discriminate H;
        try (exfalso; lia)
    | |- context [Pos.compare ?a ?b] =>
        destruct (Pos.compare_spec a b); cbn; try (exfalso; lia)
    end.

(** The order of binary64 values is transitive. *)
Lemma SFcompare_trans a b c r1 r2 :
  SFcompare a b = Some r1 -> SFcompare b c = Some r2 ->
  r1 <> Gt -> r2 <> Gt ->
  SFcompare a c = Some (match r1, r2 with Eq, Eq => Eq | _, _ => Lt end).
Proof.
  destruct a as [sa|sa| |sa ma ea], b as [sb|sb| |sb mb eb], c as [sc|sc| |sc mc ec];
    cbn; try discriminate;
    try destruct sa; try destruct sb; try destruct sc; cbn;
    intros H1 H2 D1 D2;
    assert (D1' : match r1 with Gt => false | _ => true end = true)
      by (destruct r1; congruence);
    assert (D2' : match r2 with Gt => false | _ => true end = true)
      by (destruct r2; congruence);
    clear D1 D2; injection H1 as <-; injection H2 as <-;
    try discriminate; try reflexivity;
    rewrite ?mantissa_compare in *; compare_all;
    try discriminate; try reflexivity.
Qed.

Lemma SFleb_trans a b c :
  SFleb a b = true -> SFleb b c = true -> SFleb a c = true.
Proof.
  unfold SFleb. intros H1 H2.
  destruct (SFcompare a b) as [r1|] eqn:E1; [|discriminate].
  destruct (SFcompare b c) as [r2|] eqn:E2; [|discriminate].
  rewrite (SFcompare_trans a b c r1 r2 E1 E2).
  - now destruct r1, r2.
  - now destruct r1.
  - now destruct r2.
Qed.

Lemma SFltb_leb_trans a b c :
  SFltb a b = true -> SFleb b c = true -> SFltb a c = true.
Proof.
  unfold SFleb, SFltb. intros H1 H2.
  destruct (SFcompare a b) as [r1|] eqn:E1; [|discriminate].
  destruct (SFcompare b c) as [r2|] eqn:E2; [|discriminate].
  rewrite (SFcompare_trans a b c r1 r2 E1 E2).
  - now destruct r1, r2.
  - now destruct r1.
  - now destruct r2.
Qed.

(** Only numbers compare: neither side of a true [<=] is a NaN. *)
Lemma SFleb_not_nan a b :
  SFleb a b = true -> SFeqb a a = true /\ SFeqb b b = true.
Proof.
  unfold SFleb, SFeqb.
  destruct a as [sa|sa| |sa ma ea], b as [sb|sb| |sb mb eb]; cbn; try discriminate;
    intros _; try destruct sa; try destruct sb; cbn; split; try reflexivity;
    rewrite ?Z.compare_refl, ?mantissa_compare, ?Z.compare_refl; reflexivity.
Qed.

(** X3: the stock rule is monotone: for any two feed quantities that are
    numbers (negative ones included), the larger one never gets the
    smaller tier; the tier is an integer among 0, 2, 5 and 10 and does
    not depend on the quantity on hand. *)
Theorem stock_rule_is_monotone (q1 q2 a1 a2 : spec_float) :
  SFleb q1 q2 = true ->
  exists t1 t2,
    stock_rule q1 a1 = PInt t1 /\ stock_rule q2 a2 = PInt t2
    /\ (t1 <= t2)%Z /\ In t1 [0; 2; 5; 10]%Z /\ In t2 [0; 2; 5; 10]%Z.
Proof.
  intros H. destruct (SFleb_not_nan _ _ H) as [N1 N2].
  exists (tier_of q1), (tier_of q2).
  split; [now apply stock_rule_thresholds|].
  split; [now apply stock_rule_thresholds|].
  split; [|split; apply tier_of_values].
  unfold tier_of.
  destruct (SFleb (flt 200) q1) eqn:A1.
  { rewrite (SFleb_trans _ _ _ A1 H). lia. }
  destruct (SFltb (flt 50) q1) eqn:B1.
  { rewrite (SFltb_leb_trans _ _ _ B1 H). destruct (SFleb (flt 200) q2); lia. }
  destruct (SFleb (flt 30) q1) eqn:C1.
  { rewrite (SFleb_trans _ _ _ C1 H).
    destruct (SFleb (flt 200) q2), (SFltb (flt 50) q2); lia. }
  destruct (SFleb (flt 200) q2), (SFltb (flt 50) q2), (SFleb (flt 30) q2); lia.
Qed.

Lemma stock_rule_is_monotone_witness :
  SFleb (flt 40) (flt 120) = true
  /\ exists t1 t2,
       stock_rule (flt 40) (flt 0) = PInt t1 /\ stock_rule (flt 120) (flt 0) = PInt t2
       /\ (t1 <= t2)%Z.
Proof.
  split; [reflexivity|].
  destruct (stock_rule_is_monotone (flt 40) (flt 120) (flt 0) (flt 0) eq_refl)
    as (t1 & t2 & H1 & H2 & H3 & _).
  now exists t1, t2.
Defined.

(** ** Processing one item, continued *)

Lemma process_single_effects e p api :
  exists row_of : spec_float -> log_entry,
    (forall a, log_quantity (row_of a) = stock_rule (feed_qty api p) a
               /\ log_alert (row_of a)
                  = num_ltb (stock_rule (feed_qty api p) a) (PInt 5))
    /\ forall s,
        _process_single_product e p (by_sku api) (by_barcode api) s
        = item_effects e p (row_of (qty_available s (id p)))
            (should_process p && _is_stockable_product p
             && num_neb (stock_rule (feed_qty api p) (qty_available s (id p)))
                        (PFloat (qty_available s (id p))))
            (stock_rule (feed_qty api p) (qty_available s (id p)))
            (fst (matched api p)) (feed_qty api p) (snd (matched api p)) s.
Proof.
  unfold _process_single_product, item_effects, feed_qty, should_process, matched,
    normalized_key.
  destruct (lookup_api _ _ _ _) as [api_data processed_sku]. cbn [fst snd].
  eexists (fun a => _). split;
    [|intros s; unfold bind at 1, gets;
      generalize (qty_available s (id p)); intros a; reflexivity].
  intros a. split; reflexivity.
Qed.

Ltac run_effects :=
  unfold item_effects, _update_product_stock, _handle_product_publishing,
    bind, gets, orm, modify, raise, ret.

Ltac all_outcomes e p update :=
  destruct (orm_fault e (id p) CreateLog) eqn:?, update,
    (orm_fault e (id p) UpdateStock),
    (product_tmpl_id p) as [?tm|], (orm_fault e (id p) WritePublished),
    (has_identifier (default_code p)), (has_identifier (product_barcode p)),
    (orm_fault e (id p) CreateUnpublished).

(** What the item's steps leave alone, whether they raise or not. *)
Lemma item_effects_frame e p row update new_qty api_data qty r s :
  let s' := snd (item_effects e p row update new_qty api_data qty r s) in
  missing_products s' = missing_products s
  /\ commits s' = commits s
  /\ (forall pid, pid <> id p -> qty_available s' pid = qty_available s pid)
  /\ (forall t, (forall tm, product_tmpl_id p = Some tm -> tmpl_id tm <> t) ->
        website_published s' t = website_published s t)
  /\ sync_log s' = ((if logs_ok e p then [row] else []) ++ sync_log s)%list
  /\ (exists rows, unpublished_products s' = (rows ++ unpublished_products s)%list
                   /\ List.length rows <= 1).
Proof.
  cbv zeta. unfold logs_ok. run_effects.
  all_outcomes e p update; cbn.
  all: (split; [reflexivity|]); (split; [reflexivity|]);
  (split; [intros pid Hpid;
           first [reflexivity
                 | destruct (Z.eqb_spec pid (id p)); [contradiction|reflexivity]] |]);
  (split; [intros t Ht;
           first [reflexivity
                 | destruct (Z.eqb_spec t (tmpl_id tm)) as [->|];
                   [now contradiction (Ht tm eq_refl)|reflexivity]] |]).
  all: split; [reflexivity|];
    first [ exists []; split; [reflexivity|cbn; lia]
          | eexists [_]; split; [reflexivity|cbn; lia] ].
Qed.

Lemma item_effects_no_log e p row update new_qty api_data qty r s msg :
  orm_fault e (id p) CreateLog = Some msg ->
  item_effects e p row update new_qty api_data qty r s = (Raise msg, s).
Proof. intros H. unfold item_effects, bind at 1, orm. now rewrite H. Qed.

Lemma item_effects_stock e p row update new_qty api_data qty r s r' s' :
  item_effects e p row update new_qty api_data qty r s = (Ok r', s') ->
  qty_available s' (id p)
  = if update then to_float new_qty else qty_available s (id p).
Proof.
  run_effects.
  all_outcomes e p update; cbn; intros H; try discriminate H;
    injection H as _ <-; cbn; rewrite ?Z.eqb_refl; reflexivity.
Qed.

(** X4: the log row of an item.  If creating the row raises, the item
    leaves the store as it was.  Otherwise the row is written in front of
    the log and stays there whatever the later steps do; its quantity is
    the stock rule's result, and, the feed quantity being a number, its
    alert is set exactly when that quantity is at most 50.  An item
    without a feed record is logged with quantity 0 and the alert set. *)
Theorem item_log_row_and_alert (e : env) (p : product) (api : api_data) (s : store) :
  let run := _process_single_product e p (by_sku api) (by_barcode api) s in
  let q := feed_qty api p in
  match orm_fault e (id p) CreateLog with
  | Some msg => run = (Raise msg, s)
  | None =>
      exists row,
        sync_log (snd run) = row :: sync_log s
        /\ log_quantity row = stock_rule q (qty_available s (id p))
        /\ (SFeqb q q = true -> log_alert row = SFleb q (flt 50))
        /\ (fst (matched api p) = None ->
            log_quantity row = PInt 0 /\ log_alert row = true)
  end.
Proof.
  cbv zeta. destruct (process_single_effects e p api) as (row_of & R & E).
  rewrite E. destruct (orm_fault e (id p) CreateLog) as [msg|] eqn:F.
  - now apply item_effects_no_log.
  - exists (row_of (qty_available s (id p))).
    destruct (R (qty_available s (id p))) as [Rq Ra].
    split.
    { match goal with
      | |- context [item_effects e p ?row ?u ?n ?a ?q ?r s] =>
          destruct (item_effects_frame e p row u n a q r s)
            as (_ & _ & _ & _ & L & _)
      end.
      rewrite L. unfold logs_ok. now rewrite F. }
    split; [exact Rq|].
    split.
    + intros Hq. rewrite Ra. now apply alert_iff_at_most_50.
    + intros Hm. rewrite Ra, Rq. unfold feed_qty. rewrite Hm. split; reflexivity.
Qed.

Lemma item_log_row_and_alert_witness :
  exists row,
    sync_log (snd (_process_single_product (sample_env sample_feed [sample_product])
                     sample_product (by_sku sample_api) (by_barcode sample_api)
                     empty_store))
    = [row]
    /\ log_alert row = true.
Proof.
  pose proof (item_log_row_and_alert (sample_env sample_feed [sample_product])
                sample_product sample_api empty_store) as H.
  cbv zeta in H. cbv delta [orm_fault sample_env] in H. cbv beta iota in H.
  destruct H as (row & L & _ & A & _).
  exists row. split; [exact L|]. now rewrite A.
Defined.

(** X5: the stock of an item after it has been processed without an
    exception.  An item that has an identifier and is stockable ends with
    a quantity on hand equal to the stock rule's result (the feed
    quantity being a number); any other item keeps its quantity; no other
    product's quantity changes. *)
Theorem stock_after_item
    (e : env) (p : product) (api : api_data) (s s' : store) (r : option string) :
  _process_single_product e p (by_sku api) (by_barcode api) s = (Ok r, s') ->
  let q := feed_qty api p in
  (should_process p && _is_stockable_product p = true -> SFeqb q q = true ->
   num_eqb (stock_rule q (qty_available s (id p)))
           (PFloat (qty_available s' (id p))) = true)
  /\ (should_process p && _is_stockable_product p = false ->
      qty_available s' (id p) = qty_available s (id p))
  /\ (forall pid, pid <> id p -> qty_available s' pid = qty_available s pid).
Proof.
  intros H. cbv zeta.
  destruct (process_single_effects e p api) as (row_of & _ & E).
  rewrite E in H.
  pose proof (item_effects_stock _ _ _ _ _ _ _ _ _ _ _ H) as Q.
  match type of H with
  | item_effects e p ?row ?u ?n ?a ?q ?r0 s = _ =>
      pose proof (item_effects_frame e p row u n a q r0 s) as F
  end.
  rewrite H in F. cbn [snd] in F.
  destruct F as (_ & _ & Fq & _).
  split; [|split; [|exact Fq]].
  - intros Hp Hq. rewrite Hp in Q. cbn [andb] in Q.
    destruct (num_neb _ _) eqn:N in Q; rewrite Q.
    + rewrite (stock_rule_thresholds _ _ Hq). apply tier_is_exact.
    + unfold num_neb in N. now apply negb_false_iff in N.
  - intros Hp. rewrite Hp in Q. exact Q.
Qed.

Lemma stock_after_item_witness :
  let run :=
    _process_single_product (sample_env sample_feed [sample_product]) sample_product
      (by_sku sample_api) (by_barcode sample_api) empty_store in
  fst run = Ok (Some "ABC123")
  /\ num_eqb (stock_rule (flt 40) (flt 0)) (PFloat (qty_available (snd run) 1)) = true.
Proof.
  split; [reflexivity|].
  exact (proj1 (stock_after_item (sample_env sample_feed [sample_product])
                  sample_product sample_api empty_store _ (Some "ABC123")
                  eq_refl) eq_refl eq_refl).
Defined.

(** ** Batches, continued *)

Lemma process_single_frame e p api s :
  let s' := snd (_process_single_product e p (by_sku api) (by_barcode api) s) in
  missing_products s' = missing_products s
  /\ commits s' = commits s
  /\ (forall pid, pid <> id p -> qty_available s' pid = qty_available s pid)
  /\ (forall t, (forall tm, product_tmpl_id p = Some tm -> tmpl_id tm <> t) ->
        website_published s' t = website_published s t)
  /\ (exists rows, sync_log s' = (rows ++ sync_log s)%list
                   /\ List.length rows = if logs_ok e p then 1 else 0)
  /\ (exists rows, unpublished_products s' = (rows ++ unpublished_products s)%list
                   /\ List.length rows <= 1).
Proof.
  cbv zeta. destruct (process_single_effects e p api) as (row_of & _ & E).
  rewrite E.
  match goal with
  | |- context [item_effects e p ?row ?u ?n ?a ?q ?r s] =>
      destruct (item_effects_frame e p row u n a q r s)
        as (F1 & F2 & F3 & F4 & F5 & F6)
  end.
  repeat (split; [assumption|]).
  split; [|exact F6].
  eexists. split; [exact F5|]. now destruct (logs_ok e p).
Qed.

Lemma process_products_cons e api p rest count skus s :
  process_products e (p :: rest) api count skus s
  = match _process_single_product e p (by_sku api) (by_barcode api) s with
    | (Ok r, s1) =>
        process_products e rest api (count + 1)
          (match r with
           | Some k => if str_truthy k then set_add k skus else skus
           | None => skus
           end) s1
    | (Raise _, s1) => process_products e rest api count skus s1
    end.
Proof.
  cbn [process_products]. unfold bind at 1, catch, bind at 1.
  destruct (_process_single_product e p (by_sku api) (by_barcode api) s)
    as [[r|msg] s1]; reflexivity.
Qed.

Lemma process_products_app e api l1 l2 :
  forall count skus s,
  process_products e (l1 ++ l2) api count skus s
  = match process_products e l1 api count skus s with
    | (Ok (c1, k1), s1) => process_products e l2 api c1 k1 s1
    | (Raise msg, s1) => (Raise msg, s1)
    end.
Proof.
  induction l1 as [|p rest IH]; intros count skus s; [reflexivity|].
  cbn [app]. rewrite !process_products_cons.
  destruct (_process_single_product e p (by_sku api) (by_barcode api) s)
    as [[r|msg] s1]; apply IH.
Qed.

Lemma set_mem_add k x s : set_mem k (set_add x s) = (k =? x) || set_mem k s.
Proof.
  unfold set_add. destruct (set_mem x s) eqn:E; [|reflexivity].
  destruct (String.eqb_spec k x) as [->|]; [now rewrite E|reflexivity].
Qed.

Lemma set_mem_update k s t :
  set_mem k (set_update s t) = set_mem k s || set_mem k t.
Proof.
  unfold set_update. revert s.
  induction t as [|x t IH]; intros s; cbn [fold_left].
  - now rewrite orb_false_r.
  - rewrite IH, set_mem_add. unfold set_mem at 4, str_in. cbn [existsb].
    fold (str_in k t). fold (set_mem k t).
    destruct (k =? x), (set_mem k s), (set_mem k t); reflexivity.
Qed.

(** The accumulators of the batch loop only add up. *)
Lemma process_products_acc e api products :
  forall count skus s,
  exists n k s',
    process_products e products api 0 [] s = (Ok (n, k), s')
    /\ exists k',
        process_products e products api count skus s = (Ok (count + n, k'), s')
        /\ forall x, set_mem x k' = set_mem x skus || set_mem x k.
Proof.
  induction products as [|p rest IH]; intros count skus s.
  - exists 0, [], s. split; [reflexivity|]. exists skus.
    split; [cbn; now rewrite Nat.add_0_r|]. intros x. now rewrite orb_false_r.
  - rewrite !process_products_cons.
    destruct (_process_single_product e p (by_sku api) (by_barcode api) s)
      as [[r|msg] s1].
    + match goal with
      | |- context [process_products e rest api (0 + 1) ?a0 s1] =>
          destruct (IH (0 + 1) a0 s1) as (n0 & k0 & s' & E0 & k1 & E1 & M1)
      end.
      match goal with
      | |- context [process_products e rest api (count + 1) ?a1 s1] =>
          destruct (IH (count + 1) a1 s1) as (n0' & k0' & s2 & E0' & k2 & E2 & M2)
      end.
      rewrite E0 in E0'. injection E0' as <- <- <-.
      exists (0 + 1 + n0), k1, s'. split; [exact E1|].
      exists k2. split; [rewrite E2; f_equal; f_equal; f_equal; lia|].
      intros x. rewrite M2, M1.
      destruct r as [kk|]; [destruct (str_truthy kk)|];
        rewrite ?set_mem_add; cbn;
        try destruct (x =? kk); destruct (set_mem x skus), (set_mem x k0);
        reflexivity.
    + apply IH.
Qed.

(** What a batch leaves alone, and how many rows it logs. *)
Lemma process_products_frame e api products :
  forall count skus s,
  let s' := snd (process_products e products api count skus s) in
  missing_products s' = missing_products s
  /\ commits s' = commits s
  /\ (forall pid, ~ In pid (map id products) ->
        qty_available s' pid = qty_available s pid)
  /\ (forall t, (forall p tm, In p products -> product_tmpl_id p = Some tm ->
                              tmpl_id tm <> t) ->
        website_published s' t = website_published s t)
  /\ (exists rows, sync_log s' = (rows ++ sync_log s)%list
                   /\ List.length rows = List.length (filter (logs_ok e) products))
  /\ (exists rows, unpublished_products s' = (rows ++ unpublished_products s)%list
                   /\ List.length rows <= List.length products).
Proof.
  induction products as [|p rest IH]; intros count skus s; cbv zeta.
  - cbn. repeat split; try (exists []; split; [reflexivity|cbn; lia]).
  - rewrite process_products_cons.
    pose proof (process_single_frame e p api s) as F. cbv zeta in F.
    destruct (_process_single_product e p (by_sku api) (by_barcode api) s)
      as [[r|msg] s1]; cbn [snd] in F;
      destruct F as (F1 & F2 & F3 & F4 & (rows1 & F5 & L5) & (urows1 & F6 & L6));
      match goal with
      | |- context [process_products e rest api ?c ?k s1] =>
          pose proof (IH c k s1) as G; cbv zeta in G;
          destruct G as (G1 & G2 & G3 & G4 & (rows2 & G5 & L5') & (urows2 & G6 & L6'))
      end.
    all: split; [congruence|]; split; [congruence|].
    all: split;
      [ intros pid Hpid; cbn [map In] in Hpid;
        rewrite G3 by tauto; apply F3; intros ->; tauto |].
    all: split;
      [ intros t Ht; rewrite G4 by (intros q tm Hq; apply Ht; now right);
        apply F4; intros tm; apply Ht; now left |].
    all: split;
      [ exists (rows2 ++ rows1)%list; split;
        [ now rewrite G5, F5, app_assoc
        | rewrite length_app, L5, L5'; cbn [filter];
          destruct (logs_ok e p); cbn [List.length]; lia ]
      | exists (urows2 ++ urows1)%list; split;
        [ now rewrite G6, F6, app_assoc
        | rewrite length_app; cbn [List.length]; lia ] ].
Qed.

Lemma process_single_ok_logs e p api s r s' :
  _process_single_product e p (by_sku api) (by_barcode api) s = (Ok r, s') ->
  logs_ok e p = true.
Proof.
  destruct (process_single_effects e p api) as (row_of & _ & E). rewrite E.
  unfold logs_ok. destruct (orm_fault e (id p) CreateLog) as [msg|] eqn:F;
    [|reflexivity].
  now rewrite (item_effects_no_log _ _ _ _ _ _ _ _ _ _ F).
Qed.

(** Only logged items are counted. *)
Lemma process_products_count_logged e api products :
  forall count skus s n k s',
  process_products e products api count skus s = (Ok (n, k), s') ->
  n <= count + List.length (filter (logs_ok e) products).
Proof.
  induction products as [|p rest IH]; intros count skus s n k s'.
  - cbn. intros H. injection H as <- _ _. lia.
  - rewrite process_products_cons.
    destruct (_process_single_product e p (by_sku api) (by_barcode api) s)
      as [[r|msg] s1] eqn:E; intros H; apply IH in H; cbn [filter].
    + rewrite (process_single_ok_logs _ _ _ _ _ _ E). cbn [List.length]. lia.
    + destruct (logs_ok e p); cbn [List.length]; lia.
Qed.

Lemma committed_all e c starts :
  (forall n, commit_fault e n = None) -> committed e c starts = starts.
Proof.
  intros H. unfold committed. induction starts as [|i rest IH]; [reflexivity|].
  cbn [filter]. now rewrite H, IH.
Qed.

(** ** The clock *)

Lemma undated_same_tables s1 s2 :
  undated s1 = undated s2 -> same_tables_up_to_dates s1 s2.
Proof.
  unfold undated, same_tables_up_to_dates. intros H. injection H. intros.
  now repeat split.
Qed.

Lemma slept_nonneg e total_products chunks_done :
  (0 <= slept e total_products chunks_done)%Z.
Proof.
  unfold slept, sleep_seconds.
  destruct (8000 <? Z.of_nat total_products)%Z; lia.
Qed.

Lemma resolver_env_now e chunk_size : (now e <= now (resolver_env e chunk_size))%Z.
Proof.
  unfold resolver_env. cbn [now at_time].
  pose proof (slept_nonneg e (List.length (listed_products e))
                (List.length
                   (chunk_starts (List.length (listed_products e))
                      (adjust_chunk_size (List.length (listed_products e))
                         chunk_size)))).
  lia.
Qed.

(** The item's steps at two readings of the clock. *)
Lemma process_single_effects_at e p api :
  exists row_of : spec_float -> log_entry,
    forall t s,
      _process_single_product e p (by_sku api) (by_barcode api) s
      = item_effects e p (row_of (qty_available s (id p)))
          (should_process p && _is_stockable_product p
           && num_neb (stock_rule (feed_qty api p) (qty_available s (id p)))
                      (PFloat (qty_available s (id p))))
          (stock_rule (feed_qty api p) (qty_available s (id p)))
          (fst (matched api p)) (feed_qty api p) (snd (matched api p)) s
      /\ _process_single_product (at_time t e) p (by_sku api) (by_barcode api) s
         = item_effects (at_time t e) p (row_of (qty_available s (id p)))
             (should_process p && _is_stockable_product p
              && num_neb (stock_rule (feed_qty api p) (qty_available s (id p)))
                         (PFloat (qty_available s (id p))))
             (stock_rule (feed_qty api p) (qty_available s (id p)))
             (fst (matched api p)) (feed_qty api p) (snd (matched api p)) s.
Proof.
  unfold _process_single_product, item_effects, feed_qty, should_process, matched,
    normalized_key.
  destruct (lookup_api _ _ _ _) as [api_data processed_sku]. cbn [fst snd].
  eexists (fun a => _). intros t s.
  split; unfold bind at 1, gets; generalize (qty_available s (id p)); intros a;
    reflexivity.
Qed.

Lemma item_effects_undated e t p row update new_qty api_data qty r s1 s2 :
  undated s1 = undated s2 ->
  fst (item_effects (at_time t e) p row update new_qty api_data qty r s1)
  = fst (item_effects e p row update new_qty api_data qty r s2)
  /\ undated (snd (item_effects (at_time t e) p row update new_qty api_data qty r s1))
     = undated (snd (item_effects e p row update new_qty api_data qty r s2)).
Proof.
  intros H. unfold undated in H. injection H as Hl Hu Hm Hw Hq.
  run_effects. change (orm_fault (at_time t e)) with (orm_fault e).
  all_outcomes e p update; cbn; (split; [reflexivity|]);
    unfold undated; cbn; rewrite ?Hl, ?Hu, ?Hm, ?Hw, ?Hq; reflexivity.
Qed.

Lemma process_single_undated e t p api s1 s2 :
  undated s1 = undated s2 ->
  fst (_process_single_product (at_time t e) p (by_sku api) (by_barcode api) s1)
  = fst (_process_single_product e p (by_sku api) (by_barcode api) s2)
  /\ undated (snd (_process_single_product (at_time t e) p (by_sku api)
                     (by_barcode api) s1))
     = undated (snd (_process_single_product e p (by_sku api) (by_barcode api) s2)).
Proof.
  intros H. destruct (process_single_effects_at e p api) as (row_of & E).
  destruct (E t s1) as [_ ->]. destruct (E t s2) as [-> _].
  assert (Hq : qty_available s1 = qty_available s2).
  { unfold undated in H. now injection H. }
  rewrite Hq. now apply item_effects_undated.
Qed.

(** A batch at two readings of the clock, from stores that differ in
    dates and commits only. *)
Lemma process_products_undated e t api products :
  forall count skus s1 s2,
  undated s1 = undated s2 ->
  fst (process_products (at_time t e) products api count skus s1)
  = fst (process_products e products api count skus s2)
  /\ undated (snd (process_products (at_time t e) products api count skus s1))
     = undated (snd (process_products e products api count skus s2)).
Proof.
  induction products as [|p rest IH]; intros count skus s1 s2 H.
  - cbn. now split.
  - rewrite !process_products_cons.
    destruct (process_single_undated e t p api s1 s2 H) as [Hf Hs].
    destruct (_process_single_product (at_time t e) p (by_sku api) (by_barcode api) s1)
      as [[r1|m1] s1'],
      (_process_single_product e p (by_sku api) (by_barcode api) s2)
      as [[r2|m2] s2']; cbn [fst snd] in Hf, Hs; try discriminate Hf.
    + injection Hf as ->. now apply IH.
    + now apply IH.
Qed.

(** The resolver at two readings of the clock. *)
Lemma existsb_undated (f : missing_record -> bool) t1 t2 :
  (forall r, f (undated_missing r) = f r) ->
  map undated_missing t1 = map undated_missing t2 ->
  existsb f t1 = existsb f t2.
Proof.
  intros Hf H.
  assert (E : forall t, existsb f (map undated_missing t) = existsb f t).
  { induction t as [|r t IHt]; [reflexivity|]. cbn. now rewrite Hf, IHt. }
  now rewrite <- (E t1), <- (E t2), H.
Qed.

Lemma write_first_undated (f : missing_record -> bool) upd1 upd2 :
  (forall r, f (undated_missing r) = f r) ->
  (forall r1 r2, undated_missing r1 = undated_missing r2 ->
                 undated_missing (upd1 r1) = undated_missing (upd2 r2)) ->
  forall t1 t2,
  map undated_missing t1 = map undated_missing t2 ->
  map undated_missing (write_first f upd1 t1)
  = map undated_missing (write_first f upd2 t2).
Proof.
  intros Hf Hupd. induction t1 as [|r1 t1 IH]; intros [|r2 t2] H;
    try discriminate H; [reflexivity|].
  cbn [map] in H.
  assert (Hr : undated_missing r1 = undated_missing r2) by congruence.
  assert (Ht : map undated_missing t1 = map undated_missing t2) by congruence.
  clear H. cbn [write_first].
  rewrite <- (Hf r1), Hr, (Hf r2).
  destruct (f r2); cbn [map].
  - now rewrite (Hupd r1 r2 Hr), Ht.
  - now rewrite Hr, (IH t2 Ht).
Qed.

Lemma missing_step_undated e t filter_enabled prefixes processed_skus t1 t2 kv :
  map undated_missing t1 = map undated_missing t2 ->
  map undated_missing
    (missing_step (at_time t e) filter_enabled prefixes processed_skus t1 kv)
  = map undated_missing
      (missing_step e filter_enabled prefixes processed_skus t2 kv).
Proof.
  intros H. destruct kv as [k v]. unfold missing_step.
  destruct (set_mem k processed_skus); [exact H|].
  match goal with
  | |- context [if ?b then t1 else _] => destruct b; [exact H|]
  end.
  match goal with
  | |- context [existsb ?f t1] =>
      rewrite (existsb_undated f t1 t2 (fun _ => eq_refl) H); destruct (existsb f t2)
  end.
  - apply write_first_undated; [reflexivity| |exact H].
    intros r1 r2 Hr. unfold undated_missing in *. cbn.
    injection Hr. intros. congruence.
  - cbn [map]. rewrite H. f_equal.
    unfold create.
    change (_sv_find_product_by_sku_only_relaxed (at_time t e))
      with (_sv_find_product_by_sku_only_relaxed e).
    destruct (_sv_find_product_by_sku_only_relaxed e _); reflexivity.
Qed.

Lemma resolve_missing_undated e t api processed_skus t1 t2 :
  map undated_missing t1 = map undated_missing t2 ->
  map undated_missing (resolve_missing (at_time t e) api processed_skus t1)
  = map undated_missing (resolve_missing e api processed_skus t2).
Proof.
  unfold resolve_missing. cbn [panel at_time]. revert t1 t2.
  induction (by_sku api) as [|kv rest IH]; intros t1 t2 H; [exact H|].
  cbn [fold_left]. apply IH. now apply missing_step_undated.
Qed.

(** The chunk loop does to the tables what one batch over all its chunks
    does, up to the dates; the commits only count. *)
Lemma chunk_loop_as_batch e api all_products c starts :
  forall acc s sb,
  undated s = undated sb ->
  exists acc' s' n k s'',
    chunk_loop e all_products api c starts acc s = (Ok acc', s')
    /\ process_products e (List.concat (map (chunk_at all_products c) starts))
         api 0 [] sb
       = (Ok (n, k), s'')
    /\ undated s' = undated s''
    /\ missing_products s' = missing_products s
    /\ commits s' = commits s + List.length (committed e c starts)
    /\ processed acc' = processed acc + n
    /\ forall x, set_mem x (processed_skus acc')
                 = set_mem x (processed_skus acc) || set_mem x k.
Proof.
  induction starts as [|i rest IH]; intros acc s sb H.
  - exists acc, s, 0, [], sb. cbn. repeat split; try lia; try assumption.
    intros x. now rewrite orb_false_r.
  - cbn [chunk_loop map List.concat].
    unfold bind at 1, process_chunk_at, _process_product_chunk.
    fold (chunk_at all_products c i). cbv zeta.
    set (t := (now e + slept e (List.length all_products) (i / c))%Z).
    rewrite process_products_app.
    destruct (process_products_acc e api (chunk_at all_products c i) 0 [] sb)
      as (n1 & k1 & sb1 & E1 & _).
    destruct (process_products_undated e t api (chunk_at all_products c i) 0 [] s sb H)
      as [Hf Hu].
    pose proof (process_products_frame (at_time t e) api (chunk_at all_products c i)
                  0 [] s) as F. cbv zeta in F.
    rewrite E1 in Hf, Hu |- *. cbn [fst snd] in Hf, Hu.
    destruct (process_products (at_time t e) (chunk_at all_products c i) api 0 [] s)
      as [r1 s1].
    cbn [fst snd] in Hf, Hu, F. subst r1. destruct F as (Fm & Fc & _).
    destruct (process_products_acc e api
                (List.concat (map (chunk_at all_products c) rest)) n1 k1 sb1)
      as (n3 & k3 & s3 & E3 & k' & E' & M').
    rewrite E'.
    unfold committed. cbn [filter]. fold (committed e c rest).
    unfold commit. change (commit_fault (at_time t e)) with (commit_fault e).
    destruct (commit_fault e (i / c + 1)) as [msg|]; unfold raise, modify;
      match goal with
      | |- context [chunk_loop e all_products api c rest ?a ?s0] =>
          destruct (IH a s0 sb1 Hu)
            as (acc' & s' & n2 & k2 & s2 & -> & E2 & W & Mp & Cm & P & M)
      end;
      rewrite E3 in E2; injection E2 as <- <- <-;
      exists acc', s', (n1 + n3), k', s3;
      cbn [processed failed processed_skus commits missing_products incr_commits
             List.length] in *;
      (split; [reflexivity|]); (split; [reflexivity|]);
      (split; [exact W|]); (split; [congruence|]); (split; [lia|]);
      (split; [lia|]);
      intros x; rewrite M, M', set_mem_update, orb_assoc; reflexivity.
Qed.

(** ** The run, continued *)

Lemma missing_step_ext e filter_enabled prefixes a b table kv :
  (forall k, set_mem k a = set_mem k b) ->
  missing_step e filter_enabled prefixes a table kv
  = missing_step e filter_enabled prefixes b table kv.
Proof. intros H. destruct kv as [k v]. unfold missing_step. now rewrite H. Qed.

Lemma resolve_missing_ext e api a b table :
  (forall k, set_mem k a = set_mem k b) ->
  resolve_missing e api a table = resolve_missing e api b table.
Proof.
  intros H. unfold resolve_missing. revert table.
  induction (by_sku api) as [|kv rest IH]; intros table; [reflexivity|].
  cbn [fold_left]. rewrite (missing_step_ext _ _ _ a b _ _ H). apply IH.
Qed.

(** With feed data and a product list, the chunked run does to the
    tables what one batch over the listed products followed by the
    resolver does, up to the dates, whatever the chunk size; the resolver
    runs on the records the run started from, at the clock reading the
    sleeps have led to, over the entries it gets to handle. *)
Lemma sync_products_chunked_as_batch e api chunk_size s :
  _fetch_api_data e = Some api ->
  search_fault e = None ->
  0 < chunk_size ->
  let total := List.length (listed_products e) in
  let c := adjust_chunk_size total chunk_size in
  exists acc s' n k s1,
    sync_products_chunked e chunk_size s = (Ok (Some acc), s')
    /\ _process_product_chunk e (listed_products e) api s = (Ok (n, k), s1)
    /\ processed acc = n
    /\ failed acc = failed_at_commit e (listed_products e) c (chunk_starts total c)
    /\ (forall x, set_mem x (processed_skus acc) = set_mem x k)
    /\ undated s'
       = undated
           (set_missing_products
              (resolve_missing e (handled e api) k (missing_products s1)) s1)
    /\ missing_products s'
       = resolve_missing (resolver_env e chunk_size) (handled e api)
           (processed_skus acc) (missing_products s)
    /\ commits s' = commits s + List.length (committed e c (chunk_starts total c)).
Proof.
  intros Hf Hs Hc. cbv zeta.
  destruct (sync_products_chunked_runs e api chunk_size s Hf Hs Hc)
    as (acc & sl & Hloop & Hrun).
  pose proof (adjust_chunk_size_pos (List.length (listed_products e)) chunk_size Hc)
    as Hpos.
  destruct (chunk_loop_counts e api (listed_products e)
              (adjust_chunk_size (List.length (listed_products e)) chunk_size)
              s Hpos)
    as (acc0 & sl0 & Hloop0 & _ & _ & Hfail).
  rewrite Hloop in Hloop0. injection Hloop0 as <- <-.
  destruct (chunk_loop_as_batch e api (listed_products e)
              (adjust_chunk_size (List.length (listed_products e)) chunk_size)
              (chunk_starts (List.length (listed_products e))
                 (adjust_chunk_size (List.length (listed_products e)) chunk_size))
              no_counters s s eq_refl)
    as (acc' & sl' & n & k & s1 & Hloop' & Hb & W & Mp & Cm & P & M).
  rewrite Hloop in Hloop'. injection Hloop' as <- <-.
  rewrite (chunks_cover _ _ Hpos) in Hb.
  change (processed no_counters) with 0 in P.
  change (processed_skus no_counters) with (@nil string) in M.
  exists acc,
    (set_missing_products
       (resolve_missing (resolver_env e chunk_size) (handled e api)
          (processed_skus acc) (missing_products sl)) sl),
    n, k, s1.
  split; [exact Hrun|]. split; [exact Hb|]. split; [exact P|].
  split; [exact Hfail|]. split; [exact M|].
  split; [|split; [cbn; now rewrite Mp|exact Cm]].
  rewrite (resolve_missing_ext _ (handled e api) _ k _ M).
  unfold undated in W. injection W as Wl Wu Wm Ww Wq.
  unfold undated, set_missing_products. cbn.
  rewrite Wl, Wu, Ww, Wq. f_equal.
  unfold resolver_env. now apply resolve_missing_undated.
Qed.

(** The dates do depend on the chunk size: with chunks of one item the
    second item is processed a second later than with both items in one
    chunk. *)
Example chunk_size_changes_the_dates :
  map unp_sync_date
      (unpublished_products
         (snd (sync_products_chunked
                 (sample_env sample_feed [sample_product; variant_without_barcode])
                 1 empty_store)))
  = [200001; 200000]%Z
  /\ map unp_sync_date
         (unpublished_products
            (snd (sync_products_chunked
                    (sample_env sample_feed [sample_product; variant_without_barcode])
                    2 empty_store)))
     = [200000; 200000]%Z
  /\ map mp_create_date
         (missing_products
            (snd (sync_products_chunked
                    (sample_env (Body {| success := true;
                                         data := Some [item_with_sku "ZZ-9"] |})
                                [sample_product; variant_without_barcode])
                    1 empty_store)))
     = [200002]%Z.
Proof. vm_compute. repeat split. Qed.

(** X6: the chunk size is transparent.  With no failing commit, two runs
    from the same store with any two positive chunk sizes, whatever calls
    raise for single items or in the resolver, end with the same tables
    up to the dates of the rows (log, unpublished and missing products
    row by row in every other field, published flags, stock), count the
    same number of processed items, count no failed item and have matched
    the same keys; they differ in the number of commits, and in the dates,
    since the run sleeps after every chunk. *)
Theorem chunk_size_is_transparent
    (e : env) (api : api_data) (c1 c2 : nat) (s : store) :
  _fetch_api_data e = Some api ->
  search_fault e = None ->
  (forall n, commit_fault e n = None) ->
  0 < c1 -> 0 < c2 ->
  exists acc1 s1 acc2 s2,
    sync_products_chunked e c1 s = (Ok (Some acc1), s1)
    /\ sync_products_chunked e c2 s = (Ok (Some acc2), s2)
    /\ same_tables_up_to_dates s1 s2
    /\ processed acc1 = processed acc2
    /\ failed acc1 = 0
    /\ failed acc2 = 0
    /\ forall k, set_mem k (processed_skus acc1) = set_mem k (processed_skus acc2).
Proof.
  intros Hf Hs Hn H1 H2.
  destruct (sync_products_chunked_as_batch e api c1 s Hf Hs H1)
    as (acc1 & s1 & n & k & sb & R1 & B1 & P1 & F1 & M1 & W1 & _).
  destruct (sync_products_chunked_as_batch e api c2 s Hf Hs H2)
    as (acc2 & s2 & n' & k' & sb' & R2 & B2 & P2 & F2 & M2 & W2 & _).
  rewrite B1 in B2. injection B2 as <- <- <-.
  rewrite (failed_at_commit_none _ _ _ _ Hn) in F1.
      rewrite (failed_at_commit_none _ _ _ _ Hn) in F2.
  exists acc1, s1, acc2, s2.
  split; [exact R1|]. split; [exact R2|].
  split; [apply undated_same_tables; congruence|].
  split; [congruence|]. split; [exact F1|]. split; [exact F2|].
  intros x. now rewrite M1, M2.
Qed.

Lemma chunk_size_is_transparent_witness :
  exists acc1 s1 acc2 s2,
    sync_products_chunked env_item_47_throws 100 empty_store = (Ok (Some acc1), s1)
    /\ sync_products_chunked env_item_47_throws 7 empty_store = (Ok (Some acc2), s2)
    /\ same_tables_up_to_dates s1 s2.
Proof.
  destruct (chunk_size_is_transparent env_item_47_throws sample_api 100 7
              empty_store eq_refl eq_refl (fun _ => eq_refl)
              (Nat.lt_0_succ 99) (Nat.lt_0_succ 6))
    as (acc1 & s1 & acc2 & s2 & R1 & R2 & T & _).
  exists acc1, s1, acc2, s2. split; [exact R1|]. split; [exact R2|exact T].
Defined.

(** X7: [sync_products_ultra_safe] is the default chunked run with more
    commits and more sleeps.  With no failing commit, from the same store
    the two return or raise alike (with the same message), they end with
    the same tables up to the dates of the rows, and they report the same
    processed count and the same matched keys. *)
Theorem ultra_safe_run_gives_the_same_tables (e : env) (s : store) :
  (forall n, commit_fault e n = None) ->
  let safe := sync_products_ultra_safe e s in
  let default := sync_products_chunked e 100 s in
  same_tables_up_to_dates (snd safe) (snd default)
  /\ match fst safe, fst default with
     | Ok None, Ok None => True
     | Ok (Some acc1), Ok (Some acc2) =>
         processed acc1 = processed acc2
         /\ failed acc1 = failed acc2
         /\ forall k, set_mem k (processed_skus acc1)
                      = set_mem k (processed_skus acc2)
     | Raise msg1, Raise msg2 => msg1 = msg2
     | _, _ => False
     end.
Proof.
  intros Hn. cbv zeta. unfold sync_products_ultra_safe, catch.
  destruct (_fetch_api_data e) as [api|] eqn:Hf.
  - destruct (search_fault e) as [msg|] eqn:Hs.
    + unfold sync_products_chunked, search_products. rewrite Hf, Hs.
      cbn. now repeat split.
    + destruct (sync_products_chunked_as_batch e api 10 s Hf Hs (Nat.lt_0_succ 9))
        as (acc1 & s1 & n & k & sb & -> & B1 & P1 & F1 & M1 & W1 & _).
      destruct (sync_products_chunked_as_batch e api 100 s Hf Hs (Nat.lt_0_succ 99))
        as (acc2 & s2 & n' & k' & sb' & -> & B2 & P2 & F2 & M2 & W2 & _).
      rewrite B1 in B2. injection B2 as <- <- <-. cbn [fst snd].
      rewrite (failed_at_commit_none _ _ _ _ Hn) in F1.
      rewrite (failed_at_commit_none _ _ _ _ Hn) in F2.
      split; [apply undated_same_tables; congruence|].
      split; [congruence|]. split; [congruence|].
      intros x. now rewrite M1, M2.
  - unfold sync_products_chunked. rewrite Hf. cbn. now repeat split.
Qed.

Lemma ultra_safe_run_gives_the_same_tables_witness :
  same_tables_up_to_dates
    (snd (sync_products_ultra_safe
            (sample_env sample_feed [sample_product; variant_without_barcode])
            empty_store))
    (snd (sync_products_chunked
            (sample_env sample_feed [sample_product; variant_without_barcode])
            100 empty_store)).
Proof.
  exact (proj1 (ultra_safe_run_gives_the_same_tables
                  (sample_env sample_feed [sample_product; variant_without_barcode])
                  empty_store (fun _ => eq_refl))).
Defined.

(** X8: what a run touches.  With feed data and a product list, the run
    returns; it leaves the stock of every product outside the listed ones
    (archived products, services) and the published flag of every
    template without a listed product as they were; it writes one log row
    in front of the log for each listed product whose log call does not
    raise, and at most that many items are counted as processed; and it
    commits once per batch whose commit does not raise: with no failing
    commit, ceil(total / chunk size) times. *)
Theorem run_touches_only_listed_products
    (e : env) (api : api_data) (chunk_size : nat) (s : store) :
  _fetch_api_data e = Some api ->
  search_fault e = None ->
  0 < chunk_size ->
  let total := List.length (listed_products e) in
  let c := adjust_chunk_size total chunk_size in
  exists acc s',
    sync_products_chunked e chunk_size s = (Ok (Some acc), s')
    /\ (forall pid, ~ In pid (map id (listed_products e)) ->
          qty_available s' pid = qty_available s pid)
    /\ (forall t, (forall p tm, In p (listed_products e) ->
                                product_tmpl_id p = Some tm -> tmpl_id tm <> t) ->
          website_published s' t = website_published s t)
    /\ (exists rows,
          sync_log s' = (rows ++ sync_log s)%list
          /\ List.length rows = List.length (filter (logs_ok e) (listed_products e))
          /\ processed acc <= List.length rows)
    /\ commits s' = commits s + List.length (committed e c (chunk_starts total c))
    /\ ((forall n, commit_fault e n = None) ->
        commits s' = commits s + (total + c - 1) / c).
Proof.
  intros Hf Hs Hc. cbv zeta.
  destruct (sync_products_chunked_as_batch e api chunk_size s Hf Hs Hc)
    as (acc & s' & n & k & s1 & R & B & P & _ & _ & W & _ & Cm).
  pose proof (process_products_frame e api (listed_products e) 0 [] s) as F.
  cbv zeta in F. unfold _process_product_chunk in B. rewrite B in F.
  cbn [snd] in F. destruct F as (_ & _ & Fq & Fw & (rows & Fl & Ll) & _).
  apply process_products_count_logged in B. cbn [plus] in B.
  apply undated_same_tables in W.
  destruct W as (Wl & _ & _ & Ww & Wq). cbn in Wl, Ww, Wq.
  exists acc, s'. split; [exact R|].
  split; [intros pid Hpid; rewrite Wq; now apply Fq|].
  split; [intros t Ht; rewrite Ww; now apply Fw|].
  split; [exists rows; rewrite Wl; split; [exact Fl|split; [exact Ll|lia]]|].
  split; [exact Cm|].
  intros Hn. rewrite Cm, (committed_all _ _ _ Hn). unfold chunk_starts.
  now rewrite length_map, length_seq.
Qed.

Lemma run_touches_only_listed_products_witness :
  exists acc s',
    sync_products_chunked env_item_47_throws 100 empty_store = (Ok (Some acc), s')
    /\ qty_available s' 1000 = qty_available empty_store 1000
    /\ commits s' = 1.
Proof.
  destruct (run_touches_only_listed_products env_item_47_throws sample_api 100
              empty_store eq_refl eq_refl (Nat.lt_0_succ 99))
    as (acc & s' & R & Q & _ & _ & _ & C).
  exists acc, s'. split; [exact R|]. split.
  - apply Q. vm_compute. intuition discriminate.
  - now rewrite C.
Defined.

(** ** The missing-product resolver, continued *)

Lemma resolve_missing_fold e api processed_skus table :
  resolve_missing e api processed_skus table
  = fold_left (missing_step e (filter_on e) (prefixes_of e) processed_skus)
              (by_sku api) table.
Proof. reflexivity. Qed.

Lemma create_date e v : mp_create_date (create e v) = now e.
Proof. unfold create. now destruct (_sv_find_product_by_sku_only_relaxed e _). Qed.

Lemma write_first_split f upd a b :
  (forall r, refreshed r (upd r)) ->
  exists a' b',
    write_first f upd (a ++ b)%list = (a' ++ b')%list
    /\ Forall2 refreshed a a' /\ Forall2 refreshed b b'.
Proof.
  intros Hu. induction a as [|r a (a' & b' & E & Ha & Hb)].
  - exists [], (write_first f upd b). cbn.
    split; [reflexivity|]. split; [constructor|now apply write_first_refreshed].
  - cbn. destruct (f r).
    + exists (upd r :: a), b. split; [reflexivity|].
      split; [constructor; [apply Hu|apply Forall2_refreshed_refl]
             |apply Forall2_refreshed_refl].
    + exists (r :: a'), b'. rewrite E. split; [reflexivity|].
      split; [constructor; [apply refreshed_refl|exact Ha]|exact Hb].
Qed.

(** A property of a record's name, creation date and status survives a
    refresh, in both directions. *)
Lemma Forall_refreshed (P : string -> Z -> status -> Prop) t t' :
  Forall2 refreshed t t' ->
  Forall (fun r => P (mp_sku r) (mp_create_date r) (mp_status r)) t ->
  Forall (fun r => P (mp_sku r) (mp_create_date r) (mp_status r)) t'.
Proof.
  induction 1 as [|a b l1 l2 Hab _ IH]; intros H; [constructor|].
  inversion H as [|? ? Ha Hl]; subst.
  constructor; [|now apply IH].
  destruct Hab as (-> & _ & _ & _ & -> & ->). exact Ha.
Qed.

Lemma Exists_refreshed (P : string -> Z -> status -> Prop) t t' :
  Forall2 refreshed t t' ->
  Exists (fun r => P (mp_sku r) (mp_create_date r) (mp_status r)) t
  <-> Exists (fun r => P (mp_sku r) (mp_create_date r) (mp_status r)) t'.
Proof.
  induction 1 as [|a b l1 l2 Hab _ IH]; [reflexivity|].
  rewrite !Exists_cons, IH.
  destruct Hab as (-> & _ & _ & _ & -> & ->). reflexivity.
Qed.

Lemma has_open_Exists name table :
  has_open name table = true
  <-> Exists (fun r => mp_sku r = name /\ mp_status r = missing) table.
Proof.
  unfold has_open. rewrite existsb_exists, Exists_exists.
  split; intros (r & Hin & H); exists r; (split; [exact Hin|]);
    unfold is_open in *.
  - apply andb_true_iff in H as [H1 H2]. apply String.eqb_eq in H1.
    split; [exact H1|]. now destruct (mp_status r).
  - destruct H as [-> ->]. now rewrite String.eqb_refl.
Qed.

(** One turn of the resolver, with the date of a created record. *)
Lemma missing_step_outcomes e processed_skus table kv :
  (passed_over e processed_skus kv = true
   /\ missing_step e (filter_on e) (prefixes_of e) processed_skus table kv = table)
  \/ (passed_over e processed_skus kv = false
      /\ has_open (record_name kv) table = true
      /\ exists upd,
           (forall r, refreshed r (upd r))
           /\ missing_step e (filter_on e) (prefixes_of e) processed_skus table kv
              = write_first (is_open (record_name kv)) upd table)
  \/ (passed_over e processed_skus kv = false
      /\ has_open (record_name kv) table = false
      /\ exists r,
           missing_step e (filter_on e) (prefixes_of e) processed_skus table kv
           = r :: table
           /\ mp_sku r = record_name kv
           /\ mp_create_date r = now e
           /\ mp_status r = match guard e (record_name kv) with
                            | Some _ => ignored
                            | None => missing
                            end).
Proof.
  unfold passed_over, missing_step, left_out, has_open, record_name.
  destruct kv as [k d]. cbn [fst snd].
  destruct (set_mem k processed_skus); [now left|]. cbn [orb].
  destruct (filter_on e && _ && _); [now left|].
  right.
  destruct (existsb _ table) eqn:Hopen.
  - left. repeat split.
    eexists. split; [|reflexivity]. intros r. now repeat split.
  - right. repeat split. eexists. split; [reflexivity|].
    split; [apply create_status|]. split; [apply create_date|apply create_status].
Qed.

Section ResolverRecords.

Variable e : env.
Variable processed_skus : list string.

Local Abbreviation step :=
  (missing_step e (filter_on e) (prefixes_of e) processed_skus).

(** The records a run adds and the records it keeps. *)
Lemma fold_adds_and_refreshes (all_entries : list (string * entry)) entries :
  incl entries all_entries ->
  forall table news kept,
  Forall2 refreshed table kept ->
  Forall (created_for e processed_skus all_entries) news ->
  exists news' kept',
    fold_left step entries (news ++ kept)%list = (news' ++ kept')%list
    /\ Forall2 refreshed table kept'
    /\ Forall (created_for e processed_skus all_entries) news'
    /\ List.length news' <= List.length news + List.length entries.
Proof.
  induction entries as [|kv rest IH]; intros Hincl table news kept Hk Hn.
  - exists news, kept. cbn. repeat split; try assumption. lia.
  - cbn [fold_left].
    assert (Hrest : incl rest all_entries) by (intros x Hx; apply Hincl; now right).
    destruct (missing_step_outcomes e processed_skus (news ++ kept)%list kv)
      as [(_ & ->)|[(_ & _ & upd & Hu & ->)|(Hout & _ & r & -> & Hsku & Hd & Hst)]].
    + destruct (IH Hrest table news kept Hk Hn) as (n' & k' & E & A & B & L).
      exists n', k'. cbn [List.length]. repeat split; try assumption. lia.
    + destruct (write_first_split (is_open (record_name kv)) upd news kept Hu)
        as (news1 & kept1 & -> & Hn1 & Hk1).
      destruct (IH Hrest table news1 kept1) as (n' & k' & E & A & B & L).
      * now apply (Forall2_refreshed_trans _ kept).
      * revert Hn. unfold created_for.
        apply (Forall_refreshed
                 (fun sku date st =>
                    exists kv0, In kv0 all_entries
                      /\ passed_over e processed_skus kv0 = false
                      /\ sku = record_name kv0 /\ date = now e
                      /\ st = match guard e (record_name kv0) with
                              | Some _ => ignored
                              | None => missing
                              end) _ _ Hn1).
      * exists n', k'. rewrite <- (Forall2_length Hn1) in L. cbn [List.length].
        repeat split; try assumption. lia.
    + change (r :: news ++ kept)%list with ((r :: news) ++ kept)%list.
      destruct (IH Hrest table (r :: news) kept Hk) as (n' & k' & E & A & B & L).
      * constructor; [|exact Hn].
        exists kv. split; [apply Hincl; now left|]. now repeat split.
      * exists n', k'. cbn [List.length] in *. repeat split; try assumption. lia.
Qed.

(** A record that is there stays there, under its name and status. *)
Lemma fold_keeps_record (P : string -> Z -> status -> Prop) entries :
  forall table,
  Exists (fun r => P (mp_sku r) (mp_create_date r) (mp_status r)) table ->
  Exists (fun r => P (mp_sku r) (mp_create_date r) (mp_status r))
         (fold_left step entries table).
Proof.
  induction entries as [|kv rest IH]; intros table H; [exact H|].
  cbn [fold_left]. apply IH.
  destruct (missing_step_outcomes e processed_skus table kv)
    as [(_ & ->)|[(_ & _ & upd & Hu & ->)|(_ & _ & r & -> & _)]].
  - exact H.
  - now apply (Exists_refreshed P _ _ (write_first_refreshed _ _ table Hu)).
  - now apply Exists_cons_tl.
Qed.

(** After a run every entry that was not passed over has a record. *)
Lemma fold_records_every_entry entries :
  forall table kv,
  In kv entries -> passed_over e processed_skus kv = false ->
  Exists (fun r => mp_sku r = record_name kv
                   /\ (mp_status r = missing
                       \/ mp_status r = ignored /\ guard e (record_name kv) <> None))
         (fold_left step entries table).
Proof.
  induction entries as [|a rest IH]; intros table kv Hin Hout; [easy|].
  destruct Hin as [->|Hin]; [|now apply IH].
  cbn [fold_left].
  apply (fold_keeps_record
           (fun sku _ st =>
              sku = record_name kv
              /\ (st = missing \/ st = ignored /\ guard e (record_name kv) <> None))).
  destruct (missing_step_outcomes e processed_skus table kv)
    as [(E & _)|[(_ & Ho & upd & Hu & ->)|(_ & _ & r & -> & Hsku & _ & Hst)]].
  - congruence.
  - apply (Exists_refreshed
             (fun sku _ st =>
                sku = record_name kv
                /\ (st = missing
                    \/ st = ignored /\ guard e (record_name kv) <> None))
             _ _ (write_first_refreshed _ _ table Hu)).
    apply has_open_Exists in Ho. revert Ho. apply Exists_impl.
    intros r [H1 H2]. split; [exact H1|now left].
  - apply Exists_cons_hd. split; [exact Hsku|].
    rewrite Hst. destruct (guard e (record_name kv)); [right|left]; easy.
Qed.

End ResolverRecords.

(** X9: the resolver only adds records and refreshes records.  The table
    after a run is the records created in this run followed by the
    records that were there, in their order: none is deleted, and none
    changes its SKU, external id, barcode, brand, creation date or status.
    Every created record stands for a feed entry that is neither matched
    nor filtered out, carries that entry's name, is dated now, and is
    [ignored] if the relaxed search finds a product for the name and
    [missing] otherwise (never [created]). *)
Theorem resolver_adds_and_refreshes
    (e : env) (api : api_data) (processed_skus : list string)
    (table : list missing_record) :
  exists added kept,
    resolve_missing e api processed_skus table = (added ++ kept)%list
    /\ Forall2 refreshed table kept
    /\ Forall (created_for e processed_skus (by_sku api)) added
    /\ List.length added <= List.length (by_sku api).
Proof.
  rewrite resolve_missing_fold.
  destruct (fold_adds_and_refreshes e processed_skus (by_sku api) (by_sku api)
              (incl_refl _) table [] table (Forall2_refreshed_refl _) (Forall_nil _))
    as (added & kept & E & K & A & L).
  exists added, kept. cbn [app List.length plus] in *. now repeat split.
Qed.

(** X10: the resolver is complete: after a run, every feed entry that is
    neither matched nor filtered out has a record under its name, with
    status [missing], or with status [ignored] when the relaxed search
    finds a product for the name. *)
Theorem unmatched_entries_are_recorded
    (e : env) (api : api_data) (processed_skus : list string)
    (table : list missing_record) (kv : string * entry) :
  In kv (by_sku api) ->
  passed_over e processed_skus kv = false ->
  exists r,
    In r (resolve_missing e api processed_skus table)
    /\ mp_sku r = record_name kv
    /\ (mp_status r = missing
        \/ mp_status r = ignored /\ guard e (record_name kv) <> None).
Proof.
  intros Hin Hout. rewrite resolve_missing_fold.
  pose proof (fold_records_every_entry e processed_skus (by_sku api) table kv
                Hin Hout) as H.
  apply Exists_exists in H as (r & Hr & H). now exists r.
Qed.

Lemma unmatched_entries_are_recorded_witness :
  exists r,
    In r (resolve_missing (sample_env Timeout []) sample_api [] [])
    /\ mp_sku r = "ABC-123" /\ mp_status r = missing.
Proof.
  destruct (unmatched_entries_are_recorded (sample_env Timeout []) sample_api [] []
              ("ABC123", entry_of sample_item) (or_introl eq_refl) eq_refl)
    as (r & Hin & Hsku & [Hst|[_ G]]).
  - now exists r.
  - now contradiction G.
Defined.

Lemma api_of_entries items k en :
  In (k, en) (by_sku (api_of items)) ->
  exists item, In item items /\ en = entry_of item.
Proof.
  intros Hin.
  apply (dict_get_In _ _ _ (proj1 (api_of_NoDup items))) in Hin.
  rewrite (proj1 (api_of_lookup items k)) in Hin.
  destruct (find (has_sku_key k) (rev items)) as [it|] eqn:F; [|discriminate].
  injection Hin as <-. apply find_some in F as [F _].
  exists it. split; [now apply in_rev|reflexivity].
Qed.

(** X11: the prefix filter.  With the filter enabled and at least one
    usable prefix configured, every record a run creates from a feed has
    a SKU that starts with one of the allowed prefixes. *)
Theorem prefix_filter_keeps_to_allowed_prefixes
    (e : env) (api : api_data) (processed_skus : list string)
    (table : list missing_record) :
  _fetch_api_data e = Some api ->
  filter_on e = true ->
  prefixes_of e <> [] ->
  exists added kept,
    resolve_missing e api processed_skus table = (added ++ kept)%list
    /\ Forall2 refreshed table kept
    /\ Forall (fun r => existsb (startswith (mp_sku r)) (prefixes_of e) = true) added.
Proof.
  intros Hf Hon Hpre.
  assert (Hapi : exists items, api = api_of items).
  { unfold _fetch_api_data in Hf. destruct (response e) as [| |p]; try discriminate.
    destruct (negb (success p)); [discriminate|].
    destruct (data p) as [items|]; [|discriminate].
    exists items. now injection Hf as <-. }
  destruct Hapi as [items ->].
  rewrite resolve_missing_fold.
  destruct (fold_adds_and_refreshes e processed_skus (by_sku (api_of items))
              (by_sku (api_of items)) (incl_refl _) table [] table
              (Forall2_refreshed_refl _) (Forall_nil _))
    as (added & kept & E & K & A & _).
  exists added, kept. cbn [app] in E. split; [exact E|]. split; [exact K|].
  revert A. apply Forall_impl. intros r ([k en] & Hin & Hout & Hsku & _).
  destruct (api_of_entries _ _ _ Hin) as (item & _ & ->).
  unfold passed_over, left_out in Hout. cbn [fst snd] in Hout.
  apply orb_false_iff in Hout as [_ Hout]. rewrite Hon in Hout.
  destruct (prefixes_of e) as [|p0 ps] eqn:P; [congruence|].
  cbn [andb] in Hout. apply negb_false_iff in Hout.
  unfold record_name in Hsku. cbn [fst snd] in Hsku.
  apply andb_true_iff in Hout as [Ht Hex]. rewrite Ht in Hsku.
  unfold entry_of in Hsku, Hex. cbn [entry_sku] in Hsku, Hex.
  rewrite strip_sanitize in Hsku. now rewrite Hsku.
Qed.

Lemma prefix_filter_keeps_to_allowed_prefixes_witness :
  let items := [item_with_sku "AB-100"; item_with_sku "ZZ-1"; item_with_sku "GN7"] in
  Forall (fun r => existsb (startswith (mp_sku r)) ["AB"; "GN"] = true)
         (resolve_missing (env_filtering "AB, GN" items) (api_of items) [] []).
Proof.
  intros items.
  assert (P : prefixes_of (env_filtering "AB, GN" items) <> []) by discriminate.
  destruct (prefix_filter_keeps_to_allowed_prefixes
              (env_filtering "AB, GN" items) (api_of items) [] []
              eq_refl eq_refl P)
    as (added & kept & E & K & F).
  inversion K; subst. rewrite E, app_nil_r. exact F.
Defined.

Lemma ignore_by_user_not_open name table :
  has_open name (ignore_by_user name table) = false.
Proof.
  unfold has_open, ignore_by_user. induction table as [|r t IH]; [reflexivity|].
  cbn [map existsb]. rewrite IH, orb_false_r.
  destruct (is_open name r) eqn:E; [|exact E].
  unfold is_open, action_ignore_product. cbn. apply andb_false_r.
Qed.

(** X12: ignoring does not stick.  After the user has ignored the records
    of a SKU ([action_ignore_product]), the next run in which the SKU is
    still in the feed, unmatched and not filtered out, and for which the
    relaxed search finds no product, creates a new record with status
    [missing] for it; the ignored records stay as they are. *)
Theorem ignored_by_user_is_listed_again
    (e : env) (api : api_data) (processed_skus : list string)
    (table : list missing_record) (kv : string * entry) :
  In kv (by_sku api) ->
  passed_over e processed_skus kv = false ->
  guard e (record_name kv) = None ->
  let ignored_table := ignore_by_user (record_name kv) table in
  exists added kept,
    resolve_missing e api processed_skus ignored_table = (added ++ kept)%list
    /\ Forall2 refreshed ignored_table kept
    /\ Exists (fun r => mp_sku r = record_name kv
                        /\ mp_status r = missing
                        /\ mp_create_date r = now e) added.
Proof.
  intros Hin Hout G. cbv zeta.
  set (t := ignore_by_user (record_name kv) table).
  rewrite resolve_missing_fold.
  destruct (fold_adds_and_refreshes e processed_skus (by_sku api) (by_sku api)
              (incl_refl _) t [] t (Forall2_refreshed_refl _) (Forall_nil _))
    as (added & kept & E & K & A & _).
  cbn [app] in E. exists added, kept. split; [exact E|]. split; [exact K|].
  pose proof (fold_records_every_entry e processed_skus (by_sku api) t kv Hin Hout)
    as H.
  rewrite E in H. apply Exists_app in H as [H|H].
  - apply Exists_exists in H as (r & Hr & Hsku & Hst).
    apply Exists_exists. exists r. split; [exact Hr|]. split; [exact Hsku|].
    split; [destruct Hst as [Hst|[_ Hg]]; [exact Hst|congruence]|].
    rewrite Forall_forall in A. now destruct (A r Hr) as (kv0 & _ & _ & _ & Hd & _).
  - exfalso.
    assert (O : has_open (record_name kv) t = true).
    { apply has_open_Exists.
      apply (Exists_refreshed
               (fun sku _ st => sku = record_name kv /\ st = missing) _ _ K).
      revert H. apply Exists_impl.
      intros r [Hsku [Hst|[_ Hg]]]; [now split|congruence]. }
    subst t. now rewrite ignore_by_user_not_open in O.
Qed.

Lemma ignored_by_user_is_listed_again_witness :
  let e := sample_env Timeout [] in
  let first_run := resolve_missing e sample_api [] [] in
  map mp_status first_run = [missing]
  /\ exists added kept,
       resolve_missing e sample_api [] (ignore_by_user "ABC-123" first_run)
       = (added ++ kept)%list
       /\ Forall2 refreshed (ignore_by_user "ABC-123" first_run) kept
       /\ Exists (fun r => mp_sku r = "ABC-123" /\ mp_status r = missing
                           /\ mp_create_date r = 200000%Z) added.
Proof.
  split; [reflexivity|].
  exact (ignored_by_user_is_listed_again (sample_env Timeout []) sample_api [] 
           (resolve_missing (sample_env Timeout []) sample_api [] [])
           ("ABC123", entry_of sample_item) (or_introl eq_refl) eq_refl eq_refl).
Defined.

(** ** The two normalizers *)

Lemma sanitize_key k :
  filter_chars isalnum k = k -> upper k = k -> str_truthy k = true ->
  k <> "NONE" -> k <> "NULL" -> k <> "NA" ->
  _sanitize_identifier (PyStr k) = k.
Proof.
  intros Hf Hu Ht H1 H2 H3.
  unfold _sanitize_identifier. cbn [str]. cbv zeta.
  rewrite (strip_alnum _ Hf), Ht. cbn [negb].
  unfold str_in, placeholders. cbn [existsb].
  repeat match goal with
    | |- context [lower k =? ?w] =>
        let E := fresh "E" in
        destruct (lower k =? w) eqn:E;
        [ apply String.eqb_eq in E; apply (upper_of_lower _ _ Hu) in E;
          cbn in E; try congruence;
          exfalso; rewrite E in Hf; discriminate Hf
        | ]
    end.
  reflexivity.
Qed.

(** X13: on ASCII input the engine's key function is idempotent on its
    own keys, and the relaxed normalizer of [warehouse.missing.products]
    agrees with it: a key returned for a raw ASCII identifier is made of
    upper-case letters and digits only, is what [_sv_norm_sku] makes of
    the cleaned identifier, is left alone by [_sv_norm_sku], and, unless
    it spells one of the placeholder words NONE, NULL or NA, is its own
    key.  (Outside ASCII the two differ: [str.isalnum] keeps a letter
    such as [É], the pattern [[^0-9A-Za-z]+] of [_sv_norm_sku] removes
    it.) *)
Theorem key_of_a_key (raw : pyval) (k : string) :
  is_ascii (str raw) = true ->
  normalized_key raw = Some k ->
  filter_chars isalnum k = k
  /\ upper k = k
  /\ _sv_norm_sku (PyStr (_sanitize_identifier raw)) = k
  /\ _sv_norm_sku (PyStr k) = k
  /\ (k <> "NONE" -> k <> "NULL" -> k <> "NA" -> normalized_key (PyStr k) = Some k).
Proof.
  intros _ Hk. destruct (normalize_some_inv _ _ Hk) as (Hf & Hu & Ht).
  split; [exact Hf|]. split; [exact Hu|].
  assert (N : forall s, str_truthy s = true ->
                _sv_norm_sku (PyStr s) = upper (filter_chars isalnum s)).
  { intros s Hs. unfold _sv_norm_sku. destruct s; [discriminate|reflexivity]. }
  split; [|split].
  - unfold normalized_key in Hk.
    destruct (normalize_some_not_none _ _ Hk) as [Hs Hn].
    rewrite (normalize_closed_form _ Hn) in Hk. rewrite (N _ Hs).
    destruct (str_truthy (filter_chars isalnum (_sanitize_identifier raw)));
      congruence.
  - now rewrite (N _ Ht), Hf, Hu.
  - intros H1 H2 H3. unfold normalized_key.
    rewrite (sanitize_key k Hf Hu Ht H1 H2 H3).
    now apply normalize_fixed_point.
Qed.

Lemma key_of_a_key_witness :
  normalized_key (PyStr " ab-100 ") = Some "AB100"
  /\ _sv_norm_sku (PyStr "ab-100") = "AB100"
  /\ normalized_key (PyStr "AB100") = Some "AB100".
Proof.
  split; [reflexivity|].
  destruct (key_of_a_key (PyStr " ab-100 ") "AB100" eq_refl eq_refl) as (_ & _ & H1 & _ & H2).
  split; [exact H1|]. apply H2; discriminate.
Defined.

(** X14: the test for a valid identifier and the cleaning of it.  An
    identifier is valid exactly when it is truthy and
    [_sanitize_identifier] leaves something of it; an identifier with a
    lookup key is valid, with one exception: the value [False], which is
    what an empty field reads as, is not valid and yet has the key
    ["FALSE"]. *)
Theorem valid_identifier_and_lookup_key (raw : pyval) :
  has_identifier raw = truthy raw && str_truthy (_sanitize_identifier raw)
  /\ (normalized_key raw <> None -> has_identifier raw = true \/ raw = PyFalse)
  /\ has_identifier PyFalse = false
  /\ normalized_key PyFalse = Some "FALSE".
Proof.
  assert (H : has_identifier raw = truthy raw && str_truthy (_sanitize_identifier raw)).
  { unfold has_identifier, _sanitize_identifier.
    destruct raw as [| |s]; [reflexivity|reflexivity|].
    cbn [str]. cbv zeta.
    destruct (truthy (PyStr s)); [|reflexivity]. cbn [andb].
    destruct (str_truthy (strip s)) eqn:Ht; [|reflexivity]. cbn [negb andb].
    unfold str_in, placeholders. cbn [existsb]. rewrite !orb_false_r.
    assert (E : (lower (strip s) =? "") = false).
    { destruct (strip s); [discriminate|reflexivity]. }
    rewrite E, orb_false_r.
    destruct (_ || _); [reflexivity|exact (eq_sym Ht)]. }
  split; [exact H|]. split; [|split; reflexivity].
  intros Hk. destruct raw as [| |s]; [now contradiction Hk|now right|left].
  rewrite H.
  destruct (normalized_key (PyStr s)) as [k|] eqn:E; [|now contradiction Hk].
  destruct (normalize_some_not_none _ _ E) as [Hs _]. rewrite Hs, andb_true_r.
  destruct s; [discriminate E|reflexivity].
Qed.

Lemma valid_identifier_and_lookup_key_witness :
  normalized_key (PyStr "ab-1") <> None /\ has_identifier (PyStr "ab-1") = true.
Proof.
  split; [discriminate|].
  destruct (proj1 (proj2 (valid_identifier_and_lookup_key (PyStr "ab-1"))))
    as [H|H]; [discriminate|exact H|discriminate H].
Defined.

(** ** The relaxed search *)

Lemma In_firstn {A} n (l : list A) x : In x (firstn n l) -> In x l.
Proof.
  revert l. induction n as [|n IH]; intros [|a l]; cbn; try tauto.
  intros [->|H]; [now left|right; now apply IH].
Qed.

(** X15: the relaxed search is sound: when it returns a product, the SKU
    it was asked for has at least one letter or digit, and the product
    is an inventory product whose SKU has the same relaxed-normalized
    form, or the first variant of a template whose SKU has. *)
Theorem relaxed_search_is_sound (e : env) (api_sku : string) (pid : Z) :
  _sv_find_product_by_sku_only_relaxed e api_sku = Some pid ->
  str_truthy (_sv_norm_sku (PyStr api_sku)) = true
  /\ ((exists p, In p (inventory e) /\ id p = pid
                 /\ _sv_norm_sku (default_code p) = _sv_norm_sku (PyStr api_sku))
      \/ (exists t, In t (templates e)
                    /\ _sv_norm_sku (tmpl_default_code t) = _sv_norm_sku (PyStr api_sku)
                    /\ (product_variant_id t = Some pid
                        \/ exists rest, product_variant_ids t = pid :: rest))).
Proof.
  unfold _sv_find_product_by_sku_only_relaxed. cbv zeta.
  destruct (str_truthy (_sv_norm_sku (PyStr api_sku))); [|discriminate].
  cbn [negb]. split; [reflexivity|]. revert H.
  destruct (find _ (firstn 200 (filter _ (inventory e)))) as [p|] eqn:F1.
  { intros H; injection H as <-. left. exists p.
    apply find_some in F1 as [Hin Heq]. apply In_firstn, filter_In in Hin as [Hin _].
    apply String.eqb_eq in Heq. now repeat split. }
  destruct (find _ (firstn 200 (filter _ (templates e)))) as [t|] eqn:F2.
  { intros H. right. exists t.
    apply find_some in F2 as [Hin Heq]. apply In_firstn, filter_In in Hin as [Hin _].
    apply String.eqb_eq in Heq. split; [exact Hin|]. split; [exact Heq|].
    destruct (product_variant_id t) as [v|]; [left; congruence|right].
    destruct (product_variant_ids t) as [|v rest]; [discriminate|].
    injection H as <-. now exists rest. }
  destruct (find _ (inventory e)) as [p|] eqn:F3; [|discriminate].
  intros H; injection H as <-. left. exists p.
  apply find_some in F3 as [Hin Heq]. split; [exact Hin|]. split; [reflexivity|].
  unfold field_eqb in Heq. destruct (default_code p) as [| |x]; try discriminate.
  apply String.eqb_eq in Heq. now subst x.
Qed.

Lemma relaxed_search_is_sound_witness :
  _sv_find_product_by_sku_only_relaxed
    (sample_env Timeout [archived_product "AB100"]) "AB-100" = Some 9%Z
  /\ str_truthy (_sv_norm_sku (PyStr "AB-100")) = true.
Proof.
  split; [reflexivity|].
  exact (proj1 (relaxed_search_is_sound
                  (sample_env Timeout [archived_product "AB100"]) "AB-100" 9
                  eq_refl)).
Defined.

(** ** Creating a product from a record *)

Lemma str_in_In x xs : str_in x xs = true <-> In x xs.
Proof.
  unfold str_in. rewrite existsb_exists. split.
  - intros (y & Hy & E). apply String.eqb_eq in E. now subst.
  - intros H. exists x. split; [exact H|apply String.eqb_refl].
Qed.

(** X16: the product type [action_create_product] picks from a selection
    field.  A code that is picked is a key of the selection; ["service"]
    is picked only if its own label hints at a stockable type; nothing is
    picked only when every key is ["service"] and no label hints; and
    ["product"] is picked whenever it is a key. *)
Theorem pick_stockable_code_is_safe (selection : list (string * pyval)) :
  match _pick_stockable_code selection with
  | Some code =>
      In code (map fst selection)
      /\ (code = "service" ->
          exists label, In ("service", label) selection /\ label_hints label = true)
  | None =>
      Forall (fun kl => fst kl = "service" /\ label_hints (snd kl) = false) selection
  end
  /\ (In "product" (map fst selection) ->
      _pick_stockable_code selection = Some "product").
Proof.
  unfold _pick_stockable_code. cbv zeta. split.
  - destruct (find _ preferred_codes) as [code|] eqn:F1.
    { apply find_some in F1 as [Hp Hc]. apply str_in_In in Hc.
      split; [exact Hc|]. intros ->. cbn in Hp. intuition discriminate. }
    destruct (find _ selection) as [[key label]|] eqn:F2.
    { apply find_some in F2 as [Hin Hl]. cbn [fst snd] in *.
      split; [now apply (in_map fst _ (key, label))|].
      intros ->. now exists label. }
    destruct (find _ (map fst selection)) as [key|] eqn:F3.
    { apply find_some in F3 as [Hin Hk]. split; [exact Hin|].
      intros ->. discriminate Hk. }
    apply Forall_forall. intros kl Hin. split.
    + pose proof (find_none _ _ F3 (fst kl) (in_map fst _ _ Hin)) as N.
      apply negb_false_iff, str_in_In in N. cbn in N. intuition congruence.
    + exact (find_none _ _ F2 kl Hin).
  - intros H. apply str_in_In in H. unfold preferred_codes. cbn [find].
    now rewrite H.
Qed.

Lemma pick_stockable_code_is_safe_witness :
  In "product" (map fst [("consu", PyStr "Consumable"); ("product", PyStr "Storable")])
  /\ _pick_stockable_code [("consu", PyStr "Consumable"); ("product", PyStr "Storable")]
     = Some "product".
Proof.
  split; [right; left; reflexivity|].
  apply (proj2 (pick_stockable_code_is_safe
                  [("consu", PyStr "Consumable"); ("product", PyStr "Storable")])).
  right; left; reflexivity.
Defined.

(** ** The entry point *)

Lemma clear_previous_logs_run e s :
  exists s0,
    _clear_previous_logs e s = (Ok tt, s0)
    /\ sync_log s0 = []
    /\ unpublished_products s0 = []
    /\ Forall (fun r => (now e - one_day <= mp_create_date r)%Z) (missing_products s0).
Proof.
  eexists. split; [reflexivity|]. cbn. repeat split.
  apply Forall_forall. intros r Hr. apply filter_In in Hr as [_ Hr].
  apply negb_true_iff, Z.ltb_ge in Hr. exact Hr.
Qed.

Lemma resolve_missing_dates e b api processed_skus table :
  (b <= now e)%Z ->
  Forall (fun r => (b <= mp_create_date r)%Z) table ->
  Forall (fun r => (b <= mp_create_date r)%Z)
         (resolve_missing e api processed_skus table).
Proof.
  intros Hb H. rewrite resolve_missing_fold.
  destruct (fold_adds_and_refreshes e processed_skus (by_sku api) (by_sku api)
              (incl_refl _) table [] table (Forall2_refreshed_refl _) (Forall_nil _))
    as (added & kept & E & K & A & _).
  cbn [app] in E. rewrite E. apply Forall_app. split.
  - revert A. apply Forall_impl. intros r (kv & _ & _ & _ & -> & _). exact Hb.
  - exact (Forall_refreshed (fun _ date _ => (b <= date)%Z) _ _ K H).
Qed.

Lemma run_sync_steps e s :
  run_sync e s
  = match _clear_previous_logs e s with
    | (Ok _, s0) =>
        match sync_products_chunked e 100 s0 with
        | (Ok _, s1) =>
            (Ok tt,
             set_sync_log (summary "success" "Sync successful" :: sync_log s1) s1)
        | (Raise msg, s1) =>
            (Ok tt, set_sync_log (summary "fail" msg :: sync_log s1) s1)
        end
    | (Raise msg, s0) =>
        (Ok tt, set_sync_log (summary "fail" msg :: sync_log s0) s0)
    end.
Proof.
  unfold run_sync, _send_email_report_if_enabled, bind, catch, ret, modify.
  destruct (_clear_previous_logs e s) as [[u|msg] s0]; [|reflexivity].
  destruct (sync_products_chunked e 100 s0) as [[r|msg] s1]; reflexivity.
Qed.

(** X17: [run_sync] always returns.  Whatever the feed, the product
    search, the item calls and the commits do, it ends with the summary
    row as the newest row of the log; the rows below it are rows of this
    run, at most one per listed product, and so are the unpublished rows;
    no missing-product record is older than one day; and the summary
    records a failure exactly when feed data arrived and the product
    search raised, with the exception's message. *)
Theorem run_sync_always_returns (e : env) (s : store) :
  exists s' status message rows,
    run_sync e s = (Ok tt, s')
    /\ sync_log s' = summary status message :: rows
    /\ List.length rows <= List.length (listed_products e)
    /\ List.length (unpublished_products s') <= List.length (listed_products e)
    /\ Forall (fun r => (now e - one_day <= mp_create_date r)%Z) (missing_products s')
    /\ match _fetch_api_data e, search_fault e with
       | Some _, Some msg => status = "fail" /\ message = msg
       | _, _ => status = "success" /\ message = "Sync successful"
       end.
Proof.
  destruct (clear_previous_logs_run e s) as (s0 & C & L0 & U0 & M0).
  rewrite run_sync_steps, C.
  destruct (_fetch_api_data e) as [api|] eqn:Hf.
  - destruct (search_fault e) as [msg|] eqn:Hs.
    + unfold sync_products_chunked, search_products.
      rewrite Hf, Hs. unfold bind, raise.
      exists (set_sync_log (summary "fail" msg :: sync_log s0) s0), "fail", msg, [].
      split; [reflexivity|]. cbn. rewrite L0, U0.
      repeat split; try (cbn; lia); try reflexivity. exact M0.
    + destruct (sync_products_chunked_as_batch e api 100 s0 Hf Hs (Nat.lt_0_succ 99))
        as (acc & s1 & n & k & sb & R & B & _ & _ & _ & W & Mp & _).
      rewrite R.
      pose proof (process_products_frame e api (listed_products e) 0 [] s0) as F.
      cbv zeta in F. unfold _process_product_chunk in B. rewrite B in F.
      cbn [snd] in F.
      destruct F as (_ & _ & _ & _ & (rows & Fl & Ll) & (urows & Fu & Lu)).
      apply undated_same_tables in W.
      destruct W as (Wl & Wu & _). cbn in Wl, Wu.
      apply (f_equal (@List.length _)) in Wu. rewrite !length_map in Wu.
      exists (set_sync_log (summary "success" "Sync successful" :: sync_log s1) s1),
        "success", "Sync successful", rows.
      split; [reflexivity|]. cbn.
      rewrite Wl, Wu, Mp, Fl, Fu, L0, U0, !app_nil_r.
      split; [reflexivity|].
      split; [rewrite Ll; apply filter_length_le|].
      split; [exact Lu|]. split; [|now split].
      apply resolve_missing_dates; [|exact M0].
      pose proof (resolver_env_now e 100). unfold one_day. lia.
  - unfold sync_products_chunked. rewrite Hf. unfold ret.
    exists (set_sync_log (summary "success" "Sync successful" :: sync_log s0) s0),
      "success", "Sync successful", [].
    split; [reflexivity|]. cbn. rewrite L0, U0.
    repeat split; try (cbn; lia). exact M0.
Qed.

(** ** The panel *)

Lemma dict_get_Some_In {V} (d : dict V) k v : dict_get d k = Some v -> In (k, v) d.
Proof.
  induction d as [|[k0 v0] d IH]; cbn; [discriminate|].
  destruct (String.eqb_spec k0 k) as [->|_].
  - intros H; injection H as ->. now left.
  - intros H. right. now apply IH.
Qed.

Lemma lookup_api_In bs bb k1 k2 a :
  fst (lookup_api bs bb k1 k2) = Some a ->
  exists k, In (k, a) (bs ++ bb)%list.
Proof.
  unfold lookup_api.
  assert (S : forall k, dict_get bs k = Some a -> exists k, In (k, a) (bs ++ bb)%list).
  { intros k H. exists k. apply in_or_app. left. now apply dict_get_Some_In. }
  assert (B : forall k, dict_get bb k = Some a -> exists k, In (k, a) (bs ++ bb)%list).
  { intros k H. exists k. apply in_or_app. right. now apply dict_get_Some_In. }
  destruct k1 as [k|].
  - destruct (str_truthy k && dict_mem k bs).
    + destruct (dict_get bs k) as [r|] eqn:E.
      * cbn. intros H; injection H as <-. now apply (S k).
      * destruct k2 as [b|]; [|discriminate].
        destruct (str_truthy b && dict_mem b bb); [|discriminate].
        destruct (dict_get bb b) as [r|] eqn:E'; [|discriminate].
        cbn. intros H; injection H as <-. now apply (B b).
    + destruct k2 as [b|]; [|discriminate].
      destruct (str_truthy b && dict_mem b bb); [|discriminate].
      destruct (dict_get bb b) as [r|] eqn:E'; [|discriminate].
      cbn. intros H; injection H as <-. now apply (B b).
  - destruct k2 as [b|]; [|discriminate].
    destruct (str_truthy b && dict_mem b bb); [|discriminate].
    destruct (dict_get bb b) as [r|] eqn:E'; [|discriminate].
    cbn. intros H; injection H as <-. now apply (B b).
Qed.

Lemma feed_qty_is_number api p :
  quantities_are_numbers api ->
  SFeqb (feed_qty api p) (feed_qty api p) = true.
Proof.
  intros H. unfold feed_qty, matched.
  destruct (fst (lookup_api _ _ _ _)) as [a|] eqn:E; [|reflexivity].
  apply lookup_api_In in E as [k Hin].
  unfold quantities_are_numbers in H. rewrite Forall_forall in H.
  exact (H (k, a) Hin).
Qed.

Lemma tier_row_is_counted q :
  xorb (num_ltb (PInt (tier_of q)) (PInt 5))
       (negb (num_ltb (PInt (tier_of q)) (PInt 5)) && quantity_ge (PInt (tier_of q)) 5)
  = true.
Proof.
  unfold tier_of.
  destruct (SFleb (flt 200) q), (SFltb (flt 50) q), (SFleb (flt 30) q); reflexivity.
Qed.

Lemma process_single_rows e p api s :
  quantities_are_numbers api ->
  exists rows,
    sync_log (snd (_process_single_product e p (by_sku api) (by_barcode api) s))
    = (rows ++ sync_log s)%list
    /\ Forall (fun row => alert_or_high_stock row = true) rows.
Proof.
  intros Hq. destruct (process_single_effects e p api) as (row_of & R & E).
  rewrite E.
  match goal with
  | |- context [item_effects e p ?row ?u ?n ?a ?q ?r s] =>
      destruct (item_effects_frame e p row u n a q r s) as (_ & _ & _ & _ & L & _)
  end.
  eexists. split; [exact L|].
  destruct (logs_ok e p); constructor; [|constructor].
  destruct (R (qty_available s (id p))) as [Rq Ra].
  unfold alert_or_high_stock. rewrite Ra, Rq.
  rewrite (stock_rule_thresholds _ _ (feed_qty_is_number api p Hq)).
  apply tier_row_is_counted.
Qed.

Lemma process_products_rows e api products :
  quantities_are_numbers api ->
  forall count skus s,
  exists rows,
    sync_log (snd (process_products e products api count skus s))
    = (rows ++ sync_log s)%list
    /\ Forall (fun row => alert_or_high_stock row = true) rows.
Proof.
  intros Hq. induction products as [|p rest IH]; intros count skus s.
  - exists []. split; [reflexivity|constructor].
  - rewrite process_products_cons.
    destruct (process_single_rows e p api s Hq) as (rows1 & L1 & F1).
    destruct (_process_single_product e p (by_sku api) (by_barcode api) s)
      as [[r|msg] s1]; cbn [snd] in L1;
      match goal with
      | |- context [process_products e rest api ?c ?k s1] =>
          destruct (IH c k s1) as (rows2 & L2 & F2)
      end;
      exists (rows2 ++ rows1)%list;
      (split; [now rewrite L2, L1, app_assoc|now apply Forall_app]).
Qed.

Lemma counted_rows rows :
  Forall (fun row => alert_or_high_stock row = true) rows ->
  List.length rows
  = List.length (filter log_alert rows)
    + List.length (filter (fun r => negb (log_alert r)
                                    && quantity_ge (log_quantity r) 5) rows).
Proof.
  induction 1 as [|row rows Hr _ IH]; [reflexivity|].
  cbn [filter List.length]. unfold alert_or_high_stock in Hr.
  destruct (log_alert row); cbn [negb andb] in *.
  - cbn [List.length]. lia.
  - cbn [xorb] in Hr. rewrite Hr. cbn [List.length]. lia.
Qed.

(** X18: the panel's counters after a run, the feed quantities being
    numbers.  Every item row of the log is counted either as a low-stock
    alert or as high stock, never as both; the summary row is counted in
    the total, as an alert when the run failed and as neither when it
    succeeded.  So the panel shows total = alerts + high stock + 1 after
    a successful run and total = alerts + high stock after a failed one,
    and its status is "Ready". *)
Theorem panel_counters_after_run (e : env) (s : store) :
  (forall api, _fetch_api_data e = Some api -> quantities_are_numbers api) ->
  let info := _compute_sync_info (snd (run_sync e s)) in
  sync_status info = "Ready"
  /\ total_products_synced info
     = alerts_count info + high_stock_count info
       + match _fetch_api_data e, search_fault e with
         | Some _, Some _ => 0
         | _, _ => 1
         end
  /\ total_products_synced info <= 1 + List.length (listed_products e).
Proof.
  intros Hq. cbv zeta.
  destruct (clear_previous_logs_run e s) as (s0 & C & L0 & _ & _).
  rewrite run_sync_steps, C.
  destruct (_fetch_api_data e) as [api|] eqn:Hf.
  - destruct (search_fault e) as [msg|] eqn:Hs.
    + unfold sync_products_chunked, search_products.
      rewrite Hf, Hs. unfold bind, raise. cbn. rewrite L0. cbn.
      repeat split; lia.
    + destruct (sync_products_chunked_as_batch e api 100 s0 Hf Hs (Nat.lt_0_succ 99))
        as (acc & s1 & n & k & sb & R & B & _ & _ & _ & W & _).
      rewrite R.
      destruct (process_products_rows e api (listed_products e) (Hq api eq_refl)
                  0 [] s0) as (rows & Lr & Fr).
      pose proof (process_products_frame e api (listed_products e) 0 [] s0) as F.
      cbv zeta in F. unfold _process_product_chunk in B. rewrite B in F, Lr.
      cbn [snd] in F, Lr.
      destruct F as (_ & _ & _ & _ & (rows' & Fl & Ll) & _).
      rewrite L0, app_nil_r in Lr, Fl. rewrite Lr in Fl. subst rows'.
      apply undated_same_tables in W.
      destruct W as (Wl & _). cbn in Wl.
      unfold _compute_sync_info. cbn. rewrite Wl, Lr.
      split; [reflexivity|].
      rewrite (counted_rows _ Fr) at 1.
      split; [lia|]. rewrite Ll. pose proof (filter_length_le (logs_ok e)
                                              (listed_products e)). lia.
  - unfold sync_products_chunked. rewrite Hf. unfold ret. cbn. rewrite L0. cbn.
    repeat split; lia.
Qed.

Lemma panel_counters_after_run_witness :
  let info :=
    _compute_sync_info
      (snd (run_sync (sample_env sample_feed [sample_product; barcode_only_product])
                     empty_store)) in
  total_products_synced info = alerts_count info + high_stock_count info + 1.
Proof.
  assert (Q : forall api,
             _fetch_api_data (sample_env sample_feed
                                [sample_product; barcode_only_product]) = Some api ->
             quantities_are_numbers api).
  { intros api H. injection H as <-. repeat constructor. }
  exact (proj1 (proj2 (panel_counters_after_run
                         (sample_env sample_feed [sample_product; barcode_only_product])
                         empty_store Q))).
Defined.

(** ** The run, end to end *)

Lemma process_single_result e p api s r s' :
  _process_single_product e p (by_sku api) (by_barcode api) s = (Ok r, s') ->
  r = snd (matched api p).
Proof.
  destruct (process_single_effects e p api) as (row_of & _ & E). rewrite E.
  run_effects.
  match goal with
  | |- context [if ?u then _ else _] => all_outcomes e p u
  end; cbn; intros H; try discriminate H; now injection H as <- _.
Qed.

(** The keys a batch collects are keys of items whose processing
    returned them. *)
Lemma process_products_keys e api products :
  forall count skus s n k s' x,
  process_products e products api count skus s = (Ok (n, k), s') ->
  set_mem x k = true ->
  set_mem x skus = true
  \/ exists p s0 s1,
       In p products
       /\ snd (matched api p) = Some x
       /\ _process_single_product e p (by_sku api) (by_barcode api) s0
          = (Ok (Some x), s1).
Proof.
  induction products as [|p rest IH]; intros count skus s n k s' x.
  - cbn. intros H; injection H as _ <- _. now left.
  - rewrite process_products_cons.
    destruct (_process_single_product e p (by_sku api) (by_barcode api) s)
      as [[r|msg] s1] eqn:E; intros H Hx.
    + destruct (IH _ _ _ _ _ _ x H Hx) as [Hs|(q & q0 & q1 & Hq & Hm & Hr)].
      * destruct r as [kk|]; [|now left].
        destruct (str_truthy kk); [|now left].
        rewrite set_mem_add in Hs. apply orb_true_iff in Hs as [Hs|Hs]; [|now left].
        apply String.eqb_eq in Hs. subst kk. right. exists p, s, s1.
        split; [now left|]. split; [|exact E].
        now rewrite <- (process_single_result _ _ _ _ _ _ E).
      * right. exists q, q0, q1. split; [now right|now split].
    + destruct (IH _ _ _ _ _ _ x H Hx) as [Hs|(q & q0 & q1 & Hq & Hm & Hr)];
        [now left|].
      right. exists q, q0, q1. split; [now right|now split].
Qed.

(** The resolver is left by an exception: the entries it has not handled
    get no record. *)
Example resolver_exception_leaves_entries_unrecorded :
  missing_products
    (snd (sync_products_chunked
            (env_resolver_raises 0 [item_with_sku "ZZ-9"]) 100 empty_store))
  = []
  /\ List.length
       (missing_products
          (snd (sync_products_chunked
                  (env_resolver_raises 1 [item_with_sku "ZZ-9"; item_with_sku "ZZ-8"])
                  100 empty_store)))
     = 1.
Proof. vm_compute. split; reflexivity. Qed.

(** X19: no SKU of the feed falls through.  After a chunked run with feed
    data and a product list in which no call of the resolver raises,
    whatever calls raised for single items or at commits, every entry of
    the feed's SKU index is accounted for: its key is among the matched
    keys the run reports, put there by a listed product that resolves to
    it and whose processing returned it; or the prefix filter rejects the
    entry; or the table of missing products holds a record under its
    name, with status [missing], or [ignored] when the relaxed search
    finds a product for the name. *)
Theorem every_feed_sku_is_accounted_for
    (e : env) (api : api_data) (chunk_size : nat) (s : store)
    (kv : string * entry) :
  _fetch_api_data e = Some api ->
  search_fault e = None ->
  resolver_fault e = None ->
  0 < chunk_size ->
  In kv (by_sku api) ->
  exists acc s',
    sync_products_chunked e chunk_size s = (Ok (Some acc), s')
    /\ ((set_mem (fst kv) (processed_skus acc) = true
         /\ exists p s0 s1,
              In p (listed_products e)
              /\ snd (matched api p) = Some (fst kv)
              /\ _process_single_product e p (by_sku api) (by_barcode api) s0
                 = (Ok (Some (fst kv)), s1))
        \/ passed_over e [] kv = true
        \/ exists r,
             In r (missing_products s')
             /\ mp_sku r = record_name kv
             /\ (mp_status r = missing
                 \/ mp_status r = ignored /\ guard e (record_name kv) <> None)).
Proof.
  intros Hf Hs Hr Hc Hin.
  destruct (sync_products_chunked_as_batch e api chunk_size s Hf Hs Hc)
    as (acc & s' & n & k & s1 & R & B & _ & _ & M & _ & Mp & _).
  exists acc, s'. split; [exact R|].
  unfold handled in Mp. rewrite Hr in Mp.
  destruct (passed_over e (processed_skus acc) kv) eqn:P.
  - unfold passed_over, left_out in *.
    destruct (set_mem (fst kv) (processed_skus acc)) eqn:Mk.
    + left. split; [reflexivity|]. rewrite M in Mk.
      unfold _process_product_chunk in B.
      destruct (process_products_keys _ _ _ _ _ _ _ _ _ (fst kv) B Mk)
        as [Hn|Hp]; [discriminate Hn|exact Hp].
    + right. left. exact P.
  - right. right. rewrite Mp, resolve_missing_fold.
    pose proof (fold_records_every_entry (resolver_env e chunk_size)
                  (processed_skus acc) (by_sku api) (missing_products s) kv Hin P)
      as H.
    apply Exists_exists in H as (r & Hr' & H1 & H2). exists r.
    split; [exact Hr'|]. split; [exact H1|exact H2].
Qed.

Lemma every_feed_sku_is_accounted_for_witness :
  exists acc s',
    sync_products_chunked (sample_env sample_feed [sample_product]) 100 empty_store
    = (Ok (Some acc), s')
    /\ ((set_mem "ABC123" (processed_skus acc) = true
         /\ exists p s0 s1,
              In p (listed_products (sample_env sample_feed [sample_product]))
              /\ snd (matched sample_api p) = Some "ABC123"
              /\ _process_single_product (sample_env sample_feed [sample_product]) p
                   (by_sku sample_api) (by_barcode sample_api) s0
                 = (Ok (Some "ABC123"), s1))
        \/ passed_over (sample_env sample_feed [sample_product]) []
             ("ABC123", entry_of sample_item) = true
        \/ exists r,
             In r (missing_products s')
             /\ mp_sku r = record_name ("ABC123", entry_of sample_item)
             /\ (mp_status r = missing
                 \/ mp_status r = ignored
                    /\ guard (sample_env sample_feed [sample_product])
                         (record_name ("ABC123", entry_of sample_item)) <> None)).
Proof.
  exact (every_feed_sku_is_accounted_for (sample_env sample_feed [sample_product])
           sample_api 100 empty_store ("ABC123", entry_of sample_item)
           eq_refl eq_refl eq_refl (Nat.lt_0_succ 99) (or_introl eq_refl)).
Defined.

(** ** The published flag after a run *)

Lemma last_of_template_In t products q :
  last_of_template t products = Some q -> In q products /\ has_template t q = true.
Proof.
  induction products as [|p rest IH]; cbn [last_of_template]; [discriminate|].
  destruct (last_of_template t rest) as [q'|].
  - intros H. injection H as ->. destruct (IH eq_refl) as [Hin Ht].
    split; [now right|exact Ht].
  - destruct (has_template t p) eqn:Hp; [|discriminate].
    intros H. injection H as <-. split; [now left|exact Hp].
Qed.

Lemma last_of_template_some t products p :
  In p products -> has_template t p = true -> last_of_template t products <> None.
Proof.
  induction products as [|p0 rest IH]; [contradiction|].
  intros [->|Hin] Ht; cbn [last_of_template].
  - destruct (last_of_template t rest); [discriminate|]. now rewrite Ht.
  - destruct (last_of_template t rest); [discriminate|]. now contradiction (IH Hin Ht).
Qed.

(** An item none of whose calls raises: what it returns, the flag it
    writes on its template, and the row it adds. *)
Lemma process_single_publishing e p api s :
  no_fault e p = true ->
  exists s',
    _process_single_product e p (by_sku api) (by_barcode api) s
    = (Ok (snd (matched api p)), s')
    /\ (forall t, website_published s' t
                  = if has_template t p then valid_identifiers p
                    else website_published s t)
    /\ map undated_unpublished (unpublished_products s')
       = (unpublished_row e api p
          ++ map undated_unpublished (unpublished_products s))%list.
Proof.
  intros Hp. destruct (process_single_effects e p api) as (row_of & _ & E).
  rewrite E. run_effects.
  rewrite !(no_fault_call e p _ Hp).
  unfold unpublished_row, has_template, valid_identifiers, feed_qty.
  destruct (fst (matched api p)) as [a|];
    match goal with
    | |- context [if ?u then _ else _] =>
        destruct u, (product_tmpl_id p) as [tm|],
          (has_identifier (default_code p)), (has_identifier (product_barcode p))
    end;
    cbn; eexists; (split; [reflexivity|]); split; try reflexivity;
    intros t; reflexivity.
Qed.

(** A batch none of whose calls raises. *)
Lemma process_products_publishing e api products :
  (forall p, In p products -> no_fault e p = true) ->
  forall count skus s,
  exists k s',
    process_products e products api count skus s
    = (Ok (count + List.length products, k), s')
    /\ (forall t, website_published s' t
                  = match last_of_template t products with
                    | Some q => valid_identifiers q
                    | None => website_published s t
                    end)
    /\ map undated_unpublished (unpublished_products s')
       = (rev (flat_map (unpublished_row e api) products)
          ++ map undated_unpublished (unpublished_products s))%list.
Proof.
  induction products as [|p rest IH]; intros Hnf count skus s.
  - exists skus, s. cbn. rewrite Nat.add_0_r. now repeat split.
  - rewrite process_products_cons.
    destruct (process_single_publishing e p api s (Hnf p (or_introl eq_refl)))
      as (s1 & -> & Hw1 & Hu1).
    match goal with
    | |- context [process_products e rest api ?c ?k0 s1] =>
        destruct (IH (fun q Hq => Hnf q (or_intror Hq)) c k0 s1)
          as (k & s' & -> & Hw & Hu)
    end.
    exists k, s'. split; [cbn [List.length]; do 3 f_equal; lia|]. split.
    + intros t. rewrite Hw. cbn [last_of_template].
      destruct (last_of_template t rest); [reflexivity|].
      rewrite Hw1. now destruct (has_template t p).
    + rewrite Hu, Hu1. cbn [flat_map]. rewrite rev_app_distr, <- app_assoc.
      f_equal. f_equal.
      unfold unpublished_row. destruct (product_tmpl_id p); [|reflexivity].
      now destruct (valid_identifiers p).
Qed.

(** C3, as stated, fails: the published flag is kept on the template.
    In a run over two variants of one template, of which the first has a
    valid SKU and a valid barcode and the second has no barcode, both
    items are processed and none fails, and the run ends with the flag of
    the complete item's template cleared. *)
Lemma published_flag_is_the_templates :
  fst (sync_products_chunked
         (sample_env sample_feed [complete_variant; variant_without_barcode])
         100 empty_store)
  = Ok (Some {| processed := 2; failed := 0; processed_skus := [] |})
  /\ In complete_variant
        (listed_products
           (sample_env sample_feed [complete_variant; variant_without_barcode]))
  /\ has_identifier (default_code complete_variant) = true
  /\ has_identifier (product_barcode complete_variant) = true
  /\ product_tmpl_id complete_variant = Some sample_template
  /\ website_published
       (snd (sync_products_chunked
               (sample_env sample_feed [complete_variant; variant_without_barcode])
               100 empty_store))
       (tmpl_id sample_template)
     = false.
Proof.
  split; [reflexivity|]. split; [now left|]. now repeat split.
Qed.

(** C3 (amended): the published flag is the template's.  After a run in
    which no call raises, every listed item has been processed, and the
    flag of a template is [has_sku and has_barcode] of the last listed
    item of that template, whatever the flag was before the run (the flag
    of a template without a listed item is as it was); in particular the
    flag of an item that is the only listed variant of its template is
    [has_sku and has_barcode] of the item.  For every listed item that
    has a template and for which that value is false, one row is added to
    [warehouse.unpublished.products], the newest first, holding the
    item's SKU and barcode, the brand, id and quantity of its feed
    record, the missing fields and the note; no row is added for the
    other items.  The rows are given up to their date, which is the time
    at which the item was processed. *)
Theorem published_flag_after_run
    (e : env) (api : api_data) (chunk_size : nat) (s : store) :
  _fetch_api_data e = Some api ->
  search_fault e = None ->
  (forall p, In p (listed_products e) -> no_fault e p = true) ->
  (forall n, commit_fault e n = None) ->
  0 < chunk_size ->
  exists acc s',
    sync_products_chunked e chunk_size s = (Ok (Some acc), s')
    /\ processed acc = List.length (listed_products e)
    /\ failed acc = 0
    /\ (forall t, website_published s' t
                  = match last_of_template t (listed_products e) with
                    | Some q => valid_identifiers q
                    | None => website_published s t
                    end)
    /\ (forall p tm,
          In p (listed_products e) ->
          product_tmpl_id p = Some tm ->
          (forall q, In q (listed_products e) ->
                     has_template (tmpl_id tm) q = true -> q = p) ->
          website_published s' (tmpl_id tm) = valid_identifiers p)
    /\ map undated_unpublished (unpublished_products s')
       = (rev (flat_map (unpublished_row e api) (listed_products e))
          ++ map undated_unpublished (unpublished_products s))%list.
Proof.
  intros Hf Hs Hnf Hcf Hc.
  destruct (sync_products_chunked_as_batch e api chunk_size s Hf Hs Hc)
    as (acc & s' & n & k & sb & R & B & P & F & _ & W & _).
  destruct (process_products_publishing e api (listed_products e) Hnf 0 [] s)
    as (k0 & sb0 & B0 & Hw & Hu).
  unfold _process_product_chunk in B. rewrite B0 in B. injection B as <- <- <-.
  apply undated_same_tables in W. destruct W as (_ & Wu & _ & Ww & _).
  cbn in Wu, Ww.
  assert (Hflag : forall t,
             website_published s' t
             = match last_of_template t (listed_products e) with
               | Some q => valid_identifiers q
               | None => website_published s t
               end).
  { intros t. rewrite Ww. apply Hw. }
  exists acc, s'. split; [exact R|]. split; [exact P|].
  split; [now rewrite F, failed_at_commit_none|].
  split; [exact Hflag|]. split; [|now rewrite Wu].
  intros p tm Hin Htm Honly. rewrite Hflag.
  destruct (last_of_template (tmpl_id tm) (listed_products e)) as [q|] eqn:L.
  - apply last_of_template_In in L as [Hq Ht]. now rewrite (Honly q Hq Ht).
  - exfalso. apply (last_of_template_some (tmpl_id tm) _ p Hin); [|exact L].
    unfold has_template. rewrite Htm. apply Z.eqb_refl.
Qed.

Lemma published_flag_after_run_witness :
  exists acc s',
    sync_products_chunked (sample_env sample_feed [sample_product]) 100 empty_store
    = (Ok (Some acc), s')
    /\ processed acc = 1
    /\ website_published empty_store (tmpl_id sample_template) = true
    /\ website_published s' (tmpl_id sample_template) = false
    /\ map unp_missing_fields (unpublished_products s') = ["barcode"].
Proof.
  destruct (published_flag_after_run (sample_env sample_feed [sample_product])
              sample_api 100 empty_store eq_refl eq_refl (fun _ _ => eq_refl)
              (fun _ => eq_refl) (Nat.lt_0_succ 99))
    as (acc & s' & R & P & _ & _ & Hw & Hu).
  exists acc, s'. split; [exact R|]. split; [exact P|].
  split; [reflexivity|].
  split; [apply (Hw sample_product sample_template (or_introl eq_refl) eq_refl);
          intros q [<-|[]] _; reflexivity|].
  apply (f_equal (map unp_missing_fields)) in Hu.
  rewrite map_map in Hu. exact Hu.
Defined.
